(** * The GASTRoNOoM modeling session of ComboCode: database bookkeeping

    A shallow embedding of [cc/modeling/codes/Gastronoom.py]: the three
    model databases (cooling, mline, sphinx), the database checks that
    decide between reuse of an earlier model and a new calculation, and the
    bookkeeping around the three subcodes.

    Python dictionaries are finite maps with string keys; [sorted(d.items())]
    is the list of bindings ordered by key.  Python exceptions are the
    [Raise] results of a small error monad.  Everything outside the Python
    process (the file system, the GASTRoNOoM executables, the clock behind
    [makeNewId]) is reached through a log of the actions taken so far:
    what the session reads back from the outside is a function of that log. *)

From stdpp Require Import gmap strings list fin_maps sorting.

Open Scope string_scope.
Open Scope list_scope.

(** ** Python values and dictionaries *)

(** The values held by a command list: text (numbers are kept in their
    printed form, which is how they reach the input file), or a list of
    such, as R_POINTS_MASS_LOSS is. *)
Inductive value :=
  | VStr (s : string)
  | VList (l : list string).

Global Instance value_eq_dec : EqDecision value.
Proof. solve_decision. Defined.

(** ['%s' % v] *)
Definition show (v : value) : string :=
  match v with
  | VStr s => s
  | VList l => "[" +:+ String.concat ", " l +:+ "]"
  end.

Abbreviation config := (gmap string value).

(** The three subcodes, as passed in the [code] argument of
    [compareCommandLists]. *)
Inductive code := Cooling | Mline | Sphinx.

Global Instance code_eq_dec : EqDecision code.
Proof. solve_decision. Defined.

Definition subcode_name (c : code) : string :=
  match c with
  | Cooling => "cooling"
  | Mline => "mline"
  | Sphinx => "sphinx"
  end.

(** ** Exceptions *)

Inductive exn := KeyError | IOError | AttributeError.

Inductive result (A : Type) :=
  | Ok (a : A)
  | Raise (e : exn).
Arguments Ok {A} a.
Arguments Raise {A} e.

Global Instance exn_eq_dec : EqDecision exn.
Proof. solve_decision. Defined.

Global Instance result_eq_dec {A} `{EqDecision A} : EqDecision (result A).
Proof. solve_decision. Defined.

Global Instance result_ret : MRet result := λ A a, Ok a.
Global Instance result_bind : MBind result := λ A B f m,
  match m with
  | Ok a => f a
  | Raise e => Raise e
  end.

(** [d[k]] *)
Definition getitem {V} (d : gmap string V) (k : string) : result V :=
  match d !! k with
  | Some v => Ok v
  | None => Raise KeyError
  end.

(** [del d[k]] *)
Definition delitem {V} (k : string) (d : gmap string V) : result (gmap string V) :=
  match d !! k with
  | Some _ => Ok (delete k d)
  | None => Raise KeyError
  end.

(** [d.has_key(k)] *)
Definition has_key {V} (d : gmap string V) (k : string) : bool :=
  bool_decide (is_Some (d !! k)).

(** ** [sorted(d.items())] *)

Definition key_le {V} (p q : string * V) : Prop := String.le p.1 q.1.

Global Instance key_le_dec {V} : RelDecision (@key_le V).
Proof. intros p q. unfold key_le. apply _. Defined.

Global Instance key_le_total {V} : Total (@key_le V).
Proof. intros p q. unfold key_le. apply (total String.le). Qed.

Global Instance key_le_trans {V} : Transitive (@key_le V).
Proof. intros p q r. unfold key_le. apply (transitivity (R:=String.le)). Qed.

Definition sorted_items {V} (d : gmap string V) : list (string * V) :=
  merge_sort key_le (map_to_list d).

(** ** The databases *)

(** Modelled from the spec: the class [Database] of [cc.tools.io.Database]
    is not part of these sources.  Following the KeyStore contract, it is a
    dictionary held in memory ([db_data]), the copy on the hard disk
    ([db_disk]) and the top-level keys marked as changed; item assignment
    and deletion act on the dictionary in memory, [addChangedKey] marks a
    key, and [sync] writes the dictionary to the disk. *)
Record Database (V : Type) := mkDatabase {
  db_data : gmap string V;
  db_disk : gmap string V;
  db_changed : list string
}.
Arguments mkDatabase {V} _ _ _.
Arguments db_data {V} _.
Arguments db_disk {V} _.
Arguments db_changed {V} _.

Global Instance Database_eq_dec {V} `{EqDecision V} : EqDecision (Database V).
Proof. solve_decision. Defined.

Definition db_with_data {V} (f : gmap string V → gmap string V) (db : Database V) : Database V :=
  mkDatabase (f (db_data db)) (db_disk db) (db_changed db).

Definition db_setitem {V} (k : string) (v : V) (db : Database V) : Database V :=
  db_with_data (insert k v) db.

Definition db_delitem {V} (k : string) (db : Database V) : result (Database V) :=
  d ← delitem k (db_data db); mret (mkDatabase d (db_disk db) (db_changed db)).

Definition addChangedKey {V} (k : string) (db : Database V) : Database V :=
  mkDatabase (db_data db) (db_disk db) (k :: db_changed db).

Definition sync {V} (db : Database V) : Database V :=
  mkDatabase (db_data db) (db_data db) [].

(** The layout of the three databases:
    cooling id -> command list;
    cooling id -> mline id -> molecule name -> molecule dictionary;
    cooling id -> mline id -> sphinx id -> [str(trans)] -> transition dictionary. *)
Abbreviation cool_store := (gmap string config).
Abbreviation ml_entry := (gmap string (gmap string config)).
Abbreviation sph_molec_entry := (gmap string (gmap string config)).
Abbreviation sph_entry := (gmap string (gmap string (gmap string config))).

(** ** Molecules and transitions *)

(** A [Molecule()] as far as the session sees it: its short name, the
    dictionary [makeDict()] builds from its parameters (none of which the
    session changes), and the model id, [None] until [setModelId] is
    called. *)
Record Molecule := mkMolecule {
  molecule : string;
  molec_dict : config;
  molec_model_id : option string
}.

Global Instance Molecule_eq_dec : EqDecision Molecule.
Proof. solve_decision. Defined.

Definition molec_setModelId (i : string) (m : Molecule) : Molecule :=
  mkMolecule (molecule m) (molec_dict m) (Some i).

(** A [Transition()].  Its class is not part of these sources; the session
    uses [str(trans)], [makeDict()], the [Molecule()] object it refers to
    (here the position of that object in the molecule list, so that the
    transition sees the model id the mline stage gave to the molecule) and
    the model id. *)
Record Transition := mkTransition {
  trans_str : string;
  trans_dict : config;
  trans_molecule : nat;
  trans_model_id : option string
}.

Global Instance Transition_eq_dec : EqDecision Transition.
Proof. solve_decision. Defined.

Definition trans_setModelId (i : string) (t : Transition) : Transition :=
  mkTransition (trans_str t) (trans_dict t) (trans_molecule t) (Some i).

(** Modelled from the spec: [Transition.makeDict(1)], the dictionary of a
    transition whose calculation is claimed but not finished, carries the
    IN_PROGRESS key on top of the entries of [makeDict()]. *)
Definition trans_makeDict_in_progress (t : Transition) : config :=
  <["IN_PROGRESS" := VStr "1"]> (trans_dict t).

(** Python truth value of a model id: [None] and [''] are false. *)
Definition id_truthy (i : option string) : bool :=
  match i with
  | Some s => negb (bool_decide (s = ""))
  | None => false
  end.

(** ** The world outside the session *)

(** What the session does to the outside world, in the order it does it. *)
Inductive event :=
  | ExecGastronoom (subcode filename : string)
  | WriteFile (filename : string) (input_lines : list string)
  | TestFolderExistence (folder : string)
  | CopyOutput (entry_is_molecule : bool) (entry old_id new_id : string)
  | MakeNewId (new_id : string).

Global Instance event_eq_dec : EqDecision event.
Proof. solve_decision. Defined.

Definition is_exec (e : event) : bool :=
  match e with
  | ExecGastronoom _ _ => true
  | _ => false
  end.

Definition is_new_id (e : event) : bool :=
  match e with
  | MakeNewId _ => true
  | _ => false
  end.

(** The [Vic()] manager is not part of these sources: the session only
    hands transitions and models over to it, and the calls are recorded. *)
Inductive vic_call :=
  | VicAddTransInProgress (trans : nat)
  | VicAddTrans (trans : nat)
  | VicAddModel (model_id : string) (command_list : config)
  | VicQueueModel
  | VicReset.

Global Instance vic_call_eq_dec : EqDecision vic_call.
Proof. solve_decision. Defined.

(** ** The session *)

Record Gastronoom := mkGastronoom {
  model_id : string;
  command_list : config;
  replace_db_entry : bool;
  new_entries : list string;
  vic : option (list vic_call);
  sphinx : bool;
  skip_cooling : bool;
  recover_sphinxfiles : bool;
  cool_done : bool;
  mline_done : bool;
  trans_in_progress : list nat;
  trans_bools : list bool;
  molec_list : list Molecule;
  trans_list : list Transition;
  cool_db : Database config;
  ml_db : Database ml_entry;
  sph_db : Database sph_entry;
  outside : list event
}.

Global Instance Gastronoom_eq_dec : EqDecision Gastronoom.
Proof. solve_decision. Defined.

Definition set_model_id (x : string) (s : Gastronoom) : Gastronoom :=
  mkGastronoom x (command_list s) (replace_db_entry s) (new_entries s) (vic s)
    (sphinx s) (skip_cooling s) (recover_sphinxfiles s) (cool_done s) (mline_done s)
    (trans_in_progress s) (trans_bools s) (molec_list s) (trans_list s)
    (cool_db s) (ml_db s) (sph_db s) (outside s).

Definition set_command_list (x : config) (s : Gastronoom) : Gastronoom :=
  mkGastronoom (model_id s) x (replace_db_entry s) (new_entries s) (vic s)
    (sphinx s) (skip_cooling s) (recover_sphinxfiles s) (cool_done s) (mline_done s)
    (trans_in_progress s) (trans_bools s) (molec_list s) (trans_list s)
    (cool_db s) (ml_db s) (sph_db s) (outside s).

Definition set_new_entries (x : list string) (s : Gastronoom) : Gastronoom :=
  mkGastronoom (model_id s) (command_list s) (replace_db_entry s) x (vic s)
    (sphinx s) (skip_cooling s) (recover_sphinxfiles s) (cool_done s) (mline_done s)
    (trans_in_progress s) (trans_bools s) (molec_list s) (trans_list s)
    (cool_db s) (ml_db s) (sph_db s) (outside s).

Definition set_vic (x : option (list vic_call)) (s : Gastronoom) : Gastronoom :=
  mkGastronoom (model_id s) (command_list s) (replace_db_entry s) (new_entries s) x
    (sphinx s) (skip_cooling s) (recover_sphinxfiles s) (cool_done s) (mline_done s)
    (trans_in_progress s) (trans_bools s) (molec_list s) (trans_list s)
    (cool_db s) (ml_db s) (sph_db s) (outside s).

Definition set_cool_done (x : bool) (s : Gastronoom) : Gastronoom :=
  mkGastronoom (model_id s) (command_list s) (replace_db_entry s) (new_entries s) (vic s)
    (sphinx s) (skip_cooling s) (recover_sphinxfiles s) x (mline_done s)
    (trans_in_progress s) (trans_bools s) (molec_list s) (trans_list s)
    (cool_db s) (ml_db s) (sph_db s) (outside s).

Definition set_mline_done (x : bool) (s : Gastronoom) : Gastronoom :=
  mkGastronoom (model_id s) (command_list s) (replace_db_entry s) (new_entries s) (vic s)
    (sphinx s) (skip_cooling s) (recover_sphinxfiles s) (cool_done s) x
    (trans_in_progress s) (trans_bools s) (molec_list s) (trans_list s)
    (cool_db s) (ml_db s) (sph_db s) (outside s).

Definition set_trans_in_progress (x : list nat) (s : Gastronoom) : Gastronoom :=
  mkGastronoom (model_id s) (command_list s) (replace_db_entry s) (new_entries s) (vic s)
    (sphinx s) (skip_cooling s) (recover_sphinxfiles s) (cool_done s) (mline_done s)
    x (trans_bools s) (molec_list s) (trans_list s)
    (cool_db s) (ml_db s) (sph_db s) (outside s).

Definition set_trans_bools (x : list bool) (s : Gastronoom) : Gastronoom :=
  mkGastronoom (model_id s) (command_list s) (replace_db_entry s) (new_entries s) (vic s)
    (sphinx s) (skip_cooling s) (recover_sphinxfiles s) (cool_done s) (mline_done s)
    (trans_in_progress s) x (molec_list s) (trans_list s)
    (cool_db s) (ml_db s) (sph_db s) (outside s).

Definition set_molec_list (x : list Molecule) (s : Gastronoom) : Gastronoom :=
  mkGastronoom (model_id s) (command_list s) (replace_db_entry s) (new_entries s) (vic s)
    (sphinx s) (skip_cooling s) (recover_sphinxfiles s) (cool_done s) (mline_done s)
    (trans_in_progress s) (trans_bools s) x (trans_list s)
    (cool_db s) (ml_db s) (sph_db s) (outside s).

Definition set_trans_list (x : list Transition) (s : Gastronoom) : Gastronoom :=
  mkGastronoom (model_id s) (command_list s) (replace_db_entry s) (new_entries s) (vic s)
    (sphinx s) (skip_cooling s) (recover_sphinxfiles s) (cool_done s) (mline_done s)
    (trans_in_progress s) (trans_bools s) (molec_list s) x
    (cool_db s) (ml_db s) (sph_db s) (outside s).

Definition set_cool_db (x : Database config) (s : Gastronoom) : Gastronoom :=
  mkGastronoom (model_id s) (command_list s) (replace_db_entry s) (new_entries s) (vic s)
    (sphinx s) (skip_cooling s) (recover_sphinxfiles s) (cool_done s) (mline_done s)
    (trans_in_progress s) (trans_bools s) (molec_list s) (trans_list s)
    x (ml_db s) (sph_db s) (outside s).

Definition set_ml_db (x : Database ml_entry) (s : Gastronoom) : Gastronoom :=
  mkGastronoom (model_id s) (command_list s) (replace_db_entry s) (new_entries s) (vic s)
    (sphinx s) (skip_cooling s) (recover_sphinxfiles s) (cool_done s) (mline_done s)
    (trans_in_progress s) (trans_bools s) (molec_list s) (trans_list s)
    (cool_db s) x (sph_db s) (outside s).

Definition set_sph_db (x : Database sph_entry) (s : Gastronoom) : Gastronoom :=
  mkGastronoom (model_id s) (command_list s) (replace_db_entry s) (new_entries s) (vic s)
    (sphinx s) (skip_cooling s) (recover_sphinxfiles s) (cool_done s) (mline_done s)
    (trans_in_progress s) (trans_bools s) (molec_list s) (trans_list s)
    (cool_db s) (ml_db s) x (outside s).

(** One more action on the outside world. *)
Definition log (e : event) (s : Gastronoom) : Gastronoom :=
  mkGastronoom (model_id s) (command_list s) (replace_db_entry s) (new_entries s) (vic s)
    (sphinx s) (skip_cooling s) (recover_sphinxfiles s) (cool_done s) (mline_done s)
    (trans_in_progress s) (trans_bools s) (molec_list s) (trans_list s)
    (cool_db s) (ml_db s) (sph_db s) (outside s ++ [e]).

(** A text between double quotes, as the input files want file names. *)
Definition quoted (s : string) : string :=
  let q := String (Ascii.ascii_of_nat 34) EmptyString in q +:+ s +:+ q.

(** [os.path.join] on plain path components. *)
Definition path_join (parts : list string) : string := String.concat "/" parts.

(** ['%s=%s' % (k,v)] for the bindings of [d] in the order of the keys. *)
Definition command_lines (d : config) : list string :=
  (λ kv, kv.1 +:+ "=" +:+ show kv.2) <$> sorted_items d.

(** [set(l) == set([''])] for a list of model ids. *)
Definition only_empty_ids (l : list (option string)) : bool :=
  match l with
  | [] => false
  | _ => forallb (λ i, bool_decide (i = Some "")) l
  end.

(** A model id used where a string is required (a path component, a
    dictionary key that has to be present). *)
Definition key_of (i : option string) : result string :=
  match i with
  | Some k => Ok k
  | None => Raise KeyError
  end.

Definition path_of (i : option string) : result string :=
  match i with
  | Some k => Ok k
  | None => Raise AttributeError
  end.

(** [d[a][b][c]] *)
Definition getitem3 {V} (d : gmap string (gmap string (gmap string V))) (a b c : string) : result V :=
  x ← getitem d a; y ← getitem x b; getitem y c.

(** In-place change of the object [d[a][b][c]]. *)
Definition alter3 {V} (f : V → V) (a b c : string)
    (d : gmap string (gmap string (gmap string V))) : gmap string (gmap string (gmap string V)) :=
  alter (alter (alter f c) b) a d.

(** A [Star()] as far as the session reads it: the molecules and
    transitions requested, and the entries of the command list that
    [doGastronoom] takes from the star and the standard input file (through
    [setCommandKey] of the parent class), none of which names the model. *)
Record Star := mkStar {
  GAS_LIST : list Molecule;
  GAS_LINES : list Transition;
  star_command_list : config
}.

(** [Star.getMolecule] *)
Definition getMolecule (star : Star) (molec_name : string) : option Molecule :=
  find (λ m, bool_decide (molecule m = molec_name)) (GAS_LIST star).

(** ** An instance of the outside world, to run the session on *)

(** Modelled from the spec: the ConfigMatcher contract for
    [compareCommandLists], which is not part of these sources.  The keys that
    name the run (output directory, parameter file, output suffix) are left
    out on both sides, as is the IN_PROGRESS mark, which stands beside the
    configuration of a transition, and the abundance keys too when
    [ignoreAbun] is set; on what remains the two dictionaries have to agree
    key by key, a key on one side only being a difference.  The entries of
    [extra_dict] count as part of the request. *)
Definition run_identity_keys : list string :=
  ["OUTPUT_DIRECTORY"; "PARAMETER_FILE"; "OUTPUT_SUFFIX"].

Definition abundance_keys : list string :=
  ["ABUN_MOLEC"; "ABUN_MOLEC_RINNER"; "ABUN_MOLEC_RE"; "RMAX_MOLEC"].

Definition ConfigMatcher (this_list modellist : config) (c : code) (ignoreAbun : bool)
    (extra_dict : option config) : bool :=
  let ignore := run_identity_keys ++ ["IN_PROGRESS"]
                ++ (if ignoreAbun then abundance_keys else []) in
  let keep (d : config) : config := filter (λ kv, kv.1 ∉ ignore) d in
  bool_decide (keep (this_list ∪ default ∅ extra_dict) = keep modellist).

(** Ids from a counter: the number of ids handed out so far, in unary. *)
Definition counter_id (history : list event) : string :=
  "model_" +:+ String.concat "" (replicate (length (filter (λ e, is_new_id e = true) history)) "i").

(** A file system in which a run leaves every output file behind. *)
Definition every_run_succeeds_isfile (history : list event) (path : string) : bool :=
  bool_decide (Exists (λ e, is_exec e = true) history).

(** ** The methods of [Gastronoom] *)

Section Gastronoom.

Set Default Proof Using "Type".

(** [ModelingSession.compareCommandLists(this_list, modellist, code,
    ignoreAbun, extra_dict)]: defined in the parent class, outside these
    sources.  It answers whether the requested dictionary and the one of
    the database describe the same model. *)
Variable compareCommandLists : config → config → code → bool → option config → bool.

(** [ModelingSession.makeNewId()], from the clock; what it returns depends
    on what happened before. *)
Variable makeNewId : list event → string.

(** [os.path.isfile] and [glob], after the actions taken so far. *)
Variable isfile : list event → string → bool.
Variable glob : list event → string → list string.

(** [cc.path.gout] *)
Variable gout : string.

(** [Transition.makeSphinxFilename(number='*')] *)
Variable makeSphinxFilename : Transition → string.

(** The string methods used by [updateModel]: [s.find(sub)],
    [s[i:j]] and [s.replace(old,new,count)]. *)
Variable str_find : string → string → Z.
Variable str_slice : string → Z → Z → string.
Variable str_replace : string → string → string → nat → string.

(** [Molecule('1H1H16O',45,45,648,50).makeDict()] and
    [Molecule('12C16O',61,61,240,50).makeDict()], the defaults of
    [doCooling]; building them reads the molecule data files. *)
Variable default_h2o_dict : config.
Variable default_co_dict : config.

Definition cooling_molec_keys : list string :=
  ["ENHANCE_ABUNDANCE_FACTOR"; "ABUNDANCE_FILENAME";
   "NUMBER_INPUT_ABUNDANCE_VALUES"; "KEYWORD_TABLE"; "MOLECULE_TABLE";
   "ISOTOPE_TABLE"].

Definition no_ab_molecs : list string :=
  ["12C16O"; "13C16O"; "1H1H16O"; "p1H1H16O";
   "1H1H17O"; "p1H1H17O"; "1H1H18O"; "p1H1H18O"].

Definition addTransInProgress (trans : nat) (s : Gastronoom) : Gastronoom :=
  set_trans_in_progress (trans_in_progress s ++ [trans]) s.

(** [str.lower()], on the letters A to Z. *)
Definition ascii_lower (a : Ascii.ascii) : Ascii.ascii :=
  let n := Ascii.N_of_ascii a in
  if (65 <=? n)%N && (n <=? 90)%N then Ascii.ascii_of_N (n + 32) else a.

Fixpoint py_lower (s : string) : string :=
  match s with
  | EmptyString => EmptyString
  | String a s' => String (ascii_lower a) (py_lower s')
  end.

Definition execGastronoom (filename subcode : string) (s : Gastronoom) : result Gastronoom :=
  if bool_decide (py_lower subcode ∈ ["cooling"; "mline"; "sphinx"])
  then mret (log (ExecGastronoom (py_lower subcode) filename) s)
  else Raise IOError.

Definition makeIdLog (new_id : string) (molec_id : option string) (s : Gastronoom) : Gastronoom :=
  let s := log (WriteFile (path_join [gout; "models"; new_id; "cooling_id.log"])
                          [model_id s]) s in
  match molec_id with
  | Some m => log (WriteFile (path_join [gout; "models"; new_id; "mline_id.log"]) [m]) s
  | None => s
  end.

(** One of the three entries rewritten by [updateModel]. *)
Definition updateModel_par (new_id par : string) (cl : config) : result config :=
  v ← getitem cl par;
  match v with
  | VStr old =>
      let i := str_find old "model_" in
      mret (<[par := VStr (str_replace old (str_slice old i (i + 25)) new_id 2)]> cl)
  | VList _ => Raise AttributeError
  end.

Definition updateModel (new_model_id : option string) (s : Gastronoom) : result Gastronoom :=
  let new_id := if id_truthy new_model_id then default "" new_model_id else model_id s in
  cl ← updateModel_par new_id "OUTPUT_DIRECTORY" (command_list s);
  cl ← updateModel_par new_id "PARAMETER_FILE" cl;
  cl ← updateModel_par new_id "OUTPUT_SUFFIX" cl;
  mret (set_command_list cl s).

Definition deleteCoolingId (old_id : string) (s : Gastronoom) : result Gastronoom :=
  cdb ← db_delitem old_id (cool_db s);
  let s := set_cool_db cdb s in
  let s := set_ml_db (db_with_data (delete old_id) (ml_db s)) s in
  mret (set_sph_db (db_with_data (delete old_id) (sph_db s)) s).

(** The loop of [checkCoolingDatabase] over [sorted(self.cool_db.items())]. *)
Fixpoint checkCooling_scan (items : list (string * config)) (molec_dict : config)
    (s : Gastronoom) : result (bool * Gastronoom) :=
  match items with
  | [] => mret (false, s)
  | (old_id, cool_dict) :: rest =>
      if compareCommandLists (command_list s) cool_dict Cooling false (Some molec_dict)
      then
        if replace_db_entry s && negb (bool_decide (old_id ∈ new_entries s))
        then s ← deleteCoolingId old_id s; mret (false, s)
        else s ← updateModel None (set_model_id old_id s); mret (true, s)
      else checkCooling_scan rest molec_dict s
  end.

Definition checkCoolingDatabase (molec_dict : config) (s : Gastronoom) : result (bool * Gastronoom) :=
  checkCooling_scan (sorted_items (db_data (cool_db s))) molec_dict s.

(** [self.ml_db[self.model_id]], and the same dictionary after a change
    made in place. *)
Definition ml_cooling_entry (s : Gastronoom) : result ml_entry :=
  getitem (db_data (ml_db s)) (model_id s).

Definition set_ml_cooling_entry (e : ml_entry) (s : Gastronoom) : Gastronoom :=
  set_ml_db (db_with_data (insert (model_id s) e) (ml_db s)) s.

(** The mline ids under the cooling id that hold the molecule, in the
    order of the ids, each with the dictionary stored for the molecule. *)
Definition mline_candidates (e : ml_entry) (name : string) : list (string * config) :=
  omap (λ kv, (λ d, (kv.1, d)) <$> kv.2 !! name) (sorted_items e).

(** The first id under which the name is not present yet. *)
Definition free_slot {V} (e : gmap string (gmap string V)) (name : string) : option string :=
  fst <$> find (λ kv, negb (has_key kv.2 name)) (sorted_items e).

Definition copyOutput (entry_is_molecule : bool) (entry old_id new_id : string)
    (s : Gastronoom) : Gastronoom :=
  log (CopyOutput entry_is_molecule entry old_id new_id) s.

(** The body of the loop of [checkMlineDatabase] for one molecule. *)
Definition checkMline_molec (molec : Molecule) (model_bools : list bool)
    (new_molec_id : string) (s : Gastronoom)
    : result (Molecule * list bool * string * Gastronoom) :=
  e ← ml_cooling_entry s;
  let hit := find (λ kd, compareCommandLists (molec_dict molec) kd.2 Mline
                           (bool_decide (molecule molec ∈ no_ab_molecs)) None)
                  (mline_candidates e (molecule molec)) in
  let molec' := match hit with
                | Some kd => molec_setModelId kd.1 molec
                | None => molec
                end in
  let model_bools := match hit with
                     | Some _ => model_bools ++ [true]
                     | None => model_bools
                     end in
  match molec_model_id molec' with
  | Some _ => mret (molec', model_bools, new_molec_id, s)
  | None =>
      let model_bools := model_bools ++ [false] in
      match free_slot e (molecule molec) with
      | Some k => mret (molec_setModelId k molec', model_bools, new_molec_id, s)
      | None =>
          if bool_decide (new_molec_id = "") then
            let new_molec_id := makeNewId (outside s) in
            let s := log (MakeNewId new_molec_id) s in
            let s := makeIdLog new_molec_id None s in
            let s := copyOutput true (molecule molec) (model_id s) new_molec_id s in
            e ← ml_cooling_entry s;
            let s := set_ml_cooling_entry (<[new_molec_id := ∅]> e) s in
            let s := set_ml_db (addChangedKey (model_id s) (ml_db s)) s in
            mret (molec_setModelId new_molec_id molec', model_bools, new_molec_id, s)
          else mret (molec_setModelId new_molec_id molec', model_bools, new_molec_id, s)
      end
  end.

Fixpoint checkMline_loop (molecs : list Molecule) (model_bools : list bool)
    (new_molec_id : string) (s : Gastronoom)
    : result (list Molecule * list bool * string * Gastronoom) :=
  match molecs with
  | [] => mret ([], model_bools, new_molec_id, s)
  | molec :: rest =>
      r ← checkMline_molec molec model_bools new_molec_id s;
      let '(molec', model_bools, new_molec_id, s) := r in
      r ← checkMline_loop rest model_bools new_molec_id s;
      let '(rest', model_bools, new_molec_id, s) := r in
      mret (molec' :: rest', model_bools, new_molec_id, s)
  end.

Definition checkMlineDatabase (s : Gastronoom) : result (list bool * Gastronoom) :=
  if negb (has_key (db_data (ml_db s)) (model_id s)) then
    let n := length (molec_list s) in
    let s := set_molec_list (molec_setModelId (model_id s) <$> molec_list s) s in
    let s := set_ml_db (db_setitem (model_id s) {[ model_id s := ∅ ]} (ml_db s)) s in
    mret (replicate n false, s)
  else
    r ← checkMline_loop (molec_list s) [] "" s;
    let '(molecs, model_bools, _, s) := r in
    let s := set_molec_list molecs s in
    mret (model_bools, set_ml_db (sync (ml_db s)) s).

(** [self.sph_db[self.model_id]], and the same dictionary after a change
    made in place. *)
Definition sph_cooling_entry (s : Gastronoom) : result sph_entry :=
  getitem (db_data (sph_db s)) (model_id s).

Definition set_sph_cooling_entry (e : sph_entry) (s : Gastronoom) : Gastronoom :=
  set_sph_db (db_with_data (insert (model_id s) e) (sph_db s)) s.

(** [trans.molecule] *)
Definition molecule_of (trans : Transition) (s : Gastronoom) : result Molecule :=
  match molec_list s !! trans_molecule trans with
  | Some m => Ok m
  | None => Raise AttributeError
  end.

(** The sphinx ids under a molecule id that hold the transition, in the
    order of the ids, each with a copy of the stored dictionary. *)
Definition sphinx_candidates (me : sph_molec_entry) (sig : string) : list (string * config) :=
  omap (λ kv, (λ d, (kv.1, d)) <$> kv.2 !! sig) (sorted_items me).

Definition append_trans_bool (b : bool) (s : Gastronoom) : Gastronoom :=
  set_trans_bools (trans_bools s ++ [b]) s.

(** What [checkSphinxDatabase] does with a transition found in the
    database under [trans_id]. *)
Definition sphinx_found (i : nat) (db_trans_dict : config) (s : Gastronoom) : Gastronoom :=
  let s := append_trans_bool true s in
  if has_key db_trans_dict "IN_PROGRESS" then
    match vic s with
    | Some calls => set_vic (Some (calls ++ [VicAddTransInProgress i])) s
    | None => addTransInProgress i s
    end
  else s.

(** The body of the loop of [checkSphinxDatabase] for the transition at
    position [i] of the list. *)
Definition checkSphinx_trans (i : nat) (trans : Transition) (new_trans_id : string)
    (copied : list nat) (s : Gastronoom)
    : result (Transition * string * list nat * Gastronoom) :=
  molec ← molecule_of trans s;
  if negb (id_truthy (molec_model_id molec)) then
    mret (trans_setModelId "" trans, new_trans_id, copied, append_trans_bool false s)
  else
    let molec_id := default "" (molec_model_id molec) in
    e ← sph_cooling_entry s;
    match e !! molec_id with
    | None =>
        let leaf := {[ trans_str trans := trans_makeDict_in_progress trans ]} in
        let s := set_sph_cooling_entry (<[molec_id := {[ molec_id := leaf ]}]> e) s in
        let s := set_sph_db (addChangedKey (model_id s) (sph_db s)) s in
        mret (trans_setModelId molec_id trans, new_trans_id, copied,
              append_trans_bool false s)
    | Some me =>
        let hit := find (λ kd, compareCommandLists (trans_dict trans) kd.2 Sphinx false None)
                        (sphinx_candidates me (trans_str trans)) in
        let trans' := match hit with
                      | Some kd => trans_setModelId kd.1 trans
                      | None => trans
                      end in
        let s := match hit with
                 | Some kd => sphinx_found i kd.2 s
                 | None => s
                 end in
        match trans_model_id trans' with
        | Some _ => mret (trans', new_trans_id, copied, s)
        | None =>
            let s := append_trans_bool false s in
            let slot := free_slot me (trans_str trans) in
            let new_trans_id' :=
              match slot with
              | Some _ => new_trans_id
              | None => if bool_decide (new_trans_id = "")
                        then makeNewId (outside s) else new_trans_id
              end in
            let s :=
              match slot with
              | Some _ => s
              | None => if bool_decide (new_trans_id = "")
                        then makeIdLog new_trans_id' (Some molec_id)
                               (log (MakeNewId new_trans_id') s)
                        else s
              end in
            let me :=
              match slot with
              | Some _ => me
              | None => if has_key me new_trans_id' then me
                        else <[new_trans_id' := ∅]> me
              end in
            let trans_id := default new_trans_id' slot in
            let copy := bool_decide (trans_molecule trans ∈ copied) in
            let s := if copy then s
                     else copyOutput false (trans_str trans) molec_id trans_id s in
            let copied := if copy then copied else copied ++ [trans_molecule trans] in
            leaf ← getitem me trans_id;
            let leaf := <[trans_str trans := trans_makeDict_in_progress trans]> leaf in
            let s := set_sph_cooling_entry (<[molec_id := <[trans_id := leaf]> me]> e) s in
            let s := set_sph_db (addChangedKey (model_id s) (sph_db s)) s in
            mret (trans_setModelId trans_id trans', new_trans_id', copied, s)
        end
    end.

Fixpoint checkSphinx_loop (i : nat) (transs : list Transition) (new_trans_id : string)
    (copied : list nat) (s : Gastronoom)
    : result (list Transition * string * list nat * Gastronoom) :=
  match transs with
  | [] => mret ([], new_trans_id, copied, s)
  | trans :: rest =>
      r ← checkSphinx_trans i trans new_trans_id copied s;
      let '(trans', new_trans_id, copied, s) := r in
      r ← checkSphinx_loop (S i) rest new_trans_id copied s;
      let '(rest', new_trans_id, copied, s) := r in
      mret (trans' :: rest', new_trans_id, copied, s)
  end.

Definition checkSphinxDatabase (s : Gastronoom) : result Gastronoom :=
  let s := if has_key (db_data (sph_db s)) (model_id s) then s
           else set_sph_db (db_setitem (model_id s) ∅ (sph_db s)) s in
  r ← checkSphinx_loop 0 (trans_list s) "" [] s;
  let '(transs, _, _, s) := r in
  let s := set_trans_list transs s in
  mret (set_sph_db (sync (sph_db s)) s).

(** The lines for R_POINTS_MASS_LOSS that close a command file. *)
Definition mass_loss_lines (cl : config) : list string :=
  match cl !! "R_POINTS_MASS_LOSS" with
  | Some (VList l) => ((λ v, "R_POINTS_MASS_LOSS=" +:+ v) <$> l) ++ ["####"]
  | Some (VStr str) =>
      ((λ c, "R_POINTS_MASS_LOSS=" +:+ String c "") <$> String.list_ascii_of_string str) ++ ["####"]
  | None => []
  end.

Definition general_lines (cl : config) : list string :=
  command_lines (delete "R_POINTS_MASS_LOSS" cl).

Definition inputfile (i : string) : string :=
  path_join [gout; "models"; "gastronoom_" +:+ i +:+ ".inp"].

(** The molecule dictionaries that [doCooling] collects for the cooling
    input file, and the H2O entries that are compared and stored with the
    command list. *)
Definition h2o_dict_of (star : Star) : config :=
  match getMolecule star "1H1H16O" with
  | Some m => molec_dict m
  | None => default_h2o_dict
  end.

Definition co_dict_of (star : Star) : config :=
  match getMolecule star "12C16O" with
  | Some m => molec_dict m
  | None => default_co_dict
  end.

Definition cooling_molec_dict (star : Star) : config :=
  list_to_map (omap (λ k, (λ v, (k, v)) <$> h2o_dict_of star !! k) cooling_molec_keys).

(** The output file that tells a finished cooling model. *)
Definition coolfgr_file (i : string) : string :=
  path_join [gout; "models"; i; "coolfgr_all" +:+ i +:+ ".dat"].

(** The lines of the cooling input file. *)
Definition cooling_commandfile (cl h2o_dict : config) (co_molecule : value) : list string :=
  general_lines cl ++ ["####"]
  ++ ["MOLECULE=" +:+ show co_molecule]
  ++ omap (λ k, (λ v, k +:+ "=" +:+ show v) <$> h2o_dict !! k)
          (cooling_molec_keys ++ ["MOLECULE"])
  ++ ["####"] ++ mass_loss_lines cl.
Local Arguments cooling_commandfile : simpl never.

Definition doCooling (star : Star) (s : Gastronoom) : result Gastronoom :=
  let h2o_dict := h2o_dict_of star in
  let co_dict := co_dict_of star in
  if has_key co_dict "MOLECULE_TABLE" then Raise IOError else
  cl ← (if has_key h2o_dict "MOLECULE_TABLE"
        then delitem "F_H2O" (command_list s) else mret (command_list s));
  let s := set_command_list cl s in
  let molec_dict := cooling_molec_dict star in
  r ← checkCoolingDatabase molec_dict s;
  let '(model_bool, s) := (r : bool * Gastronoom) in
  if model_bool then mret s else
  let s := log (TestFolderExistence (path_join [gout; "models"; model_id s])) s in
  co_molecule ← getitem co_dict "MOLECULE";
  let commandfile := cooling_commandfile (command_list s) h2o_dict co_molecule in
  let filename := inputfile (model_id s) in
  let s := log (WriteFile filename commandfile) s in
  s ← (if skip_cooling s then mret s
       else s ← execGastronoom filename "cooling" s; mret (set_cool_done true s));
  if isfile (outside s) (coolfgr_file (model_id s))
  then
    let s := set_cool_db (db_setitem (model_id s) (command_list s ∪ molec_dict) (cool_db s)) s in
    mret (set_cool_db (sync (cool_db s)) s)
  else mret (set_model_id "" s).

(** ['%s' % i] for a model id. *)
Definition show_id (i : option string) : string := default "None" i.

(** The pattern of the output files that tell a finished mline model. *)
Definition mline_files (molec_id name : string) : string :=
  path_join [gout; "models"; molec_id; "ml*" +:+ molec_id +:+ "_" +:+ name +:+ ".dat"].

(** The body of the loop of [doMline] for one molecule and its flag. *)
Definition doMline_molec (molec : Molecule) (model_bool : bool) (s : Gastronoom)
    : result (Molecule * Gastronoom) :=
  if model_bool then mret (molec, s) else
  s ← updateModel (molec_model_id molec) s;
  let commandfile :=
    general_lines (command_list s) ++ ["####"]
    ++ command_lines (molec_dict molec) ++ ["####"]
    ++ mass_loss_lines (command_list s) in
  let filename := inputfile (show_id (molec_model_id molec)) in
  let s := log (WriteFile filename commandfile) s in
  s ← execGastronoom filename "mline" s;
  let s := set_mline_done true s in
  molec_id ← path_of (molec_model_id molec);
  if bool_decide (length (glob (outside s) (mline_files molec_id (molecule molec))) = 3) then
    e ← ml_cooling_entry s;
    slot ← getitem e molec_id;
    let s := set_ml_cooling_entry (<[molec_id := <[molecule molec := molec_dict molec]> slot]> e) s in
    let s := set_ml_db (addChangedKey (model_id s) (ml_db s)) s in
    mret (molec, set_ml_db (sync (ml_db s)) s)
  else mret (molec_setModelId "" molec, s).

(** [for molec,model_bool in zip(self.molec_list,model_bools)] *)
Fixpoint doMline_loop (molecs : list Molecule) (model_bools : list bool) (s : Gastronoom)
    : result (list Molecule * Gastronoom) :=
  match molecs, model_bools with
  | molec :: molecs', model_bool :: model_bools' =>
      r ← doMline_molec molec model_bool s;
      let '(molec', s) := r in
      r ← doMline_loop molecs' model_bools' s;
      let '(rest, s) := r in
      mret (molec' :: rest, s)
  | _, _ => mret (molecs, s)
  end.

Definition doMline (s : Gastronoom) : result Gastronoom :=
  let s := set_mline_done false s in
  r ← checkMlineDatabase s;
  let '(model_bools, s) := r in
  cl ← delitem "R_OUTER" (command_list s);
  cl ← delitem "OUTER_R_MODE" cl;
  let s := set_command_list cl s in
  r ← doMline_loop (molec_list s) model_bools s;
  let '(molecs, s) := r in
  let s := set_molec_list molecs s in
  if only_empty_ids (molec_model_id <$> molec_list s) then mret (set_model_id "" s)
  else
    match vic s with
    | Some calls =>
        if sphinx s
        then mret (set_vic (Some (calls ++ [VicAddModel (model_id s) (command_list s)])) s)
        else mret s
    | None => mret s
    end.

(** The dictionary of sphinx models [self.sph_db[self.model_id]
    [trans.molecule.getModelId()][trans.getModelId()]] of a transition. *)
Definition sph_models_of (trans : Transition) (s : Gastronoom)
    : result (string * string * gmap string config) :=
  molec ← molecule_of trans s;
  molec_id ← key_of (molec_model_id molec);
  trans_id ← key_of (trans_model_id trans);
  models ← getitem3 (db_data (sph_db s)) (model_id s) molec_id trans_id;
  mret (molec_id, trans_id, models).

(** [del self.sph_db[self.model_id][molec_id][trans_id][str(trans)]]
    followed by [addChangedKey]. *)
Definition delete_sph_model (trans : Transition) (s : Gastronoom) : result Gastronoom :=
  r ← sph_models_of trans s;
  let '(molec_id, trans_id, models) := r in
  models ← delitem (trans_str trans) models;
  let s := set_sph_db (db_with_data (alter3 (λ _, models) (model_id s) molec_id trans_id)
                         (sph_db s)) s in
  mret (set_sph_db (addChangedKey (model_id s) (sph_db s)) s).

Definition checkSphinxOutput (trans : Transition) (s : Gastronoom)
    : result (Transition * Gastronoom) :=
  let filename := makeSphinxFilename trans in
  folder ← path_of (trans_model_id trans);
  if bool_decide (length (glob (outside s) (path_join [gout; "models"; folder; filename])) = 2)
  then
    r ← sph_models_of trans s;
    let '(molec_id, trans_id, models) := r in
    d ← getitem models (trans_str trans);
    let d := if has_key d "IN_PROGRESS" then delete "IN_PROGRESS" d else d in
    let s := set_sph_db (db_with_data
                           (alter3 (insert (trans_str trans) d) (model_id s) molec_id trans_id)
                           (sph_db s)) s in
    mret (trans, set_sph_db (addChangedKey (model_id s) (sph_db s)) s)
  else
    s ← delete_sph_model trans s;
    mret (trans_setModelId "" trans, s).

(** The loop of [finalizeSphinx] over [self.trans_in_progress]. *)
Fixpoint finalize_loop (in_progress : list nat) (s : Gastronoom) : result Gastronoom :=
  match in_progress with
  | [] => mret s
  | i :: rest =>
      trans ← match trans_list s !! i with
              | Some t => Ok t
              | None => Raise AttributeError
              end;
      r ← sph_models_of trans s;
      let '(_, _, models) := r in
      let reset := match models !! trans_str trans with
                   | None => true
                   | Some d => has_key d "IN_PROGRESS"
                   end in
      finalize_loop rest
        (if reset then set_trans_list (<[i := trans_setModelId "" trans]> (trans_list s)) s
         else s)
  end.

Definition finalizeSphinx (s : Gastronoom) : result Gastronoom :=
  let s := if only_empty_ids (trans_model_id <$> trans_list s)
           then set_model_id "" s else s in
  finalize_loop (trans_in_progress s) s.

(** The body of the loop of [doSphinx] for the transition at position [i]. *)
Definition doSphinx_trans (i : nat) (trans_bool : bool) (trans : Transition)
    (s : Gastronoom) : result (Transition * Gastronoom) :=
  if negb trans_bool && id_truthy (trans_model_id trans) then
    if negb (sphinx s) then
      s ← delete_sph_model trans s;
      mret (trans_setModelId "" trans, s)
    else
      match vic s with
      | Some calls => mret (trans, set_vic (Some (calls ++ [VicAddTrans i])) s)
      | None =>
          if recover_sphinxfiles s then checkSphinxOutput trans s
          else
            s ← updateModel (trans_model_id trans) s;
            molec ← molecule_of trans s;
            let commandfile :=
              general_lines (command_list s) ++ ["####"]
              ++ command_lines (molec_dict molec) ++ ["####"]
              ++ command_lines (trans_dict trans) ++ ["######"]
              ++ mass_loss_lines (command_list s) in
            let filename := inputfile (show_id (trans_model_id trans)) in
            let s := log (WriteFile filename commandfile) s in
            s ← execGastronoom filename "sphinx" s;
            r ← checkSphinxOutput trans s;
            let '(trans, s) := r in
            mret (trans, set_sph_db (sync (sph_db s)) s)
      end
  else mret (trans, s).

(** [for i,(trans_bool,trans) in enumerate(zip(self.trans_bools,self.trans_list))] *)
Fixpoint doSphinx_loop (i : nat) (bools : list bool) (transs : list Transition)
    (s : Gastronoom) : result (list Transition * Gastronoom) :=
  match bools, transs with
  | trans_bool :: bools', trans :: transs' =>
      r ← doSphinx_trans i trans_bool trans s;
      let '(trans', s) := r in
      r ← doSphinx_loop (S i) bools' transs' s;
      let '(rest, s) := r in
      mret (trans' :: rest, s)
  | _, _ => mret (transs, s)
  end.

(** [zip(a,b)] *)
Fixpoint zip {A B} (a : list A) (b : list B) : list (A * B) :=
  match a, b with
  | x :: a', y :: b' => (x, y) :: zip a' b'
  | _, _ => []
  end.

(** [[trans.molecule.getModelId() for boolean,trans in ... if not boolean]] *)
Fixpoint missing_molec_ids (bts : list (bool * Transition)) (s : Gastronoom)
    : result (list (option string)) :=
  match bts with
  | [] => mret []
  | (boolean, trans) :: rest =>
      if boolean then missing_molec_ids rest s
      else
        molec ← molecule_of trans s;
        ids ← missing_molec_ids rest s;
        mret (molec_model_id molec :: ids)
  end.

Definition doSphinx (s : Gastronoom) : result Gastronoom :=
  s ← checkSphinxDatabase s;
  r ← doSphinx_loop 0 (trans_bools s) (trans_list s) s;
  let '(transs, s) := r in
  let s := set_trans_list transs s in
  s ← finalizeSphinx s;
  let s := if negb (sphinx s) || recover_sphinxfiles s
           then set_sph_db (sync (sph_db s)) s else s in
  ids ← missing_molec_ids (zip (trans_bools s) (trans_list s)) s;
  let mline_not_available := only_empty_ids ids in
  let any_false := bool_decide (false ∈ trans_bools s) in
  match vic s with
  | Some calls =>
      if sphinx s then
        if any_false && negb mline_not_available
        then mret (set_vic (Some (calls ++ [VicQueueModel])) s)
        else mret (set_vic (Some (calls ++ [VicReset])) s)
      else mret s
  | None => mret s
  end.

(** [cc.path.gdata] *)
Variable gdata : string.

(** [doGastronoom]: a new model id, the command list of the request, and
    the cooling stage. *)
Definition request_command_list (star : Star) (new_id : string) : config :=
  <["OUTPUT_SUFFIX" := VStr new_id]>
  (<["PARAMETER_FILE" := VStr (quoted (path_join [gout; "models"; new_id;
                                   "parameter_file_" +:+ new_id +:+ ".dat"]))]>
  (<["OUTPUT_DIRECTORY" := VStr (quoted (path_join [gout; "models"; new_id] +:+ "/"))]>
  (<["DATA_DIRECTORY" := VStr (quoted gdata)]> (star_command_list star)))).

Definition doGastronoom (star : Star) (s : Gastronoom) : result Gastronoom :=
  let s := if bool_decide (model_id s = "") then s
           else set_new_entries (new_entries s ++ [model_id s]) s in
  let s := set_cool_done false s in
  let new_id := makeNewId (outside s) in
  let s := set_model_id new_id (log (MakeNewId new_id) s) in
  let s := set_molec_list (GAS_LIST star) (set_trans_list (GAS_LINES star) s) in
  let s := set_command_list (request_command_list star new_id) s in
  doCooling star s.


(** ** Dictionaries in the order of their keys *)

Section sorted_items.
Context {V : Type}.
Implicit Types (d : gmap string V) (l : list (string * V)) (f : string * V → bool).

Lemma sorted_items_elem d k v : (k, v) ∈ sorted_items d ↔ d !! k = Some v.
Proof.
  unfold sorted_items. rewrite merge_sort_Permutation.
  apply elem_of_map_to_list.
Qed.

Lemma sorted_items_sorted d : StronglySorted key_le (sorted_items d).
Proof. apply StronglySorted_merge_sort; apply _. Qed.

Lemma sorted_items_empty : sorted_items (∅ : gmap string V) = [].
Proof. unfold sorted_items. by rewrite map_to_list_empty. Qed.

Lemma find_first_sorted f l kv :
  StronglySorted key_le l → find f l = Some kv →
  kv ∈ l ∧ f kv = true ∧ ∀ kv', kv' ∈ l → f kv' = true → key_le kv kv'.
Proof.
  induction 1 as [|x l Hl IH Hx]; simpl; [done|].
  destruct (f x) eqn:Hfx.
  - intros [= <-]. split; [left|]. split; [done|].
    intros kv' [->|Hin]%elem_of_cons _; [unfold key_le; done|].
    by eapply Forall_forall in Hx.
  - intros Hfind. destruct (IH Hfind) as (Hin & Hf & Hmin).
    split; [by right|]. split; [done|].
    intros kv' [->|Hin']%elem_of_cons Hf'; [congruence|by apply Hmin].
Qed.

Lemma find_none_all f l kv : find f l = None → kv ∈ l → f kv = false.
Proof.
  induction l as [|x l IH]; simpl; [by intros _ ?%elem_of_nil|].
  destruct (f x) eqn:Hfx; [done|].
  intros Hfind [->|Hin]%elem_of_cons; [done|by apply IH].
Qed.

Lemma find_is_some f l kv : kv ∈ l → f kv = true → is_Some (find f l).
Proof.
  intros Hin Hf. destruct (find f l) eqn:Hfind; [by eexists|].
  by rewrite (find_none_all _ _ _ Hfind Hin) in Hf.
Qed.

End sorted_items.

(** ** The cooling database *)

(** The command list holds a text under each of the three entries that
    [updateModel] rewrites, as it does once [doGastronoom] has built it. *)
Definition has_model_keys (cl : config) : bool :=
  forallb (λ par, match cl !! par with
                  | Some (VStr _) => true
                  | _ => false
                  end) run_identity_keys.

(** The test of [checkCoolingDatabase] on one entry of the database. *)
Definition cooling_match (molec_dict : config) (s : Gastronoom) (kv : string * config) : bool :=
  compareCommandLists (command_list s) kv.2 Cooling false (Some molec_dict).

Lemma updateModel_par_ok new_id par cl old :
  cl !! par = Some (VStr old) →
  ∃ v, updateModel_par new_id par cl = Ok (<[par := VStr v]> cl).
Proof.
  intros Hpar. unfold updateModel_par, getitem. rewrite Hpar. simpl. by eexists.
Qed.

Lemma updateModel_ok new_model_id s :
  has_model_keys (command_list s) = true →
  ∃ cl, updateModel new_model_id s = Ok (set_command_list cl s).
Proof.
  unfold has_model_keys, run_identity_keys. simpl.
  destruct (command_list s !! "OUTPUT_DIRECTORY") as [[o|]|] eqn:Ho; [|done..].
  destruct (command_list s !! "PARAMETER_FILE") as [[p|]|] eqn:Hp; [|done..].
  destruct (command_list s !! "OUTPUT_SUFFIX") as [[x|]|] eqn:Hx; [|done..].
  intros _. unfold updateModel.
  destruct (updateModel_par_ok
              (if id_truthy new_model_id then default "" new_model_id else model_id s)
              _ _ _ Ho) as [v1 ->].
  simpl.
  edestruct (updateModel_par_ok
              (if id_truthy new_model_id then default "" new_model_id else model_id s)
              "PARAMETER_FILE" (<["OUTPUT_DIRECTORY" := VStr v1]> (command_list s)))
    as [v2 ->].
  { rewrite lookup_insert_ne; [exact Hp|done]. }
  simpl.
  edestruct (updateModel_par_ok
              (if id_truthy new_model_id then default "" new_model_id else model_id s)
              "OUTPUT_SUFFIX"
              (<["PARAMETER_FILE" := VStr v2]>
                 (<["OUTPUT_DIRECTORY" := VStr v1]> (command_list s))))
    as [v3 ->].
  { rewrite !lookup_insert_ne; [exact Hx|done..]. }
  simpl. by eexists.
Qed.

(** The loop stops at the first entry that matches. *)
Lemma checkCooling_scan_find items molec_dict s :
  checkCooling_scan items molec_dict s =
    match find (cooling_match molec_dict s) items with
    | None => Ok (false, s)
    | Some kv =>
        if replace_db_entry s && negb (bool_decide (kv.1 ∈ new_entries s))
        then s ← deleteCoolingId kv.1 s; mret (false, s)
        else s ← updateModel None (set_model_id kv.1 s); mret (true, s)
    end.
Proof.
  induction items as [|[old_id cool_dict] rest IH]; simpl; [done|].
  unfold cooling_match at 1. simpl.
  destruct (compareCommandLists _ cool_dict _ _ _); [done|apply IH].
Qed.

(** C4: with several entries of the cooling database matching the request,
    the lookup goes through the entries in the order of their ids and takes
    the first match: it reports a hit, and the model id it assigns is a
    matching id of the database that no other matching id precedes. *)
Theorem checkCoolingDatabase_first_match molec_dict s k c :
  replace_db_entry s = false →
  has_model_keys (command_list s) = true →
  db_data (cool_db s) !! k = Some c →
  compareCommandLists (command_list s) c Cooling false (Some molec_dict) = true →
  ∃ s' c',
    checkCoolingDatabase molec_dict s = Ok (true, s') ∧
    db_data (cool_db s) !! model_id s' = Some c' ∧
    compareCommandLists (command_list s) c' Cooling false (Some molec_dict) = true ∧
    ∀ k' c'', db_data (cool_db s) !! k' = Some c'' →
      compareCommandLists (command_list s) c'' Cooling false (Some molec_dict) = true →
      String.le (model_id s') k'.
Proof.
  intros Hreplace Hkeys Hk Hc.
  unfold checkCoolingDatabase. rewrite checkCooling_scan_find.
  destruct (find_is_some (cooling_match molec_dict s)
              (sorted_items (db_data (cool_db s))) (k, c)) as [[m cm] Hfind].
  { by apply sorted_items_elem. }
  { exact Hc. }
  rewrite Hfind, Hreplace. simpl.
  destruct (updateModel_ok None (set_model_id m s)) as [cl ->]; [exact Hkeys|].
  simpl.
  destruct (find_first_sorted _ _ _ (sorted_items_sorted _) Hfind) as (Hin & Hm & Hmin).
  eexists _, cm. split; [reflexivity|]. simpl.
  split; [by apply sorted_items_elem|]. split; [exact Hm|].
  intros k' c'' Hk' Hc''. apply (Hmin (k', c'')); [by apply sorted_items_elem|exact Hc''].
Qed.

Lemma has_key_true {V} (d : gmap string V) k : has_key d k = true ↔ is_Some (d !! k).
Proof. unfold has_key. apply bool_decide_eq_true. Qed.

Lemma has_key_false {V} (d : gmap string V) k : has_key d k = false ↔ d !! k = None.
Proof.
  unfold has_key. rewrite bool_decide_eq_false. by rewrite eq_None_not_Some.
Qed.

(** The smallest matching id is the one the loop stops at. *)
Lemma find_smallest_match molec_dict s m cm :
  db_data (cool_db s) !! m = Some cm →
  cooling_match molec_dict s (m, cm) = true →
  (∀ k' c', db_data (cool_db s) !! k' = Some c' →
     cooling_match molec_dict s (k', c') = true → String.le m k') →
  find (cooling_match molec_dict s) (sorted_items (db_data (cool_db s))) = Some (m, cm).
Proof.
  intros Hm Hcm Hmin.
  destruct (find_is_some (cooling_match molec_dict s)
              (sorted_items (db_data (cool_db s))) (m, cm)) as [[m' cm'] Hfind];
    [by apply sorted_items_elem|exact Hcm|].
  destruct (find_first_sorted _ _ _ (sorted_items_sorted _) Hfind) as (Hin & Hm' & Hfirst).
  apply sorted_items_elem in Hin.
  assert (m' = m) as ->.
  { apply (anti_symm String.le).
    - apply (Hfirst (m, cm)); [by apply sorted_items_elem|exact Hcm].
    - by apply (Hmin m' cm'). }
  rewrite Hfind. congruence.
Qed.

(** ** The mline database *)

(** C10: when the mline database has nothing under the cooling id, the
    cooling id itself serves as the first mline id: every molecule gets it
    as model id, the database gains the entry cooling id -> cooling id ->
    empty dictionary, every molecule is reported as not found, and no new
    id is made (nothing happens outside the session). *)
Theorem checkMlineDatabase_no_entry s :
  db_data (ml_db s) !! model_id s = None →
  ∃ s',
    checkMlineDatabase s = Ok (replicate (length (molec_list s)) false, s') ∧
    molec_list s' = molec_setModelId (model_id s) <$> molec_list s ∧
    (∀ molec, molec ∈ molec_list s' → molec_model_id molec = Some (model_id s)) ∧
    db_data (ml_db s') = <[model_id s := {[ model_id s := ∅ ]}]> (db_data (ml_db s)) ∧
    outside s' = outside s ∧
    model_id s' = model_id s.
Proof.
  intros Hnone. unfold checkMlineDatabase.
  apply has_key_false in Hnone. rewrite Hnone. simpl.
  eexists. split; [reflexivity|]. simpl.
  split; [done|]. split; [|done].
  intros molec (m & -> & _)%list_elem_of_fmap. done.
Qed.

(** ** The sphinx database *)

(** Every transition stored under the cooling entry [e] is one of [seen]. *)
Definition sigs_within (e : sph_entry) (seen : list string) : Prop :=
  ∀ mid me tid models sig d,
    e !! mid = Some me → me !! tid = Some models → models !! sig = Some d → sig ∈ seen.

Lemma sphinx_candidates_nil (me : sph_molec_entry) sig :
  (∀ tid models, me !! tid = Some models → models !! sig = None) →
  sphinx_candidates me sig = [].
Proof.
  intros Hnone. unfold sphinx_candidates.
  assert (∀ l : list (string * gmap string config),
            (∀ kv, kv ∈ l → kv.2 !! sig = None) →
            omap (λ kv, (λ d, (kv.1, d)) <$> kv.2 !! sig) l = []) as Homap.
  { induction l as [|kv l IH]; simpl; [done|]. intros Hl.
    rewrite (Hl kv); [|left]. simpl. apply IH. intros kv' Hin. apply Hl. by right. }
  apply Homap. intros [tid models] Hin. simpl.
  apply sorted_items_elem in Hin. by eapply Hnone.
Qed.

Lemma free_slot_lookup {V} (e : gmap string (gmap string V)) name k :
  free_slot e name = Some k → ∃ v, e !! k = Some v ∧ v !! name = None.
Proof.
  unfold free_slot. destruct (find _ _) as [[k' v]|] eqn:Hfind; [|done].
  intros [= <-]. simpl.
  destruct (find_first_sorted _ _ _ (sorted_items_sorted _) Hfind) as (Hin & Hf & _).
  apply sorted_items_elem in Hin. exists v. split; [done|].
  simpl in Hf. apply negb_true_iff in Hf. by apply has_key_false.
Qed.

Lemma free_slot_none {V} (e : gmap string (gmap string V)) name k v :
  free_slot e name = None → e !! k = Some v → is_Some (v !! name).
Proof.
  unfold free_slot. destruct (find _ _) as [kv|] eqn:Hfind; [done|].
  intros _ Hk. apply sorted_items_elem in Hk.
  pose proof (find_none_all _ _ _ Hfind Hk) as Hf. simpl in Hf.
  apply negb_false_iff in Hf. by apply has_key_true.
Qed.

(** Every transition stored under the molecule entry [me] is one of [seen]. *)
Definition models_within (me : sph_molec_entry) (seen : list string) : Prop :=
  ∀ tid models sig d, me !! tid = Some models → models !! sig = Some d → sig ∈ seen.

Lemma sigs_within_models e seen mid me :
  sigs_within e seen → e !! mid = Some me → models_within me seen.
Proof. intros Hwithin Hme tid models sig d H1 H2. by eapply Hwithin. Qed.

Lemma models_within_new me seen k :
  models_within me seen → models_within (<[k := ∅]> me) seen.
Proof.
  intros Hwithin tid models sig d H1 H2.
  destruct (decide (tid = k)) as [->|Hne].
  - rewrite lookup_insert_eq in H1. injection H1 as <-. by rewrite lookup_empty in H2.
  - rewrite lookup_insert_ne in H1 by done. by eapply Hwithin.
Qed.

Lemma sigs_within_store e seen molec_id me tid models sig d0 :
  sigs_within e seen → models_within me seen → me !! tid = Some models →
  sigs_within (<[molec_id := <[tid := <[sig := d0]> models]> me]> e) (sig :: seen).
Proof.
  intros Hwithin Hme Hmodels mid me0 tid0 models0 sig0 d H1 H2 H3.
  destruct (decide (mid = molec_id)) as [->|Hne].
  2:{ rewrite lookup_insert_ne in H1 by done. right. by eapply Hwithin. }
  rewrite lookup_insert_eq in H1. injection H1 as <-.
  destruct (decide (tid0 = tid)) as [->|Hne].
  2:{ rewrite lookup_insert_ne in H2 by done. right. by eapply Hme. }
  rewrite lookup_insert_eq in H2. injection H2 as <-.
  destruct (decide (sig0 = sig)) as [->|Hne]; [left|].
  rewrite lookup_insert_ne in H3 by done. right. by eapply Hme.
Qed.

(** A transition that the cooling entry does not hold yet is reported as
    not found, whatever branch of the loop body it takes. *)
Lemma checkSphinx_trans_new i trans new_trans_id copied s e seen :
  db_data (sph_db s) !! model_id s = Some e →
  sigs_within e seen →
  trans_str trans ∉ seen →
  trans_model_id trans = None →
  is_Some (molec_list s !! trans_molecule trans) →
  ∃ trans' new_trans_id' copied' s' e',
    checkSphinx_trans i trans new_trans_id copied s
      = Ok (trans', new_trans_id', copied', s') ∧
    trans_bools s' = trans_bools s ++ [false] ∧
    model_id s' = model_id s ∧
    molec_list s' = molec_list s ∧
    db_data (sph_db s') !! model_id s' = Some e' ∧
    sigs_within e' (trans_str trans :: seen).
Proof.
  intros He Hwithin Hsig Hid [molec Hmolec].
  unfold checkSphinx_trans, molecule_of. rewrite Hmolec. simpl.
  destruct (id_truthy (molec_model_id molec)); simpl.
  2:{ eexists _, _, _, _, e. split; [reflexivity|]. simpl. repeat (split; [done|]).
      intros mid me tid models sig d H1 H2 H3. right. by eapply Hwithin. }
  unfold sph_cooling_entry, getitem. rewrite He. simpl.
  set (molec_id := default "" (molec_model_id molec)).
  destruct (e !! molec_id) as [me|] eqn:Hme.
  2:{ eexists _, _, _, _, _. split; [reflexivity|]. simpl.
      repeat (split; [done|]). split; [apply lookup_insert_eq|].
      intros mid me tid models sig d H1 H2 H3.
      destruct (decide (mid = molec_id)) as [->|Hne].
      - rewrite lookup_insert_eq in H1. injection H1 as <-.
        apply lookup_singleton_Some in H2 as [<- <-].
        apply lookup_singleton_Some in H3 as [<- _]. left.
      - rewrite lookup_insert_ne in H1 by done. right. by eapply Hwithin. }
  pose proof (sigs_within_models _ _ _ _ Hwithin Hme) as Hmodels.
  rewrite sphinx_candidates_nil.
  2:{ intros tid models Htid. apply eq_None_not_Some. intros [d Hd].
      apply Hsig. by eapply Hmodels. }
  cbn [find]. rewrite Hid.
  destruct (free_slot me (trans_str trans)) as [k|] eqn:Hslot.
  { apply free_slot_lookup in Hslot as (v & Hv & _).
    simpl. rewrite Hv. simpl.
    eexists _, _, _, _, _. split; [reflexivity|].
    split; [by destruct (bool_decide _)|]. split; [by destruct (bool_decide _)|].
    split; [by destruct (bool_decide _)|].
    split; [destruct (bool_decide _); apply lookup_insert_eq|].
    by apply sigs_within_store. }
  simpl.
  destruct (bool_decide (new_trans_id = "")); simpl;
    (destruct (has_key me _) eqn:Hhas;
     [apply has_key_true in Hhas as [v Hv]; rewrite Hv
     |rewrite lookup_insert_eq]);
    simpl; (eexists _, _, _, _, _; split; [reflexivity|]);
    (split; [by destruct (bool_decide _)|]);
    (split; [by destruct (bool_decide _)|]);
    (split; [by destruct (bool_decide _)|]);
    (split; [destruct (bool_decide _); apply lookup_insert_eq|]);
    first [ by apply sigs_within_store
          | apply sigs_within_store;
            [done|by apply models_within_new|apply lookup_insert_eq] ].
Qed.

Lemma checkSphinx_loop_new transs : ∀ i new_trans_id copied s e seen,
  db_data (sph_db s) !! model_id s = Some e →
  sigs_within e seen →
  NoDup (trans_str <$> transs) →
  (∀ trans, trans ∈ transs →
     (trans_str trans ∉ seen) ∧ trans_model_id trans = None ∧
     is_Some (molec_list s !! trans_molecule trans)) →
  ∃ transs' new_trans_id' copied' s',
    checkSphinx_loop i transs new_trans_id copied s
      = Ok (transs', new_trans_id', copied', s') ∧
    trans_bools s' = trans_bools s ++ replicate (length transs) false ∧
    model_id s' = model_id s ∧
    molec_list s' = molec_list s.
Proof.
  induction transs as [|trans rest IH]; intros i new_trans_id copied s e seen
    He Hwithin Hnodup Hall; simpl.
  { eexists _, _, _, _. split; [reflexivity|]. by rewrite app_nil_r. }
  apply NoDup_cons in Hnodup as [Hfresh Hnodup].
  destruct (Hall trans) as (Hsig & Hid & Hmolec); [left|].
  destruct (checkSphinx_trans_new i trans new_trans_id copied s e seen)
    as (trans' & new' & copied' & s1 & e1 & -> & Hbools & Hmid & Hmols & He1 & Hwithin1);
    [done..|].
  simpl.
  destruct (IH (S i) new' copied' s1 e1 (trans_str trans :: seen))
    as (rest' & new'' & copied'' & s2 & -> & Hbools2 & Hmid2 & Hmols2); [done..| |].
  { intros t Ht. destruct (Hall t) as (Ht1 & Ht2 & Ht3); [by right|].
    rewrite Hmols. split; [|done].
    intros [Heq|Hin]%elem_of_cons; [|done].
    apply Hfresh. rewrite <- Heq. by apply list_elem_of_fmap_2. }
  simpl. eexists _, _, _, _. split; [reflexivity|].
  rewrite Hbools2, Hbools, Hmid2, Hmid, Hmols2, Hmols. by rewrite <- app_assoc.
Qed.

(** With nothing stored under the cooling id, the sphinx check reports
    every transition of the request as not found. *)
Lemma checkSphinxDatabase_no_entry s :
  db_data (sph_db s) !! model_id s = None →
  NoDup (trans_str <$> trans_list s) →
  (∀ trans, trans ∈ trans_list s →
     trans_model_id trans = None ∧ is_Some (molec_list s !! trans_molecule trans)) →
  ∃ s', checkSphinxDatabase s = Ok s' ∧
        trans_bools s' = trans_bools s ++ replicate (length (trans_list s)) false.
Proof.
  intros Hnone Hnodup Hall. unfold checkSphinxDatabase.
  apply has_key_false in Hnone. rewrite Hnone.
  destruct (checkSphinx_loop_new (trans_list s) 0 "" []
              (set_sph_db (db_setitem (model_id s) ∅ (sph_db s)) s) ∅ [])
    as (transs' & new' & copied' & s1 & Hloop & Hbools & _); simpl.
  - apply lookup_insert_eq.
  - intros mid me tid models sig d H1. by rewrite lookup_empty in H1.
  - done.
  - intros trans Hin. split; [by intros ?%elem_of_nil|]. by apply Hall.
  - simpl in Hloop. rewrite Hloop. simpl. eexists. split; [reflexivity|]. done.
Qed.

(** C2: in replace mode, when the cooling lookup finds a matching entry
    (the first in the order of the ids) whose id is not among the new
    entries, that entry is deleted from the cooling database together with
    everything under its id in the mline and sphinx databases, whether or
    not those hold the id; the lookup reports no match and leaves the model
    id of the session, the new one, in place; and a later mline or sphinx
    check under the deleted id finds nothing. *)
Theorem checkCoolingDatabase_replace molec_dict s old_id cool_dict :
  replace_db_entry s = true →
  old_id ∉ new_entries s →
  db_data (cool_db s) !! old_id = Some cool_dict →
  cooling_match molec_dict s (old_id, cool_dict) = true →
  (∀ k' c', db_data (cool_db s) !! k' = Some c' →
     cooling_match molec_dict s (k', c') = true → String.le old_id k') →
  ∃ s',
    checkCoolingDatabase molec_dict s = Ok (false, s') ∧
    model_id s' = model_id s ∧
    db_data (cool_db s') = delete old_id (db_data (cool_db s)) ∧
    db_data (ml_db s') = delete old_id (db_data (ml_db s)) ∧
    db_data (sph_db s') = delete old_id (db_data (sph_db s)) ∧
    (∀ t, ml_db t = ml_db s' → model_id t = old_id →
       ∃ t', checkMlineDatabase t = Ok (replicate (length (molec_list t)) false, t')) ∧
    (∀ t, sph_db t = sph_db s' → model_id t = old_id →
       NoDup (trans_str <$> trans_list t) →
       (∀ trans, trans ∈ trans_list t →
          trans_model_id trans = None ∧ is_Some (molec_list t !! trans_molecule trans)) →
       ∃ t', checkSphinxDatabase t = Ok t' ∧
             trans_bools t' = trans_bools t ++ replicate (length (trans_list t)) false).
Proof.
  intros Hreplace Hnew Hold Hmatch Hmin.
  unfold checkCoolingDatabase. rewrite checkCooling_scan_find.
  rewrite (find_smallest_match _ _ _ _ Hold Hmatch Hmin). simpl.
  rewrite Hreplace. rewrite bool_decide_eq_false_2 by done. simpl.
  unfold deleteCoolingId, db_delitem, delitem. rewrite Hold. simpl.
  eexists. split; [reflexivity|]. simpl.
  repeat (split; [done|]). split.
  - intros t Hdb Hid.
    destruct (checkMlineDatabase_no_entry t) as (t' & Ht' & _); [|by exists t'].
    rewrite Hdb, Hid. simpl. apply lookup_delete_eq.
  - intros t Hdb Hid Hnodup Hall.
    apply checkSphinxDatabase_no_entry; [|done..].
    rewrite Hdb, Hid. simpl. apply lookup_delete_eq.
Qed.

Lemma alter_lookup_insert {V} (f : V → V) (d : gmap string V) k v :
  d !! k = Some v → alter f k d = <[k := f v]> d.
Proof.
  intros Hk. apply map_eq. intros j. rewrite lookup_alter, lookup_insert.
  case_decide; [subst; by rewrite Hk|done].
Qed.

Lemma alter3_lookup_insert {V} (f : V → V) (d : gmap string (gmap string (gmap string V)))
    a b c x y z :
  d !! a = Some x → x !! b = Some y → y !! c = Some z →
  alter3 f a b c d = <[a := <[b := <[c := f z]> y]> x]> d.
Proof.
  intros Ha Hb Hc. unfold alter3.
  rewrite (alter_lookup_insert _ _ _ _ Ha), (alter_lookup_insert _ _ _ _ Hb).
  by rewrite (alter_lookup_insert _ _ _ _ Hc).
Qed.

Lemma sph_models_of_ok trans s molec molec_id trans_id e me models :
  molec_list s !! trans_molecule trans = Some molec →
  molec_model_id molec = Some molec_id →
  trans_model_id trans = Some trans_id →
  db_data (sph_db s) !! model_id s = Some e →
  e !! molec_id = Some me →
  me !! trans_id = Some models →
  sph_models_of trans s = Ok (molec_id, trans_id, models).
Proof.
  intros Hmolec Hmid Htid He Hme Hmodels.
  unfold sph_models_of, molecule_of, getitem3, getitem.
  rewrite Hmolec. simpl. rewrite Hmid, Htid. simpl.
  rewrite He. simpl. rewrite Hme. simpl. by rewrite Hmodels.
Qed.

(** C9: whether a sphinx model is kept is told by the output files alone
    (the check never sees an exit status: [execGastronoom] returns none):
    with exactly two files matching the file name pattern of the
    transition, the entry stays and loses its IN_PROGRESS key if it had it;
    with any other number the entry of this transition under this sphinx id,
    and only that, is deleted from the sphinx database and the model id of
    the transition becomes the empty string. *)
Theorem checkSphinxOutput_by_files trans s molec molec_id trans_id e me models d :
  molec_list s !! trans_molecule trans = Some molec →
  molec_model_id molec = Some molec_id →
  trans_model_id trans = Some trans_id →
  db_data (sph_db s) !! model_id s = Some e →
  e !! molec_id = Some me →
  me !! trans_id = Some models →
  models !! trans_str trans = Some d →
  ∃ trans' s',
    checkSphinxOutput trans s = Ok (trans', s') ∧
    outside s' = outside s ∧
    if bool_decide (length (glob (outside s)
                      (path_join [gout; "models"; trans_id; makeSphinxFilename trans])) = 2)
    then
      trans' = trans ∧
      db_data (sph_db s') =
        <[model_id s := <[molec_id := <[trans_id :=
            <[trans_str trans := delete "IN_PROGRESS" d]> models]> me]> e]>
          (db_data (sph_db s))
    else
      trans_model_id trans' = Some "" ∧
      db_data (sph_db s') =
        <[model_id s := <[molec_id := <[trans_id :=
            delete (trans_str trans) models]> me]> e]>
          (db_data (sph_db s)).
Proof.
  intros Hmolec Hmid Htid He Hme Hmodels Hd.
  unfold checkSphinxOutput, delete_sph_model. rewrite Htid. simpl.
  rewrite (sph_models_of_ok _ _ _ _ _ _ _ _ Hmolec Hmid Htid He Hme Hmodels).
  destruct (bool_decide _); simpl.
  - unfold getitem. rewrite Hd. simpl.
    eexists _, _. split; [reflexivity|]. simpl. split; [done|]. split; [done|].
    rewrite (alter3_lookup_insert _ _ _ _ _ _ _ _ He Hme Hmodels).
    destruct (has_key d "IN_PROGRESS") eqn:Hflag; [done|].
    apply has_key_false in Hflag. by rewrite (delete_id _ _ Hflag).
  - unfold delitem. rewrite Hd. simpl.
    eexists _, _. split; [reflexivity|]. simpl. split; [done|]. split; [done|].
    by rewrite (alter3_lookup_insert _ _ _ _ _ _ _ _ He Hme Hmodels).
Qed.

(** ** The cooling stage *)

(** The command list that [doCooling] compares with the database: F_H2O
    is dropped when an abundance table is given for H2O. *)
Definition cooling_command_list (star : Star) (cl : config) : config :=
  if has_key (h2o_dict_of star) "MOLECULE_TABLE" then delete "F_H2O" cl else cl.

(** No entry of the database can be reused: none matches, or the ones
    that match are to be replaced. *)
Definition cooling_miss (molec_dict : config) (s : Gastronoom) : Prop :=
  ∀ k c, db_data (cool_db s) !! k = Some c → cooling_match molec_dict s (k, c) = true →
    replace_db_entry s = true ∧ k ∉ new_entries s.

Lemma checkCoolingDatabase_miss molec_dict s :
  cooling_miss molec_dict s →
  ∃ s',
    checkCoolingDatabase molec_dict s = Ok (false, s') ∧
    model_id s' = model_id s ∧
    command_list s' = command_list s ∧
    skip_cooling s' = skip_cooling s ∧
    outside s' = outside s ∧
    db_disk (cool_db s') = db_disk (cool_db s) ∧
    db_data (cool_db s') ⊆ db_data (cool_db s).
Proof.
  intros Hmiss. unfold checkCoolingDatabase. rewrite checkCooling_scan_find.
  destruct (find _ _) as [[k c]|] eqn:Hfind.
  2:{ exists s. by repeat split. }
  destruct (find_first_sorted _ _ _ (sorted_items_sorted _) Hfind) as (Hin & Hm & _).
  apply sorted_items_elem in Hin.
  destruct (Hmiss k c Hin Hm) as [-> Hnew]. simpl.
  rewrite bool_decide_eq_false_2 by done. simpl.
  unfold deleteCoolingId, db_delitem, delitem. rewrite Hin. simpl.
  eexists. split; [reflexivity|]. simpl. repeat (split; [done|]).
  apply delete_subseteq.
Qed.

(** C7: when the cooling model is not in the database and the output
    file coolfgr_all<id>.dat is not there after the run, nothing is added
    to the cooling database, the copy of the database on the disk stays as
    it was, and the model id of the session becomes the empty string. *)
Theorem doCooling_failed star s :
  has_key (co_dict_of star) "MOLECULE_TABLE" = false →
  is_Some (co_dict_of star !! "MOLECULE") →
  (has_key (h2o_dict_of star) "MOLECULE_TABLE" = true →
   is_Some (command_list s !! "F_H2O")) →
  cooling_miss (cooling_molec_dict star)
    (set_command_list (cooling_command_list star (command_list s)) s) →
  ∃ s',
    doCooling star s = Ok s' ∧
    (skip_cooling s = false →
     last (outside s') = Some (ExecGastronoom "cooling" (inputfile (model_id s)))) ∧
    (isfile (outside s') (coolfgr_file (model_id s)) = false →
     model_id s' = "" ∧
     db_data (cool_db s') ⊆ db_data (cool_db s) ∧
     db_disk (cool_db s') = db_disk (cool_db s)).
Proof.
  intros Hco [co_molecule Hmolecule] Hh2o Hmiss.
  unfold doCooling. rewrite Hco.
  assert ((if has_key (h2o_dict_of star) "MOLECULE_TABLE"
           then delitem "F_H2O" (command_list s) else mret (command_list s))
          = Ok (cooling_command_list star (command_list s))) as ->.
  { unfold cooling_command_list. destruct (has_key (h2o_dict_of star) _); [|done].
    destruct Hh2o as [v Hv]; [done|]. unfold delitem. by rewrite Hv. }
  simpl.
  destruct (checkCoolingDatabase_miss _ _ Hmiss)
    as (s1 & -> & Hid & Hcl & Hskip & Hout & Hdisk & Hdata).
  simpl in *. unfold getitem. rewrite Hmolecule. simpl.
  rewrite Hskip.
  destruct (skip_cooling s) eqn:Hskipped; simpl.
  - destruct (isfile _ _) eqn:Hfile; simpl.
    + eexists. split; [reflexivity|]. simpl. split; [done|].
      rewrite Hid in Hfile. congruence.
    + eexists. split; [reflexivity|]. simpl. split; [done|]. by intros _.
  - destruct (isfile _ _) eqn:Hfile; simpl.
    + eexists. split; [reflexivity|]. simpl. split.
      * intros _. rewrite last_snoc. by rewrite Hid.
      * rewrite Hid in Hfile. congruence.
    + eexists. split; [reflexivity|]. simpl. split.
      * intros _. rewrite last_snoc. by rewrite Hid.
      * by intros _.
Qed.

(** ** Lookups that leave the databases alone *)

Definition is_some {A} (o : option A) : bool :=
  match o with
  | Some _ => true
  | None => false
  end.

(** The test of [checkMlineDatabase] on a stored molecule dictionary, and
    of [checkSphinxDatabase] on a stored transition dictionary. *)
Definition mline_match (molec : Molecule) (kd : string * config) : bool :=
  compareCommandLists (molec_dict molec) kd.2 Mline
    (bool_decide (molecule molec ∈ no_ab_molecs)) None.

Definition sphinx_match (trans : Transition) (kd : string * config) : bool :=
  compareCommandLists (trans_dict trans) kd.2 Sphinx false None.

(** The molecule needs no new mline id: it is found under the cooling
    entry [e], or it has a model id already, or some mline id of [e] does
    not hold a molecule of its name yet. *)
Definition mline_settled (e : ml_entry) (molec : Molecule) : bool :=
  is_some (find (mline_match molec) (mline_candidates e (molecule molec)))
  || is_some (molec_model_id molec)
  || is_some (free_slot e (molecule molec)).

(** The transition needs no entry of its own: its molecule has no mline
    model, or the transition is found under the molecule id. *)
Definition sphinx_settled (s : Gastronoom) (e : sph_entry) (trans : Transition) : bool :=
  match molec_list s !! trans_molecule trans with
  | None => false
  | Some molec =>
      negb (id_truthy (molec_model_id molec))
      || match e !! default "" (molec_model_id molec) with
         | None => false
         | Some me =>
             is_some (find (sphinx_match trans) (sphinx_candidates me (trans_str trans)))
         end
  end.

Lemma checkMline_molec_settled molec model_bools new_molec_id s e :
  db_data (ml_db s) !! model_id s = Some e →
  mline_settled e molec = true →
  ∃ molec' model_bools',
    checkMline_molec molec model_bools new_molec_id s
      = Ok (molec', model_bools', new_molec_id, s).
Proof.
  intros He Hsettled. unfold checkMline_molec, ml_cooling_entry, getitem.
  rewrite He. simpl. unfold mline_settled, mline_match in Hsettled.
  destruct (find _ (mline_candidates e (molecule molec))) as [kd|]; simpl.
  { by eexists _, _. }
  destruct (molec_model_id molec); simpl; [by eexists _, _|].
  simpl in Hsettled.
  destruct (free_slot e (molecule molec)); [|done]. by eexists _, _.
Qed.

Lemma checkMline_loop_settled molecs : ∀ model_bools new_molec_id s e,
  db_data (ml_db s) !! model_id s = Some e →
  forallb (mline_settled e) molecs = true →
  ∃ molecs' model_bools',
    checkMline_loop molecs model_bools new_molec_id s
      = Ok (molecs', model_bools', new_molec_id, s).
Proof.
  induction molecs as [|molec rest IH]; intros model_bools new_molec_id s e He Hall; simpl.
  { by eexists _, _. }
  simpl in Hall. apply andb_true_iff in Hall as [Hmolec Hrest].
  destruct (checkMline_molec_settled molec model_bools new_molec_id s e He Hmolec)
    as (molec' & bools' & ->).
  simpl.
  destruct (IH bools' new_molec_id s e He Hrest) as (rest' & bools'' & ->).
  simpl. by eexists _, _.
Qed.

Lemma checkSphinx_trans_settled i trans new_trans_id copied s e :
  db_data (sph_db s) !! model_id s = Some e →
  sphinx_settled s e trans = true →
  ∃ trans' s',
    checkSphinx_trans i trans new_trans_id copied s
      = Ok (trans', new_trans_id, copied, s') ∧
    sph_db s' = sph_db s ∧ model_id s' = model_id s ∧
    molec_list s' = molec_list s ∧ outside s' = outside s.
Proof.
  intros He Hsettled. unfold sphinx_settled in Hsettled.
  unfold checkSphinx_trans, molecule_of.
  destruct (molec_list s !! trans_molecule trans) as [molec|]; [|done]. simpl.
  destruct (id_truthy (molec_model_id molec)); simpl.
  2:{ eexists _, _. split; [reflexivity|]. done. }
  simpl in Hsettled. unfold sph_cooling_entry, getitem. rewrite He. simpl.
  destruct (e !! default "" (molec_model_id molec)) as [me|]; [|done].
  unfold sphinx_match in Hsettled.
  destruct (find _ (sphinx_candidates me (trans_str trans))) as [kd|]; [|done].
  simpl. eexists _, _. split; [reflexivity|].
  unfold sphinx_found. simpl. destruct (has_key kd.2 "IN_PROGRESS"), (vic s); done.
Qed.

Lemma sphinx_settled_molec_list s' s e transs :
  molec_list s' = molec_list s →
  forallb (sphinx_settled s' e) transs = forallb (sphinx_settled s e) transs.
Proof.
  intros Hmols. induction transs as [|t rest IH]; simpl; [done|].
  rewrite IH. f_equal. unfold sphinx_settled. by rewrite Hmols.
Qed.

Lemma checkSphinx_loop_settled transs : ∀ i new_trans_id copied s e,
  db_data (sph_db s) !! model_id s = Some e →
  forallb (sphinx_settled s e) transs = true →
  ∃ transs' s',
    checkSphinx_loop i transs new_trans_id copied s
      = Ok (transs', new_trans_id, copied, s') ∧
    sph_db s' = sph_db s ∧ model_id s' = model_id s ∧
    molec_list s' = molec_list s ∧ outside s' = outside s.
Proof.
  induction transs as [|trans rest IH]; intros i new_trans_id copied s e He Hall; simpl.
  { by eexists _, _. }
  simpl in Hall. apply andb_true_iff in Hall as [Htrans Hrest].
  destruct (checkSphinx_trans_settled i trans new_trans_id copied s e He Htrans)
    as (trans' & s1 & -> & Hdb & Hid & Hmols & Hout).
  simpl.
  destruct (IH (S i) new_trans_id copied s1 e) as (rest' & s2 & -> & Hdb2 & Hid2 & Hmols2 & Hout2).
  { by rewrite Hdb, Hid. }
  { by rewrite (sphinx_settled_molec_list s1 s e rest Hmols). }
  simpl. eexists _, _. split; [reflexivity|].
  by rewrite Hdb2, Hid2, Hmols2, Hout2.
Qed.

(** C3, as the code has it: a lookup leaves the dictionary of its database
    as it is, and makes no new id, when it has no slot to hand out: the
    mline check when the database holds the cooling id and every molecule
    is found, has a model id, or fits under an mline id that is there; the sphinx
    check when the database holds the cooling id and every transition is
    found or belongs to a molecule without mline model.  The check itself
    ends with [sync()], so the disk then holds the same dictionary. *)
Theorem lookup_leaves_store_when_settled s :
  (∀ e, db_data (ml_db s) !! model_id s = Some e →
        forallb (mline_settled e) (molec_list s) = true →
        ∃ model_bools s',
          checkMlineDatabase s = Ok (model_bools, s') ∧
          db_data (ml_db s') = db_data (ml_db s) ∧
          db_disk (ml_db s') = db_data (ml_db s) ∧
          outside s' = outside s) ∧
  (∀ e, db_data (sph_db s) !! model_id s = Some e →
        forallb (sphinx_settled s e) (trans_list s) = true →
        ∃ s',
          checkSphinxDatabase s = Ok s' ∧
          db_data (sph_db s') = db_data (sph_db s) ∧
          db_disk (sph_db s') = db_data (sph_db s) ∧
          outside s' = outside s).
Proof.
  split.
  - intros e He Hall. unfold checkMlineDatabase.
    assert (has_key (db_data (ml_db s)) (model_id s) = true) as ->.
    { apply has_key_true. by eexists. }
    simpl.
    destruct (checkMline_loop_settled (molec_list s) [] "" s e He Hall)
      as (molecs' & bools' & ->).
    simpl. by eexists _, _.
  - intros e He Hall. unfold checkSphinxDatabase.
    assert (has_key (db_data (sph_db s)) (model_id s) = true) as ->.
    { apply has_key_true. by eexists. }
    destruct (checkSphinx_loop_settled (trans_list s) 0 "" [] s e He Hall)
      as (transs' & s1 & -> & Hdb & Hid & Hmols & Hout).
    simpl. eexists. split; [reflexivity|]. simpl. by rewrite Hdb, Hout.
Qed.

(** ** New mline ids *)

Definition new_ids (history : list event) : nat :=
  length (filter (λ ev, is_new_id ev = true) history).

Lemma mline_candidates_elem (e : ml_entry) name k d :
  (k, d) ∈ mline_candidates e name ↔ ∃ v, e !! k = Some v ∧ v !! name = Some d.
Proof.
  unfold mline_candidates. rewrite list_elem_of_omap. split.
  - intros ([k' v] & Hin & Hf). apply sorted_items_elem in Hin. simpl in Hf.
    destruct (v !! name) as [d'|] eqn:Hd; simplify_eq/=. by exists v.
  - intros (v & Hv & Hd). exists (k, v). split; [by apply sorted_items_elem|].
    simpl. by rewrite Hd.
Qed.

Lemma free_slot_first {V} (e : gmap string (gmap string V)) name k k' v' :
  free_slot e name = Some k → e !! k' = Some v' → v' !! name = None → String.le k k'.
Proof.
  unfold free_slot. destruct (find _ _) as [[k0 v0]|] eqn:Hfind; [|done].
  intros [= <-] Hk' Hname.
  destruct (find_first_sorted _ _ _ (sorted_items_sorted _) Hfind) as (_ & _ & Hmin).
  apply (Hmin (k', v')); [by apply sorted_items_elem|].
  simpl. apply negb_true_iff. by apply has_key_false.
Qed.

Lemma free_slot_is_some {V} (e : gmap string (gmap string V)) name k v :
  e !! k = Some v → v !! name = None → is_Some (free_slot e name).
Proof.
  intros Hk Hname. unfold free_slot.
  destruct (find_is_some (λ kv : string * gmap string V, negb (has_key kv.2 name))
              (sorted_items e) (k, v)) as [kv ->]; [by apply sorted_items_elem| |by eexists].
  simpl. apply negb_true_iff. by apply has_key_false.
Qed.

(** The events of a new mline id. *)
Definition new_mline_id_events (s : Gastronoom) (molec : Molecule) : list event :=
  let new_id := makeNewId (outside s) in
  [MakeNewId new_id;
   WriteFile (path_join [gout; "models"; new_id; "cooling_id.log"]) [model_id s];
   CopyOutput true (molecule molec) (model_id s) new_id].

(** What the mline stage leaves as it is in the session. *)
Definition mline_frame (s s' : Gastronoom) : Prop :=
  command_list s' = command_list s ∧ vic s' = vic s ∧ sphinx s' = sphinx s.

(** What the loop body of [checkMlineDatabase] does, case by case. *)
Lemma checkMline_molec_spec molec model_bools new_molec_id s e :
  db_data (ml_db s) !! model_id s = Some e →
  ∃ molec' model_bools' new_molec_id' s',
    checkMline_molec molec model_bools new_molec_id s
      = Ok (molec', model_bools', new_molec_id', s') ∧
    model_id s' = model_id s ∧
    mline_frame s s' ∧
    match find (mline_match molec) (mline_candidates e (molecule molec)) with
    | Some kd =>
        molec' = molec_setModelId kd.1 molec ∧ model_bools' = model_bools ++ [true] ∧
        new_molec_id' = new_molec_id ∧ s' = s
    | None =>
        match molec_model_id molec with
        | Some _ =>
            molec' = molec ∧ model_bools' = model_bools ∧
            new_molec_id' = new_molec_id ∧ s' = s
        | None =>
            model_bools' = model_bools ++ [false] ∧
            match free_slot e (molecule molec) with
            | Some k =>
                molec' = molec_setModelId k molec ∧ new_molec_id' = new_molec_id ∧ s' = s
            | None =>
                if bool_decide (new_molec_id = "") then
                  molec' = molec_setModelId (makeNewId (outside s)) molec ∧
                  new_molec_id' = makeNewId (outside s) ∧
                  outside s' = outside s ++ new_mline_id_events s molec ∧
                  db_data (ml_db s') = <[model_id s := <[makeNewId (outside s) := ∅]> e]>
                                         (db_data (ml_db s))
                else
                  molec' = molec_setModelId new_molec_id molec ∧
                  new_molec_id' = new_molec_id ∧ s' = s
            end
        end
    end.
Proof.
  intros He. unfold checkMline_molec, ml_cooling_entry, getitem. rewrite He. simpl.
  fold (mline_match molec).
  destruct (find (mline_match molec) _) as [kd|]; simpl.
  { eexists _, _, _, _. split; [reflexivity|]. done. }
  destruct (molec_model_id molec) eqn:Hid; simpl.
  { eexists _, _, _, _. split; [reflexivity|]. done. }
  destruct (free_slot e (molecule molec)) as [k|]; simpl.
  { eexists _, _, _, _. split; [reflexivity|]. by destruct molec; simplify_eq/=. }
  destruct (bool_decide (new_molec_id = "")); simpl.
  - rewrite He. simpl. eexists _, _, _, _. split; [reflexivity|]. simpl.
    split; [done|]. split; [done|]. split; [done|].
    split; [by destruct molec; simplify_eq/=|].
    split; [done|]. split; [|done].
    unfold new_mline_id_events. by rewrite <- !app_assoc.
  - eexists _, _, _, _. split; [reflexivity|]. by destruct molec; simplify_eq/=.
Qed.

Lemma new_ids_new_mline_id history s molec :
  new_ids (history ++ new_mline_id_events s molec) = S (new_ids history).
Proof.
  unfold new_ids, new_mline_id_events. rewrite filter_app, length_app. simpl.
  unfold filter. simpl. lia.
Qed.

Lemma mline_settled_empty_slot (e : ml_entry) k molec :
  e !! k = Some ∅ → mline_settled e molec = true.
Proof.
  intros Hk. unfold mline_settled.
  destruct (free_slot_is_some e (molecule molec) k ∅ Hk) as [k' ->]; [done|].
  simpl. by rewrite !orb_true_r.
Qed.

Lemma checkMline_loop_length molecs : ∀ model_bools new_molec_id s r,
  checkMline_loop molecs model_bools new_molec_id s = Ok r →
  length r.1.1.1 = length molecs.
Proof.
  induction molecs as [|molec rest IH]; intros model_bools new_molec_id s r; simpl.
  { by intros [= <-]. }
  destruct (checkMline_molec molec model_bools new_molec_id s)
    as [[[[molec' bools'] new'] s1]|]; simpl; [|done].
  destruct (checkMline_loop rest bools' new' s1) as [[[[rest' bools''] new''] s2]|] eqn:Hrest;
    simpl; [|done].
  intros [= <-]. simpl. f_equal. by apply (IH _ _ _ _ Hrest).
Qed.

(** The loop of [checkMlineDatabase] always ends, and makes at most one
    new id. *)
Lemma checkMline_loop_new_ids molecs : ∀ model_bools new_molec_id s e,
  db_data (ml_db s) !! model_id s = Some e →
  ∃ molecs' model_bools' new_molec_id' s',
    checkMline_loop molecs model_bools new_molec_id s
      = Ok (molecs', model_bools', new_molec_id', s') ∧
    (new_ids (outside s) ≤ new_ids (outside s') ≤ S (new_ids (outside s)))%nat.
Proof.
  clear str_slice str_replace str_find.
  induction molecs as [|molec rest IH]; intros model_bools new_molec_id s e He; simpl.
  { eexists _, _, _, _. split; [reflexivity|]. lia. }
  destruct (checkMline_molec_spec molec model_bools new_molec_id s e He)
    as (molec' & bools' & new' & s1 & -> & Hid & _ & Hspec).
  simpl.
  assert (s1 = s ∨
          (outside s1 = outside s ++ new_mline_id_events s molec ∧
           db_data (ml_db s1) = <[model_id s := <[makeNewId (outside s) := ∅]> e]>
                                  (db_data (ml_db s)))) as [->|[Hout Hdb]].
  { destruct (find _ _); [left; tauto|].
    destruct (molec_model_id molec); [left; tauto|].
    destruct Hspec as [_ Hspec].
    destruct (free_slot _ _); [left; tauto|].
    destruct (bool_decide _); [right; tauto|left; tauto]. }
  - destruct (IH bools' new' s e He) as (rest' & bools'' & new'' & s2 & -> & Hle).
    simpl. eexists _, _, _, _. split; [reflexivity|]. done.
  - destruct (checkMline_loop_settled rest bools' new' s1
                (<[makeNewId (outside s) := ∅]> e)) as (rest' & bools'' & ->).
    { rewrite Hdb, Hid. apply lookup_insert_eq. }
    { apply forallb_forall. intros m _.
      apply (mline_settled_empty_slot _ (makeNewId (outside s))), lookup_insert_eq. }
    simpl. eexists _, _, _, _. split; [reflexivity|].
    rewrite Hout, new_ids_new_mline_id. lia.
Qed.

Lemma mline_no_hit_new_slot (e : ml_entry) n molec :
  find (mline_match molec) (mline_candidates e (molecule molec)) = None →
  find (mline_match molec) (mline_candidates (<[n := ∅]> e) (molecule molec)) = None.
Proof.
  intros Hnone.
  destruct (find _ (mline_candidates (<[n := ∅]> e) _)) as [[k d]|] eqn:Hfind; [|done].
  apply find_some in Hfind as [Hin Hf].
  apply list_elem_of_In, mline_candidates_elem in Hin as (v & Hv & Hd).
  destruct (decide (k = n)) as [->|Hne].
  { rewrite lookup_insert_eq in Hv. injection Hv as <-. by rewrite lookup_empty in Hd. }
  rewrite lookup_insert_ne in Hv by done.
  assert ((k, d) ∈ mline_candidates e (molecule molec)) as Hin.
  { apply mline_candidates_elem. by exists v. }
  rewrite (find_none_all _ _ _ Hnone Hin) in Hf. done.
Qed.

Lemma free_slot_new_slot {V} (e : gmap string (gmap string V)) n name :
  free_slot e name = None → free_slot (<[n := ∅]> e) name = Some n.
Proof.
  intros Hnone.
  destruct (free_slot_is_some (<[n := ∅]> e) name n ∅) as [k Hk];
    [apply lookup_insert_eq|done|].
  rewrite Hk. f_equal.
  apply free_slot_lookup in Hk as (v & Hv & Hname).
  destruct (decide (k = n)) as [->|Hne]; [done|].
  rewrite lookup_insert_ne in Hv by done.
  destruct (free_slot_none e name k v Hnone Hv) as [d Hd]. congruence.
Qed.

(** C8, as the code has it: the mline check always ends and makes at most
    one new mline id.  A molecule that is not found is given the first
    mline id under the cooling id that does not hold a molecule of its name
    yet, without any new id being made; only when every mline id there holds
    the name is a new id made, once, and handed to the molecules after it
    that need one.  So two molecules that both are not found and both find
    every mline id taken share exactly one new id. *)
Theorem checkMlineDatabase_new_id :
  (∀ s, ∃ model_bools s',
     checkMlineDatabase s = Ok (model_bools, s') ∧
     (new_ids (outside s') ≤ S (new_ids (outside s)))%nat) ∧
  (∀ molec model_bools new_molec_id s e,
     db_data (ml_db s) !! model_id s = Some e →
     molec_model_id molec = None →
     find (mline_match molec) (mline_candidates e (molecule molec)) = None →
     ∃ molec' new_molec_id' s',
       checkMline_molec molec model_bools new_molec_id s
         = Ok (molec', model_bools ++ [false], new_molec_id', s') ∧
       match free_slot e (molecule molec) with
       | Some k =>
           molec_model_id molec' = Some k ∧ s' = s ∧ new_molec_id' = new_molec_id ∧
           (∃ v, e !! k = Some v ∧ v !! molecule molec = None) ∧
           (∀ k' v', e !! k' = Some v' → v' !! molecule molec = None → String.le k k')
       | None =>
           (∀ k v, e !! k = Some v → is_Some (v !! molecule molec)) ∧
           if bool_decide (new_molec_id = "") then
             molec_model_id molec' = Some (makeNewId (outside s)) ∧
             new_molec_id' = makeNewId (outside s) ∧
             new_ids (outside s') = S (new_ids (outside s)) ∧
             db_data (ml_db s') = <[model_id s := <[makeNewId (outside s) := ∅]> e]>
                                    (db_data (ml_db s))
           else
             molec_model_id molec' = Some new_molec_id ∧ s' = s ∧
             new_molec_id' = new_molec_id
       end) ∧
  (∀ s e a b,
     db_data (ml_db s) !! model_id s = Some e →
     molec_list s = [a; b] →
     molec_model_id a = None → molec_model_id b = None →
     find (mline_match a) (mline_candidates e (molecule a)) = None →
     find (mline_match b) (mline_candidates e (molecule b)) = None →
     free_slot e (molecule a) = None → free_slot e (molecule b) = None →
     ∃ s',
       checkMlineDatabase s = Ok ([false; false], s') ∧
       molec_model_id <$> molec_list s'
         = [Some (makeNewId (outside s)); Some (makeNewId (outside s))] ∧
       new_ids (outside s') = S (new_ids (outside s))).
Proof.
  split; [|split].
  - intros s. unfold checkMlineDatabase.
    destruct (has_key (db_data (ml_db s)) (model_id s)) eqn:Hkey; simpl.
    + apply has_key_true in Hkey as [e He].
      destruct (checkMline_loop_new_ids (molec_list s) [] "" s e He)
        as (molecs' & bools' & new' & s1 & -> & Hle).
      simpl. eexists _, _. split; [reflexivity|]. simpl. lia.
    + eexists _, _. split; [reflexivity|]. simpl. lia.
  - intros molec model_bools new_molec_id s e He Hid Hfind.
    destruct (checkMline_molec_spec molec model_bools new_molec_id s e He)
      as (molec' & bools' & new' & s1 & Hstep & _ & _ & Hspec).
    rewrite Hfind, Hid in Hspec. destruct Hspec as [-> Hspec].
    exists molec', new', s1. split; [exact Hstep|].
    destruct (free_slot e (molecule molec)) as [k|] eqn:Hslot.
    + destruct Hspec as (-> & -> & ->). repeat (split; [done|]). split.
      * by apply free_slot_lookup.
      * intros k' v'. by apply free_slot_first.
    + split; [intros k v; by apply free_slot_none|].
      destruct (bool_decide (new_molec_id = "")).
      * destruct Hspec as (-> & -> & Hout & Hdb). repeat (split; [done|]).
        split; [|done]. by rewrite Hout, new_ids_new_mline_id.
      * by destruct Hspec as (-> & -> & ->).
  - intros s e a b He Hlist Ha Hb Hfa Hfb Hsa Hsb.
    unfold checkMlineDatabase.
    assert (has_key (db_data (ml_db s)) (model_id s) = true) as ->.
    { apply has_key_true. by eexists. }
    simpl. rewrite Hlist. simpl.
    destruct (checkMline_molec_spec a [] "" s e He)
      as (a' & bools1 & new1 & s1 & -> & Hid1 & _ & Hspec1).
    rewrite Hfa, Ha, Hsa in Hspec1. simpl in Hspec1.
    destruct Hspec1 as (-> & -> & -> & Hout1 & Hdb1). simpl.
    set (n := makeNewId (outside s)) in *.
    assert (db_data (ml_db s1) !! model_id s1 = Some (<[n := ∅]> e)) as He1.
    { rewrite Hdb1, Hid1. apply lookup_insert_eq. }
    destruct (checkMline_molec_spec b [false] n s1 _ He1)
      as (b' & bools2 & new2 & s2 & -> & Hid2 & _ & Hspec2).
    rewrite (mline_no_hit_new_slot _ _ _ Hfb), Hb, (free_slot_new_slot _ _ _ Hsb) in Hspec2.
    destruct Hspec2 as (-> & -> & -> & ->). simpl.
    eexists. split; [reflexivity|]. simpl. split; [done|].
    by rewrite Hout1, new_ids_new_mline_id.
Qed.

(** ** Transitions in progress *)

Lemma candidates_sorted (me : sph_molec_entry) sig :
  StronglySorted key_le (sphinx_candidates me sig).
Proof.
  unfold sphinx_candidates.
  pose proof (sorted_items_sorted me) as Hsorted.
  induction Hsorted as [|[k v] l Hl IH Hk]; simpl; [constructor|].
  destruct (v !! sig) as [d|]; simpl; [|exact IH].
  constructor; [exact IH|].
  apply Forall_forall. intros [k' d'] Hin.
  apply list_elem_of_omap in Hin as ([k'' v'] & Hin & Hf). simpl in Hf.
  destruct (v' !! sig); simplify_eq/=.
  eapply Forall_forall in Hk; [|exact Hin]. exact Hk.
Qed.

Lemma sphinx_candidates_elem (me : sph_molec_entry) sig k d :
  (k, d) ∈ sphinx_candidates me sig ↔ ∃ models, me !! k = Some models ∧ models !! sig = Some d.
Proof. apply mline_candidates_elem. Qed.






(** ** The mline stage *)

(** The molecule has a model id under which the cooling entry [e] has a
    dictionary. *)
Definition has_slot (e : ml_entry) (molec : Molecule) : Prop :=
  ∃ k, molec_model_id molec = Some k ∧ is_Some (e !! k).

Lemma checkMline_loop_assigns molecs : ∀ model_bools new_molec_id s e,
  db_data (ml_db s) !! model_id s = Some e →
  (∀ molec, molec ∈ molecs → molec_model_id molec = None) →
  new_molec_id = "" ∨ is_Some (e !! new_molec_id) →
  ∃ molecs' model_bools' new_molec_id' s' e',
    checkMline_loop molecs model_bools new_molec_id s
      = Ok (molecs', model_bools', new_molec_id', s') ∧
    model_id s' = model_id s ∧ mline_frame s s' ∧
    db_data (ml_db s') !! model_id s' = Some e' ∧
    (∀ k, is_Some (e !! k) → is_Some (e' !! k)) ∧
    length model_bools' = (length model_bools + length molecs)%nat ∧
    Forall (has_slot e') molecs'.
Proof.
  induction molecs as [|molec rest IH]; intros model_bools new_molec_id s e He Hfresh Hnew;
    simpl.
  { eexists _, _, _, _, e. split; [reflexivity|].
    split; [done|]. split; [done|]. split; [done|]. split; [done|].
    split; [simpl; lia|constructor]. }
  destruct (checkMline_molec_spec molec model_bools new_molec_id s e He)
    as (molec' & bools' & new' & s1 & -> & Hid & Hframe & Hspec).
  simpl. rewrite (Hfresh molec) in Hspec by left.
  assert (∃ e1, db_data (ml_db s1) !! model_id s1 = Some e1 ∧
                (∀ k, is_Some (e !! k) → is_Some (e1 !! k)) ∧
                has_slot e1 molec' ∧
                (new' = "" ∨ is_Some (e1 !! new')) ∧
                length bools' = S (length model_bools))
    as (e1 & He1 & Hmono & Hslot & Hnew' & Hlen).
  { destruct (find _ _) as [[k d]|] eqn:Hfind.
    - destruct Hspec as (-> & -> & -> & ->). exists e. repeat (split; [done|]).
      split; [|split; [done|rewrite length_app; simpl; lia]].
      apply find_some in Hfind as [Hin _].
      apply list_elem_of_In, mline_candidates_elem in Hin as (v & Hv & _).
      exists k. by split; [|eexists].
    - destruct Hspec as [-> Hspec].
      rewrite length_app. simpl.
      destruct (free_slot e (molecule molec)) as [k|] eqn:Hfree.
      + destruct Hspec as (-> & -> & ->). exists e. repeat (split; [done|]).
        split; [|split; [done|lia]].
        apply free_slot_lookup in Hfree as (v & Hv & _). exists k. by split; [|eexists].
      + case_bool_decide as Hempty.
        * destruct Hspec as (-> & -> & _ & Hdb). eexists.
          split; [rewrite Hdb, Hid; apply lookup_insert_eq|].
          split.
          { intros k Hk. destruct (decide (k = makeNewId (outside s))) as [->|Hne].
            - rewrite lookup_insert_eq. by eexists.
            - by rewrite lookup_insert_ne. }
          split; [eexists; split; [done|]; rewrite lookup_insert_eq; by eexists|].
          split; [right; rewrite lookup_insert_eq; by eexists|lia].
        * destruct Hspec as (-> & -> & ->). exists e. repeat (split; [done|]).
          destruct Hnew as [?|Hnew]; [done|].
          split; [by exists new_molec_id|]. split; [by right|lia]. }
  destruct (IH bools' new' s1 e1 He1) as
    (rest' & bools'' & new'' & s2 & e2 & -> & Hid2 & Hframe2 & He2 & Hmono2 & Hlen2 & Hall);
    [intros m Hm; apply Hfresh; by right|done|].
  simpl. eexists _, _, _, _, e2. split; [reflexivity|].
  split; [congruence|]. split.
  { destruct Hframe as (? & ? & ?), Hframe2 as (? & ? & ?). repeat split; congruence. }
  split; [done|]. split; [auto|]. split; [lia|].
  constructor; [|done].
  destruct Hslot as (k & Hk & Hin). exists k. split; [done|]. by apply Hmono2.
Qed.

(** The mline check of fresh molecules: a flag and a model id for every
    molecule, and a dictionary in the database under each of these ids. *)
Lemma checkMlineDatabase_assigns s :
  (∀ molec, molec ∈ molec_list s → molec_model_id molec = None) →
  ∃ model_bools s1 e1,
    checkMlineDatabase s = Ok (model_bools, s1) ∧
    model_id s1 = model_id s ∧ mline_frame s s1 ∧
    db_data (ml_db s1) !! model_id s1 = Some e1 ∧
    length model_bools = length (molec_list s1) ∧
    Forall (has_slot e1) (molec_list s1).
Proof.
  intros Hfresh. unfold checkMlineDatabase.
  destruct (has_key (db_data (ml_db s)) (model_id s)) eqn:Hkey; simpl.
  - apply has_key_true in Hkey as [e He].
    destruct (checkMline_loop_assigns (molec_list s) [] "" s e He Hfresh)
      as (molecs' & bools' & new' & s1 & e1 & Hloop & Hid & Hframe & He1 & _ & Hlen & Hall);
      [by left|].
    rewrite Hloop. simpl. eexists _, _, e1. split; [reflexivity|]. simpl.
    repeat (split; [done|]). split; [|done].
    rewrite Hlen. simpl. symmetry.
    by apply (checkMline_loop_length _ _ _ _ _ Hloop).
  - eexists _, _, _. split; [reflexivity|]. simpl. split; [done|]. split; [done|].
    split; [apply lookup_insert_eq|].
    split; [by rewrite length_replicate, length_fmap|].
    apply Forall_fmap, Forall_forall. intros m _. exists (model_id s). simpl.
    split; [done|]. rewrite lookup_singleton_eq. by eexists.
Qed.

Lemma not_elem_of_list (k : string) (l : list string) :
  bool_decide (k ∈ l) = false → k ∉ l.
Proof. by intros ?%bool_decide_eq_false. Qed.

Lemma has_model_keys_lookup cl :
  has_model_keys cl = true ↔
  ∃ o p x, cl !! "OUTPUT_DIRECTORY" = Some (VStr o) ∧ cl !! "PARAMETER_FILE" = Some (VStr p)
           ∧ cl !! "OUTPUT_SUFFIX" = Some (VStr x).
Proof.
  unfold has_model_keys, run_identity_keys. simpl. split.
  - destruct (cl !! "OUTPUT_DIRECTORY") as [[o|]|]; [|done..].
    destruct (cl !! "PARAMETER_FILE") as [[p|]|]; [|done..].
    destruct (cl !! "OUTPUT_SUFFIX") as [[x|]|]; [|done..].
    intros _. by exists o, p, x.
  - intros (o & p & x & -> & -> & ->). done.
Qed.

Lemma has_model_keys_delete cl k :
  k ∉ run_identity_keys → has_model_keys cl = true → has_model_keys (delete k cl) = true.
Proof.
  clear str_slice str_replace str_find gout default_h2o_dict compareCommandLists.
  intros Hk (o & p & x & Ho & Hp & Hx)%has_model_keys_lookup.
  apply has_model_keys_lookup. exists o, p, x.
  rewrite !lookup_delete_ne; [done|..]; intros ->; apply Hk; unfold run_identity_keys;
    rewrite !elem_of_cons; tauto.
Qed.

Lemma updateModel_keys new_model_id s :
  has_model_keys (command_list s) = true →
  ∃ cl, updateModel new_model_id s = Ok (set_command_list cl s) ∧ has_model_keys cl = true.
Proof.
  intros (o & p & x & Ho & Hp & Hx)%has_model_keys_lookup. unfold updateModel.
  set (new_id := if id_truthy new_model_id then default "" new_model_id else model_id s).
  unfold updateModel_par at 3. unfold getitem. rewrite Ho. simpl.
  unfold updateModel_par at 2. unfold getitem.
  rewrite lookup_insert_ne by done. rewrite Hp. simpl.
  unfold updateModel_par. unfold getitem.
  rewrite !lookup_insert_ne by done. rewrite Hx. simpl.
  eexists. split; [reflexivity|].
  apply has_model_keys_lookup. eexists _, _, _.
  rewrite lookup_insert_ne by done. rewrite lookup_insert_ne by done.
  rewrite lookup_insert_eq.
  rewrite (lookup_insert_ne _ "OUTPUT_SUFFIX" "PARAMETER_FILE") by done.
  rewrite lookup_insert_eq. rewrite lookup_insert_eq. done.
Qed.

(** The dictionary of a molecule saved under its mline id. *)
Definition mline_stored (e : ml_entry) (molec : Molecule) : ml_entry :=
  match molec_model_id molec with
  | Some k =>
      match e !! k with
      | Some slot => <[k := <[molecule molec := molec_dict molec]> slot]> e
      | None => e
      end
  | None => e
  end.

(** The files of the molecule are complete after its mline run, or not. *)
Definition mline_run (run_ok : Molecule → bool) (molec : Molecule) : Prop :=
  ∀ history k, molec_model_id molec = Some k →
    length (glob (history ++ [ExecGastronoom "mline" (inputfile k)])
                 (mline_files k (molecule molec))) = 3
    ↔ run_ok molec = true.

(** The molecule as the mline stage leaves it. *)
Definition mline_outcome (run_ok : Molecule → bool) (molec : Molecule) (model_bool : bool)
    : Molecule :=
  if model_bool || run_ok molec then molec else molec_setModelId "" molec.

Definition mline_saved (run_ok : Molecule → bool) (e : ml_entry) (mb : Molecule * bool)
    : ml_entry :=
  if negb mb.2 && run_ok mb.1 then mline_stored e mb.1 else e.

Lemma has_slot_stored e molec molec' :
  has_slot e molec' → has_slot (mline_stored e molec) molec'.
Proof.
  intros (k' & Hk' & Hin). exists k'. split; [done|]. unfold mline_stored.
  destruct (molec_model_id molec) as [k|]; [|done].
  destruct (e !! k) as [slot|] eqn:Hslot; [|done].
  destruct (decide (k' = k)) as [->|Hne].
  - rewrite lookup_insert_eq. by eexists.
  - by rewrite lookup_insert_ne.
Qed.

Lemma doMline_molec_spec run_ok molec model_bool s e :
  db_data (ml_db s) !! model_id s = Some e →
  has_model_keys (command_list s) = true →
  has_slot e molec →
  mline_run run_ok molec →
  ∃ s',
    doMline_molec molec model_bool s = Ok (mline_outcome run_ok molec model_bool, s') ∧
    model_id s' = model_id s ∧ vic s' = vic s ∧ sphinx s' = sphinx s ∧
    has_model_keys (command_list s') = true ∧
    db_data (ml_db s') !! model_id s' = Some (mline_saved run_ok e (molec, model_bool)).
Proof.
  intros He Hkeys (k & Hk & slot & Hslot) Hrun.
  unfold doMline_molec, mline_outcome, mline_saved. simpl.
  destruct model_bool; simpl.
  { exists s. done. }
  destruct (updateModel_keys (molec_model_id molec) s Hkeys) as (cl & -> & Hcl).
  simpl. rewrite Hk. simpl.
  specialize (Hrun ((outside s ++
    [WriteFile (inputfile k)
       (general_lines cl ++ "####" :: command_lines (molec_dict molec)
        ++ "####" :: mass_loss_lines cl)])) k Hk).
  destruct (run_ok molec).
  - rewrite bool_decide_eq_true_2 by (by apply Hrun).
    unfold ml_cooling_entry, getitem. simpl. rewrite He. simpl. rewrite Hslot. simpl.
    eexists. split; [reflexivity|]. simpl. repeat (split; [done|]).
    unfold mline_stored. rewrite Hk, Hslot. apply lookup_insert_eq.
  - rewrite bool_decide_eq_false_2.
    2:{ intros Hlen. apply Hrun in Hlen. done. }
    eexists. split; [reflexivity|]. simpl. done.
Qed.

Lemma doMline_loop_spec run_ok molecs : ∀ model_bools s e,
  db_data (ml_db s) !! model_id s = Some e →
  has_model_keys (command_list s) = true →
  Forall (has_slot e) molecs →
  Forall (mline_run run_ok) molecs →
  length model_bools = length molecs →
  ∃ s',
    doMline_loop molecs model_bools s
      = Ok (zip_with (mline_outcome run_ok) molecs model_bools, s') ∧
    model_id s' = model_id s ∧ vic s' = vic s ∧ sphinx s' = sphinx s ∧
    db_data (ml_db s') !! model_id s'
      = Some (foldl (mline_saved run_ok) e (zip molecs model_bools)).
Proof.
  induction molecs as [|molec rest IH]; intros model_bools s e He Hkeys Hslots Hruns Hlen.
  { exists s. by destruct model_bools. }
  destruct model_bools as [|b bools]; [done|]. simpl in Hlen.
  apply Forall_cons in Hslots as [Hslot Hslots].
  apply Forall_cons in Hruns as [Hrun Hruns].
  simpl.
  destruct (doMline_molec_spec run_ok molec b s e He Hkeys Hslot Hrun)
    as (s1 & -> & Hid & Hvic & Hsphinx & Hkeys1 & He1).
  simpl.
  destruct (IH bools s1 (mline_saved run_ok e (molec, b)) He1 Hkeys1)
    as (s2 & -> & Hid2 & Hvic2 & Hsphinx2 & He2); [|done|lia|].
  { eapply Forall_impl; [exact Hslots|]. intros m Hm. unfold mline_saved.
    destruct (negb _ && _); [by apply has_slot_stored|done]. }
  simpl. eexists. split; [reflexivity|].
  split; [congruence|]. split; [congruence|]. split; [congruence|done].
Qed.

Lemma only_empty_ids_all ids :
  only_empty_ids ids = true → Forall (λ i, i = Some "") ids.
Proof.
  destruct ids as [|i ids]; [done|]. unfold only_empty_ids.
  intros Hall. apply Forall_forall. intros j Hj.
  rewrite forallb_forall in Hall. specialize (Hall j).
  rewrite <- list_elem_of_In in Hall. apply Hall in Hj.
  by apply bool_decide_eq_true in Hj.
Qed.

Lemma mline_outcome_all_failed run_ok molecs : ∀ model_bools,
  length model_bools = length molecs →
  Forall (λ molec, molec_model_id molec ≠ Some "") molecs →
  Forall (λ i, i = Some "")
    (molec_model_id <$> zip_with (mline_outcome run_ok) molecs model_bools) →
  Forall2 (λ molec model_bool, model_bool = false ∧ run_ok molec = false) molecs model_bools.
Proof.
  induction molecs as [|molec rest IH]; intros [|b bools] Hlen Hids Hall; try done.
  simpl in *. apply Forall_cons in Hids as [Hid Hids]. apply Forall_cons in Hall as [Hb Hall].
  constructor; [|apply IH; [lia|done..]].
  unfold mline_outcome in Hb. destruct b, (run_ok molec); simpl in Hb; done.
Qed.

(** X20: in a mline batch of molecules that come without a model id,
    every molecule is dealt with on its own.  A molecule that was found, or whose run left its
    three output files, keeps the model id the check gave it; a molecule
    whose run did not gets the empty model id, and only the molecules with
    a finished run are saved to the database.  The cooling model id of the
    session is emptied exactly when all the model ids are empty in the end,
    that is, for ids from the database, only if the run of every molecule
    failed.  In the sphinx check a transition of a molecule with the empty
    id is flagged as not found and gets the empty id, nothing else changes
    and the loop goes on with the next transition; the loop of [doSphinx]
    then leaves the transition alone. *)
Theorem doMline_partial_failure s model_bools s1 run_ok :
  is_Some (command_list s !! "R_OUTER") →
  is_Some (command_list s !! "OUTER_R_MODE") →
  has_model_keys (command_list s) = true →
  (∀ molec, molec ∈ molec_list s → molec_model_id molec = None) →
  checkMlineDatabase (set_mline_done false s) = Ok (model_bools, s1) →
  Forall (mline_run run_ok) (molec_list s1) →
  ∃ s' e1,
    doMline s = Ok s' ∧
    db_data (ml_db s1) !! model_id s = Some e1 ∧
    length model_bools = length (molec_list s1) ∧
    molec_list s' = zip_with (mline_outcome run_ok) (molec_list s1) model_bools ∧
    db_data (ml_db s') !! model_id s
      = Some (foldl (mline_saved run_ok) e1 (zip (molec_list s1) model_bools)) ∧
    model_id s' = (if only_empty_ids (molec_model_id <$> molec_list s')
                   then "" else model_id s) ∧
    (Forall (λ molec, molec_model_id molec ≠ Some "") (molec_list s1) →
     only_empty_ids (molec_model_id <$> molec_list s') = true →
     Forall2 (λ molec model_bool, model_bool = false ∧ run_ok molec = false)
       (molec_list s1) model_bools) ∧
    (∀ i trans new_trans_id copied t molec,
       molec_list t = molec_list s' →
       molec_list s' !! trans_molecule trans = Some molec →
       molec_model_id molec = Some "" →
       checkSphinx_trans i trans new_trans_id copied t
         = Ok (trans_setModelId "" trans, new_trans_id, copied, append_trans_bool false t) ∧
       doSphinx_trans i false (trans_setModelId "" trans) (append_trans_bool false t)
         = Ok (trans_setModelId "" trans, append_trans_bool false t)).
Proof.
  intros [r_outer Hr] [outer_r_mode Ho] Hkeys Hfresh Hcheck Hruns.
  destruct (checkMlineDatabase_assigns (set_mline_done false s) Hfresh)
    as (bools & s1' & e1 & Hcheck' & Hid & (Hcl & Hvic & Hsphinx) & He1 & Hlen & Hslots).
  rewrite Hcheck in Hcheck'. injection Hcheck' as <- <-. simpl in *.
  unfold doMline. rewrite Hcheck. simpl.
  unfold delitem. rewrite Hcl, Hr. simpl.
  rewrite lookup_delete_ne by done. rewrite Ho. simpl.
  destruct (doMline_loop_spec run_ok (molec_list s1) model_bools
              (set_command_list (delete "OUTER_R_MODE" (delete "R_OUTER" (command_list s))) s1)
              e1)
    as (s2 & Hloop & Hid2 & Hvic2 & Hsphinx2 & He2); [done| |done..|].
  { simpl. apply has_model_keys_delete; [by apply not_elem_of_list|].
    apply has_model_keys_delete; [by apply not_elem_of_list|done]. }
  simpl in Hloop. rewrite Hloop. simpl in *.
  rewrite Hid2, Hid in He2. rewrite Hid in He1.
  set (final := zip_with (mline_outcome run_ok) (molec_list s1) model_bools) in *.
  assert (∀ i trans new_trans_id copied t molec,
            molec_list t = final → final !! trans_molecule trans = Some molec →
            molec_model_id molec = Some "" →
            checkSphinx_trans i trans new_trans_id copied t
              = Ok (trans_setModelId "" trans, new_trans_id, copied,
                    append_trans_bool false t) ∧
            doSphinx_trans i false (trans_setModelId "" trans) (append_trans_bool false t)
              = Ok (trans_setModelId "" trans, append_trans_bool false t)) as Hsphinx_skip.
  { intros i trans new_trans_id copied t molec Ht Hmolec Hempty.
    unfold checkSphinx_trans, doSphinx_trans, molecule_of.
    rewrite Ht, Hmolec. simpl. by rewrite Hempty. }
  destruct (only_empty_ids (molec_model_id <$> final)) eqn:Hempty; simpl.
  - eexists _, e1. split; [reflexivity|]. simpl. rewrite Hempty.
    repeat (split; [done|]). split; [|done].
    intros Hids _. apply (mline_outcome_all_failed run_ok); [done..|].
    by apply only_empty_ids_all.
  - assert (∃ s', (match vic s2 with
                   | Some calls =>
                       if sphinx s2
                       then mret (set_vic (Some (calls ++
                              [VicAddModel (model_id s2) (command_list s2)]))
                              (set_molec_list final s2))
                       else mret (set_molec_list final s2)
                   | None => mret (set_molec_list final s2)
                   end) = Ok s' ∧ molec_list s' = final ∧ model_id s' = model_id s2 ∧
                  ml_db s' = ml_db s2) as (s' & Hs' & Hmols' & Hid' & Hdb').
    { destruct (vic s2); [destruct (sphinx s2)|]; eexists; (split; [reflexivity|done]). }
    exists s', e1. split; [exact Hs'|]. rewrite Hmols', Hempty, Hid', Hdb'.
    repeat (split; [done|]). split; [congruence|]. split; [done|].
    intros i trans new_trans_id copied t molec Ht. by apply Hsphinx_skip.
Qed.

(** ** The same request twice *)

Lemma find_pointwise {A} (f g : A → bool) l :
  (∀ x, x ∈ l → f x = g x) → find f l = find g l.
Proof.
  induction l as [|x l IH]; simpl; [done|]. intros Hfg.
  rewrite <- (Hfg x) by left. destruct (f x); [done|].
  apply IH. intros y Hy. apply Hfg. by right.
Qed.

(** The command list of a request as [doCooling] compares it. *)
Definition cooling_request (star : Star) (new_id : string) : config :=
  cooling_command_list star (request_command_list star new_id).

Lemma request_command_list_keys star new_id :
  has_model_keys (request_command_list star new_id) = true.
Proof.
  apply has_model_keys_lookup. unfold request_command_list. eexists _, _, _.
  rewrite lookup_insert_ne by done. rewrite lookup_insert_ne by done.
  rewrite lookup_insert_eq.
  rewrite (lookup_insert_ne _ "OUTPUT_SUFFIX" "PARAMETER_FILE") by done.
  rewrite lookup_insert_eq. rewrite lookup_insert_eq. done.
Qed.

Lemma cooling_request_keys star new_id :
  has_model_keys (cooling_request star new_id) = true.
Proof.
  unfold cooling_request, cooling_command_list.
  destruct (has_key _ _); [|apply request_command_list_keys].
  apply has_model_keys_delete; [by apply not_elem_of_list|apply request_command_list_keys].
Qed.

Lemma request_command_list_f_h2o star id1 id2 :
  request_command_list star id1 !! "F_H2O" = request_command_list star id2 !! "F_H2O".
Proof. unfold request_command_list. by rewrite !lookup_insert_ne by done. Qed.

(** The first match of a command list in a cooling database. *)
Definition cooling_find (cl molec_dict : config) (db : cool_store) : option (string * config) :=
  find (λ kv, compareCommandLists cl kv.2 Cooling false (Some molec_dict)) (sorted_items db).

Lemma cooling_find_smallest cl molec_dict (db : cool_store) m cm :
  db !! m = Some cm →
  compareCommandLists cl cm Cooling false (Some molec_dict) = true →
  (∀ k' c', db !! k' = Some c' →
     compareCommandLists cl c' Cooling false (Some molec_dict) = true → String.le m k') →
  cooling_find cl molec_dict db = Some (m, cm).
Proof.
  intros Hm Hcm Hmin. unfold cooling_find.
  destruct (find_is_some
              (λ kv : string * config,
                 compareCommandLists cl kv.2 Cooling false (Some molec_dict))
              (sorted_items db) (m, cm)) as [[m' cm'] Hfind];
    [by apply sorted_items_elem|exact Hcm|].
  destruct (find_first_sorted _ _ _ (sorted_items_sorted _) Hfind) as (Hin & Hm' & Hfirst).
  apply sorted_items_elem in Hin.
  assert (m' = m) as ->.
  { apply (anti_symm String.le).
    - apply (Hfirst (m, cm)); [by apply sorted_items_elem|exact Hcm].
    - by apply (Hmin m' cm'). }
  rewrite Hfind. congruence.
Qed.

(** What a finished [doCooling] has done. *)
Lemma doCooling_inv star s s1 :
  replace_db_entry s = false →
  doCooling star s = Ok s1 →
  has_key (co_dict_of star) "MOLECULE_TABLE" = false ∧
  (has_key (h2o_dict_of star) "MOLECULE_TABLE" = true → is_Some (command_list s !! "F_H2O")) ∧
  replace_db_entry s1 = false ∧
  match cooling_find (cooling_command_list star (command_list s)) (cooling_molec_dict star)
          (db_data (cool_db s)) with
  | Some kv => model_id s1 = kv.1 ∧ cool_db s1 = cool_db s
  | None =>
      (model_id s1 = model_id s ∧
       db_data (cool_db s1) =
         <[model_id s := cooling_command_list star (command_list s) ∪ cooling_molec_dict star]>
           (db_data (cool_db s)))
      ∨ model_id s1 = ""
  end.
Proof.
  intros Hreplace. unfold doCooling.
  destruct (has_key (co_dict_of star) "MOLECULE_TABLE"); [done|].
  unfold cooling_command_list, cooling_find.
  destruct (has_key (h2o_dict_of star) "MOLECULE_TABLE"); unfold delitem;
    [destruct (command_list s !! "F_H2O") eqn:Hf; [|done]|]; simpl;
    unfold checkCoolingDatabase; rewrite checkCooling_scan_find; simpl;
    unfold cooling_match; simpl;
    (destruct (find _ _) as [kv|]; simpl;
     [ rewrite Hreplace; simpl;
       destruct (updateModel _ _) as [s'|] eqn:Hupdate; [|done]; simpl;
       intros [= <-];
       unfold updateModel in Hupdate;
       repeat (match type of Hupdate with
               | context [updateModel_par ?a ?b ?c] =>
                   destruct (updateModel_par a b c); simpl in Hupdate; [|done]
               end);
       injection Hupdate as <-; simpl;
       (split; [done|]); (split; [first [done|by eexists]|]); done
     | destruct (getitem (co_dict_of star) "MOLECULE"); simpl; [|done];
       destruct (skip_cooling s); simpl;
       (destruct (isfile _ _); simpl; intros [= <-]; simpl;
        (split; [done|]); (split; [first [done|by eexists]|]); (split; [done|]);
        first [by left|by right]) ]).
Qed.

(** [doCooling] on a request that the database holds. *)
Lemma doCooling_found star s kv :
  replace_db_entry s = false →
  has_model_keys (command_list s) = true →
  has_key (co_dict_of star) "MOLECULE_TABLE" = false →
  (has_key (h2o_dict_of star) "MOLECULE_TABLE" = true → is_Some (command_list s !! "F_H2O")) →
  cooling_find (cooling_command_list star (command_list s)) (cooling_molec_dict star)
    (db_data (cool_db s)) = Some kv →
  ∃ s',
    doCooling star s = Ok s' ∧
    model_id s' = kv.1 ∧ outside s' = outside s ∧ cool_db s' = cool_db s.
Proof.
  intros Hreplace Hkeys Hco Hh2o Hfind. unfold doCooling. rewrite Hco.
  assert ((if has_key (h2o_dict_of star) "MOLECULE_TABLE"
           then delitem "F_H2O" (command_list s) else mret (command_list s))
          = Ok (cooling_command_list star (command_list s))) as ->.
  { unfold cooling_command_list. destruct (has_key (h2o_dict_of star) _); [|done].
    destruct Hh2o as [v Hv]; [done|]. unfold delitem. by rewrite Hv. }
  simpl. unfold checkCoolingDatabase. rewrite checkCooling_scan_find.
  unfold cooling_find in Hfind. unfold cooling_match. simpl. rewrite Hfind.
  rewrite Hreplace. simpl.
  destruct (updateModel_keys None
              (set_model_id kv.1
                 (set_command_list (cooling_command_list star (command_list s)) s)))
    as (cl & -> & _).
  { simpl. unfold cooling_command_list.
    destruct (has_key (h2o_dict_of star) "MOLECULE_TABLE"); [|done].
    apply has_model_keys_delete; [by apply not_elem_of_list|done]. }
  simpl. eexists. split; [reflexivity|]. done.
Qed.

(** The session as [doGastronoom] hands it to [doCooling]. *)
Definition new_request (star : Star) (s : Gastronoom) : Gastronoom :=
  let s := if bool_decide (model_id s = "") then s
           else set_new_entries (new_entries s ++ [model_id s]) s in
  let s := set_cool_done false s in
  let new_id := makeNewId (outside s) in
  let s := set_model_id new_id (log (MakeNewId new_id) s) in
  let s := set_molec_list (GAS_LIST star) (set_trans_list (GAS_LINES star) s) in
  set_command_list (request_command_list star new_id) s.

Lemma new_request_fields star s :
  model_id (new_request star s) = makeNewId (outside s) ∧
  command_list (new_request star s) = request_command_list star (makeNewId (outside s)) ∧
  outside (new_request star s) = outside s ++ [MakeNewId (makeNewId (outside s))] ∧
  cool_db (new_request star s) = cool_db s ∧
  replace_db_entry (new_request star s) = replace_db_entry s.
Proof. unfold new_request. by destruct (bool_decide (model_id s = "")). Qed.

(** The cooling stage of a request made twice. *)
Lemma request_twice_cooling star s0 s1 :
  replace_db_entry s0 = false →
  (∀ id1 id2 c,
     compareCommandLists (cooling_request star id1) c Cooling false
       (Some (cooling_molec_dict star))
     = compareCommandLists (cooling_request star id2) c Cooling false
         (Some (cooling_molec_dict star))) →
  (∀ id1 id2,
     compareCommandLists (cooling_request star id2)
       (cooling_request star id1 ∪ cooling_molec_dict star) Cooling false
       (Some (cooling_molec_dict star)) = true) →
  doGastronoom star s0 = Ok s1 →
  model_id s1 ≠ "" →
  ∃ s2,
    doGastronoom star s1 = Ok s2 ∧
    model_id s2 = model_id s1 ∧
    cool_db s2 = cool_db s1 ∧
    outside s2 = outside s1 ++ [MakeNewId (makeNewId (outside s1))] ∧
    filter (λ ev, is_exec ev = true) (outside s2)
      = filter (λ ev, is_exec ev = true) (outside s1).
Proof.
  intros Hreplace Hignore Hsaved Hfirst Hid.
  set (id1 := makeNewId (outside s0)).
  set (id2 := makeNewId (outside s1)).
  set (md := cooling_molec_dict star) in *.
  change (doCooling star (new_request star s0) = Ok s1) in Hfirst.
  change (doGastronoom star s1) with (doCooling star (new_request star s1)).
  destruct (new_request_fields star s0) as (Hid0 & Hcl0 & _ & Hdb0 & Hrep0).
  destruct (new_request_fields star s1) as (Hid1' & Hcl1 & Hout1 & Hdb1' & Hrep1).
  apply doCooling_inv in Hfirst as (Hco & Hh2o & Hreplace1 & Hfirst); [|congruence].
  rewrite Hcl0, Hdb0, Hid0 in Hfirst. rewrite Hcl0 in Hh2o.
  fold id1 in Hfirst, Hh2o. fold (cooling_request star id1) in Hfirst. fold md in Hfirst.
  assert (cooling_find (cooling_request star id2) md (db_data (cool_db s1))
          = Some (model_id s1, default ∅ (db_data (cool_db s1) !! model_id s1)))
    as Hfind.
  { destruct (cooling_find (cooling_request star id1) md (db_data (cool_db s0)))
      as [[m cm]|] eqn:Hfind1.
    - destruct Hfirst as [Hm Hdb]. simpl in Hm. rewrite Hm, Hdb.
      unfold cooling_find in *.
      rewrite (find_pointwise _ (λ kv : string * config,
                 compareCommandLists (cooling_request star id1) kv.2 Cooling false (Some md)))
        by (intros; apply Hignore).
      rewrite Hfind1.
      destruct (find_first_sorted _ _ _ (sorted_items_sorted _) Hfind1) as (Hin & _).
      apply sorted_items_elem in Hin. by rewrite Hin.
    - destruct Hfirst as [[Hm Hdb]|Hempty]; [|done].
      rewrite Hdb, Hm. rewrite lookup_insert_eq. simpl.
      apply cooling_find_smallest.
      + apply lookup_insert_eq.
      + apply Hsaved.
      + intros k' c' Hk' Hc'. destruct (decide (k' = id1)) as [->|Hne]; [done|].
        rewrite lookup_insert_ne in Hk' by done.
        apply sorted_items_elem in Hk'.
        unfold cooling_find in Hfind1.
        pose proof (find_none_all _ _ _ Hfind1 Hk') as Hno. simpl in Hno.
        rewrite (Hignore id2 id1) in Hc'. congruence. }
  destruct (doCooling_found star (new_request star s1)
              (model_id s1, default ∅ (db_data (cool_db s1) !! model_id s1)))
    as (s2 & -> & Hid2 & Hout2 & Hdb2).
  - congruence.
  - rewrite Hcl1. apply request_command_list_keys.
  - exact Hco.
  - intros Hkey. specialize (Hh2o Hkey). rewrite Hcl1.
    by rewrite (request_command_list_f_h2o star _ id1).
  - rewrite Hcl1, Hdb1'. exact Hfind.
  - exists s2. split; [done|]. split; [done|].
    rewrite Hdb2, Hout2, Hdb1', Hout1. split; [done|]. split; [done|].
    rewrite filter_app. simpl. unfold filter at 2. simpl. by rewrite app_nil_r.
Qed.

(** A molecule saved under the cooling id is found by the mline check. *)
Lemma checkMline_molec_found molec model_bools new_molec_id s e k v d :
  db_data (ml_db s) !! model_id s = Some e →
  e !! k = Some v →
  v !! molecule molec = Some d →
  mline_match molec (k, d) = true →
  ∃ k',
    checkMline_molec molec model_bools new_molec_id s
      = Ok (molec_setModelId k' molec, model_bools ++ [true], new_molec_id, s) ∧
    String.le k' k ∧
    (∃ v' d', e !! k' = Some v' ∧ v' !! molecule molec = Some d' ∧
              mline_match molec (k', d') = true) ∧
    doMline_molec (molec_setModelId k' molec) true s = Ok (molec_setModelId k' molec, s).
Proof.
  intros He Hk Hv Hmatch.
  destruct (checkMline_molec_spec molec model_bools new_molec_id s e He)
    as (molec' & bools' & new' & s' & Hstep & _ & _ & Hspec).
  destruct (find_is_some (mline_match molec) (mline_candidates e (molecule molec)) (k, d))
    as [[k' d'] Hfind]; [|done|].
  { apply mline_candidates_elem. by exists v. }
  rewrite Hfind in Hspec. destruct Hspec as (-> & -> & -> & ->).
  destruct (find_first_sorted _ _ _ (candidates_sorted e (molecule molec)) Hfind)
    as (Hin & Hf & Hfirst).
  exists k'. split; [exact Hstep|]. split.
  { apply (Hfirst (k, d)); [|done]. apply mline_candidates_elem. by exists v. }
  split; [|done].
  apply mline_candidates_elem in Hin as (v' & Hv' & Hd'). by exists v', d'.
Qed.


(** * Further properties of the session *)

(** ** The cooling stage in all its cases *)

(** The runs of the subcodes among the actions taken. *)
Definition runs (history : list event) : list event :=
  filter (λ ev, is_exec ev = true) history.

Lemma runs_app h1 h2 : runs (h1 ++ h2) = runs h1 ++ runs h2.
Proof. apply filter_app. Qed.

Lemma runs_snoc h ev : runs (h ++ [ev]) = runs h ++ (if is_exec ev then [ev] else []).
Proof.
  rewrite runs_app. f_equal. unfold runs. rewrite filter_cons, filter_nil.
  destruct (is_exec ev); by case_decide.
Qed.

Lemma cooling_command_list_delitem star cl :
  (has_key (h2o_dict_of star) "MOLECULE_TABLE" = true → is_Some (cl !! "F_H2O")) →
  (if has_key (h2o_dict_of star) "MOLECULE_TABLE" then delitem "F_H2O" cl else mret cl)
  = Ok (cooling_command_list star cl).
Proof.
  intros Hh2o. unfold cooling_command_list.
  destruct (has_key (h2o_dict_of star) _); [|done].
  destruct Hh2o as [v Hv]; [done|]. unfold delitem. by rewrite Hv.
Qed.

Lemma cooling_command_list_keys star cl :
  has_model_keys cl = true → has_model_keys (cooling_command_list star cl) = true.
Proof.
  intros Hkeys. unfold cooling_command_list.
  destruct (has_key (h2o_dict_of star) "MOLECULE_TABLE"); [|done].
  apply has_model_keys_delete; [by apply not_elem_of_list|done].
Qed.

(** The three ways the cooling lookup ends: nothing matches; the first
    match is to be replaced; the first match is taken. *)
Lemma checkCoolingDatabase_cases molec_dict s :
  has_model_keys (command_list s) = true →
  match find (cooling_match molec_dict s) (sorted_items (db_data (cool_db s))) with
  | None => checkCoolingDatabase molec_dict s = Ok (false, s)
  | Some kv =>
      if replace_db_entry s && negb (bool_decide (kv.1 ∈ new_entries s))
      then checkCoolingDatabase molec_dict s
           = Ok (false,
                 set_sph_db (db_with_data (delete kv.1) (sph_db s))
                   (set_ml_db (db_with_data (delete kv.1) (ml_db s))
                      (set_cool_db (db_with_data (delete kv.1) (cool_db s)) s)))
      else ∃ cl, checkCoolingDatabase molec_dict s
                   = Ok (true, set_command_list cl (set_model_id kv.1 s)) ∧
                 has_model_keys cl = true
  end.
Proof.
  intros Hkeys. unfold checkCoolingDatabase. rewrite checkCooling_scan_find.
  destruct (find _ _) as [[k c]|] eqn:Hfind; [|done]. simpl.
  destruct (replace_db_entry s && negb (bool_decide (k ∈ new_entries s))).
  - destruct (find_first_sorted _ _ _ (sorted_items_sorted _) Hfind) as (Hin & _).
    apply sorted_items_elem in Hin.
    unfold deleteCoolingId, db_delitem, delitem. rewrite Hin. done.
  - destruct (updateModel_keys None (set_model_id k s)) as (cl & -> & Hcl); [done|].
    by exists cl.
Qed.

Lemma checkCoolingDatabase_returns molec_dict s :
  has_model_keys (command_list s) = true →
  ∃ model_bool s1,
    checkCoolingDatabase molec_dict s = Ok (model_bool, s1) ∧
    outside s1 = outside s ∧ skip_cooling s1 = skip_cooling s ∧
    cool_done s1 = cool_done s ∧
    (model_bool = false → model_id s1 = model_id s ∧ command_list s1 = command_list s).
Proof.
  intros Hkeys. pose proof (checkCoolingDatabase_cases molec_dict s Hkeys) as Hcases.
  destruct (find _ _) as [[k c]|].
  - destruct (replace_db_entry s && negb (bool_decide ((k, c).1 ∈ new_entries s))).
    + eexists _, _. split; [exact Hcases|]. done.
    + destruct Hcases as (cl & Hcheck & _). eexists _, _. split; [exact Hcheck|]. done.
  - eexists _, _. split; [exact Hcases|]. done.
Qed.

(** X1: in replace mode the ids listed in [new_entries] are not replaced: a
    first match that is listed is taken as it is, and nothing is deleted
    from any database. *)
Theorem checkCoolingDatabase_protected molec_dict s k c :
  has_model_keys (command_list s) = true →
  db_data (cool_db s) !! k = Some c →
  cooling_match molec_dict s (k, c) = true →
  (∀ k' c', db_data (cool_db s) !! k' = Some c' →
     cooling_match molec_dict s (k', c') = true → String.le k k') →
  k ∈ new_entries s →
  ∃ s',
    checkCoolingDatabase molec_dict s = Ok (true, s') ∧
    model_id s' = k ∧
    cool_db s' = cool_db s ∧ ml_db s' = ml_db s ∧ sph_db s' = sph_db s ∧
    outside s' = outside s.
Proof.
  intros Hkeys Hk Hc Hmin Hnew.
  pose proof (checkCoolingDatabase_cases molec_dict s Hkeys) as Hcases.
  rewrite (find_smallest_match molec_dict s k c Hk Hc Hmin) in Hcases. simpl in Hcases.
  rewrite (bool_decide_eq_true_2 _ Hnew), andb_false_r in Hcases.
  destruct Hcases as (cl & Hcheck & _). eexists. split; [exact Hcheck|]. done.
Qed.

Lemma checkCoolingDatabase_unmatched molec_dict s :
  (∀ k c, db_data (cool_db s) !! k = Some c → cooling_match molec_dict s (k, c) = false) →
  checkCoolingDatabase molec_dict s = Ok (false, s).
Proof.
  intros Hnone. unfold checkCoolingDatabase. rewrite checkCooling_scan_find.
  destruct (find _ _) as [[k c]|] eqn:Hfind; [|done].
  destruct (find_first_sorted _ _ _ (sorted_items_sorted _) Hfind) as (Hin & Hm & _).
  apply sorted_items_elem in Hin. rewrite (Hnone k c Hin) in Hm. done.
Qed.

(** X2: without a match (with an empty database, say) the cooling lookup
    reports a miss and leaves the session as it is, in replace mode too. *)
Theorem checkCoolingDatabase_no_match molec_dict s :
  (∀ k c, db_data (cool_db s) !! k = Some c → cooling_match molec_dict s (k, c) = false) →
  checkCoolingDatabase molec_dict s = Ok (false, s).
Proof.
  intros Hnone. unfold checkCoolingDatabase. rewrite checkCooling_scan_find.
  destruct (find _ _) as [[k c]|] eqn:Hfind; [|done].
  destruct (find_first_sorted _ _ _ (sorted_items_sorted _) Hfind) as (Hin & Hm & _).
  apply sorted_items_elem in Hin. rewrite (Hnone k c Hin) in Hm. done.
Qed.

(** X3: [doCooling] runs cooling at most once, and only when the lookup
    misses and [skip_cooling] is off; [cool_done] is set exactly then.  On
    a hit nothing happens after the lookup; on a miss the input file is
    written, also when the run is skipped. *)
Theorem doCooling_runs star s :
  has_model_keys (command_list s) = true →
  has_key (co_dict_of star) "MOLECULE_TABLE" = false →
  is_Some (co_dict_of star !! "MOLECULE") →
  (has_key (h2o_dict_of star) "MOLECULE_TABLE" = true →
   is_Some (command_list s !! "F_H2O")) →
  ∃ model_bool s1 s',
    checkCoolingDatabase (cooling_molec_dict star)
      (set_command_list (cooling_command_list star (command_list s)) s)
      = Ok (model_bool, s1) ∧
    doCooling star s = Ok s' ∧
    (model_bool = true → s' = s1) ∧
    runs (outside s')
      = runs (outside s)
        ++ (if model_bool || skip_cooling s then []
            else [ExecGastronoom "cooling" (inputfile (model_id s))]) ∧
    cool_done s' = (if model_bool || skip_cooling s then cool_done s else true) ∧
    (model_bool = false →
     ∃ commandfile, WriteFile (inputfile (model_id s)) commandfile ∈ outside s').
Proof.
  intros Hkeys Hco [co_molecule Hmolecule] Hh2o.
  destruct (checkCoolingDatabase_returns (cooling_molec_dict star)
              (set_command_list (cooling_command_list star (command_list s)) s))
    as (model_bool & s1 & Hcheck & Hout & Hskip & Hdone & Hmiss).
  { by apply cooling_command_list_keys. }
  simpl in Hout, Hskip, Hdone, Hmiss.
  exists model_bool, s1. unfold doCooling.
  rewrite Hco, (cooling_command_list_delitem star _ Hh2o). simpl. rewrite Hcheck. simpl.
  destruct model_bool; simpl.
  { eexists. split; [done|]. split; [done|]. split; [done|].
    rewrite Hout, Hdone, app_nil_r. done. }
  destruct (Hmiss eq_refl) as [Hid Hcl]. unfold getitem. rewrite Hmolecule. simpl.
  rewrite Hskip, Hid.
  destruct (skip_cooling s); simpl.
  - destruct (isfile _ _); simpl;
      (eexists; split; [done|]; split; [done|]; split; [done|]; simpl;
       rewrite !runs_snoc, Hout, Hdone; simpl; rewrite !app_nil_r;
       split; [done|]; split; [done|]; intros _; eexists;
       rewrite !elem_of_app, !list_elem_of_singleton; eauto).
  - destruct (isfile _ _); simpl;
      (eexists; split; [done|]; split; [done|]; split; [done|]; simpl;
       rewrite !runs_snoc, Hout; simpl; rewrite !app_nil_r;
       split; [done|]; split; [done|]; intros _; eexists;
       rewrite !elem_of_app, !list_elem_of_singleton; eauto).
Qed.

(** X4: when the database has no match and the output file is there after the
    run, the command list of the request, with the H2O entries, is stored
    under the model id of the session and nothing else changes in the
    database; the database is written to the disk at once. *)
Theorem doCooling_saves star s :
  has_key (co_dict_of star) "MOLECULE_TABLE" = false →
  is_Some (co_dict_of star !! "MOLECULE") →
  (has_key (h2o_dict_of star) "MOLECULE_TABLE" = true →
   is_Some (command_list s !! "F_H2O")) →
  (∀ k c, db_data (cool_db s) !! k = Some c →
     compareCommandLists (cooling_command_list star (command_list s)) c Cooling false
       (Some (cooling_molec_dict star)) = false) →
  ∃ s',
    doCooling star s = Ok s' ∧
    (isfile (outside s') (coolfgr_file (model_id s)) = true →
     model_id s' = model_id s ∧
     db_data (cool_db s')
       = <[model_id s := cooling_command_list star (command_list s) ∪ cooling_molec_dict star]>
           (db_data (cool_db s)) ∧
     db_disk (cool_db s') = db_data (cool_db s') ∧
     db_changed (cool_db s') = []).
Proof.
  intros Hco [co_molecule Hmolecule] Hh2o Hnone. unfold doCooling.
  rewrite Hco, (cooling_command_list_delitem star _ Hh2o). simpl.
  rewrite checkCoolingDatabase_unmatched by exact Hnone. simpl.
  unfold getitem. rewrite Hmolecule. simpl.
  destruct (skip_cooling s); simpl.
  - destruct (isfile _ _) eqn:Hfile; simpl.
    + eexists. split; [done|]. simpl. done.
    + eexists. split; [done|]. simpl. rewrite Hfile. done.
  - destruct (isfile _ _) eqn:Hfile; simpl.
    + eexists. split; [done|]. simpl. done.
    + eexists. split; [done|]. simpl. rewrite Hfile. done.
Qed.

(** X5: when [doCooling] ends with an error: an abundance table for CO is an
    IOError, before anything else is looked at; an abundance table for H2O
    with a command list that has no F_H2O is a KeyError; so is a CO
    dictionary without MOLECULE when the lookup misses.  In every other case
    [doCooling] returns. *)
Theorem doCooling_raises star s :
  has_model_keys (command_list s) = true →
  (has_key (co_dict_of star) "MOLECULE_TABLE" = true → doCooling star s = Raise IOError) ∧
  (has_key (co_dict_of star) "MOLECULE_TABLE" = false →
   has_key (h2o_dict_of star) "MOLECULE_TABLE" = true →
   command_list s !! "F_H2O" = None →
   doCooling star s = Raise KeyError) ∧
  (has_key (co_dict_of star) "MOLECULE_TABLE" = false →
   (has_key (h2o_dict_of star) "MOLECULE_TABLE" = true →
    is_Some (command_list s !! "F_H2O")) →
   ∃ model_bool s1,
     checkCoolingDatabase (cooling_molec_dict star)
       (set_command_list (cooling_command_list star (command_list s)) s)
       = Ok (model_bool, s1) ∧
     if model_bool || bool_decide (is_Some (co_dict_of star !! "MOLECULE"))
     then ∃ s', doCooling star s = Ok s'
     else doCooling star s = Raise KeyError).
Proof.
  intros Hkeys. split; [|split].
  - intros Hco. unfold doCooling. by rewrite Hco.
  - intros Hco Hh2o Hf. unfold doCooling. rewrite Hco, Hh2o.
    unfold delitem. by rewrite Hf.
  - intros Hco Hh2o.
    destruct (checkCoolingDatabase_returns (cooling_molec_dict star)
                (set_command_list (cooling_command_list star (command_list s)) s))
      as (model_bool & s1 & Hcheck & _).
    { by apply cooling_command_list_keys. }
    exists model_bool, s1. split; [exact Hcheck|]. unfold doCooling.
    rewrite Hco, (cooling_command_list_delitem star _ Hh2o). simpl. rewrite Hcheck. simpl.
    destruct model_bool; simpl; [by eexists|].
    case_bool_decide as Hmolecule.
    + destruct Hmolecule as [co_molecule Hmolecule]. unfold getitem.
      rewrite Hmolecule. simpl.
      destruct (skip_cooling s1); simpl; destruct (isfile _ _); by eexists.
    + unfold getitem. destruct (co_dict_of star !! "MOLECULE") eqn:Hm; [|done].
      destruct Hmolecule. by eexists.
Qed.

(** ** The model of the last request in replace mode *)





(** ** The flags of the mline lookup *)

(** The molecule is found under the cooling entry [e]. *)
Definition mline_found (e : ml_entry) (molec : Molecule) : bool :=
  is_some (find (mline_match molec) (mline_candidates e (molecule molec))).

(** The molecule gets a flag: it is found, or it has no model id yet. *)
Definition mline_flagged (e : ml_entry) (molec : Molecule) : bool :=
  mline_found e molec || negb (is_some (molec_model_id molec)).

(** Two cooling entries hold the same molecule dictionaries. *)
Definition same_models (e0 e : ml_entry) : Prop :=
  ∀ k name d,
    (∃ v, e !! k = Some v ∧ v !! name = Some d) ↔ (∃ v, e0 !! k = Some v ∧ v !! name = Some d).

Lemma is_some_find {A} (f : A → bool) l :
  is_some (find f l) = true ↔ ∃ x, x ∈ l ∧ f x = true.
Proof.
  split.
  - destruct (find f l) as [x|] eqn:Hfind; [|done]. intros _.
    apply find_some in Hfind as [Hin Hf]. exists x. split; [|done].
    by apply list_elem_of_In.
  - intros (x & Hin & Hf). induction Hin as [x l|x y l Hin IH]; simpl.
    + by rewrite Hf.
    + destruct (f y); [done|]. by apply IH.
Qed.

Lemma mline_found_same e0 e molec :
  same_models e0 e → mline_found e molec = mline_found e0 molec.
Proof.
  intros Hsame. apply Bool.eq_iff_eq_true. unfold mline_found.
  rewrite !is_some_find.
  split; intros ([k d] & Hin & Hf); exists (k, d); (split; [|done]);
    apply mline_candidates_elem; apply mline_candidates_elem in Hin; by apply Hsame.
Qed.

Lemma same_models_new (e0 : ml_entry) n :
  (∀ v, e0 !! n = Some v → v = ∅) → same_models e0 (<[n := ∅]> e0).
Proof.
  intros Hfresh k name d. destruct (decide (k = n)) as [->|Hne].
  - rewrite lookup_insert_eq. split.
    + intros (v & [= <-] & Hd). by rewrite lookup_empty in Hd.
    + intros (v & Hv & Hd). rewrite (Hfresh v Hv) in Hd. by rewrite lookup_empty in Hd.
  - by rewrite lookup_insert_ne.
Qed.

Lemma runs_new_mline_id_events s molec : runs (new_mline_id_events s molec) = [].
Proof. done. Qed.

(** The loop of the mline lookup always ends, and leaves the model id, the
    command list and the runs made as they are. *)
Lemma checkMline_loop_frame molecs : ∀ model_bools new_molec_id s e,
  db_data (ml_db s) !! model_id s = Some e →
  ∃ molecs' model_bools' new_molec_id' s' e',
    checkMline_loop molecs model_bools new_molec_id s
      = Ok (molecs', model_bools', new_molec_id', s') ∧
    model_id s' = model_id s ∧ mline_frame s s' ∧
    db_data (ml_db s') !! model_id s' = Some e' ∧
    runs (outside s') = runs (outside s).
Proof.
  induction molecs as [|molec molecs IH]; intros model_bools new_molec_id s e He; simpl.
  { eexists _, _, _, _, _. split; [reflexivity|]. done. }
  destruct (checkMline_molec_spec molec model_bools new_molec_id s e He)
    as (molec' & bools1 & new1 & s1 & -> & Hid1 & Hframe1 & Hspec).
  assert (∃ e1, db_data (ml_db s1) !! model_id s1 = Some e1
                ∧ runs (outside s1) = runs (outside s)) as (e1 & He1 & Hruns1).
  { destruct (find _ _); [destruct Hspec as (_ & _ & _ & ->); eauto|].
    destruct (molec_model_id molec); [destruct Hspec as (_ & _ & _ & ->); eauto|].
    destruct Hspec as [_ Hspec].
    destruct (free_slot _ _); [destruct Hspec as (_ & _ & ->); eauto|].
    destruct (bool_decide _); [|destruct Hspec as (_ & _ & ->); eauto].
    destruct Hspec as (_ & _ & Hout & Hdb). eexists. split.
    - rewrite Hid1, Hdb. apply lookup_insert_eq.
    - by rewrite Hout, runs_app, runs_new_mline_id_events, app_nil_r. }
  simpl.
  destruct (IH bools1 new1 s1 e1 He1)
    as (molecs' & bools2 & new2 & s2 & e2 & -> & Hid2 & Hframe2 & He2 & Hruns2).
  simpl. eexists _, _, _, _, _. split; [reflexivity|].
  split; [congruence|]. split.
  { destruct Hframe1 as (? & ? & ?), Hframe2 as (? & ? & ?). repeat split; congruence. }
  split; [done|]. congruence.
Qed.

(** The mline lookup always ends, and leaves the model id, the command
    list and the runs made as they are. *)
Lemma checkMlineDatabase_frame s :
  ∃ model_bools s',
    checkMlineDatabase s = Ok (model_bools, s') ∧
    model_id s' = model_id s ∧ mline_frame s s' ∧
    is_Some (db_data (ml_db s') !! model_id s') ∧
    runs (outside s') = runs (outside s).
Proof.
  unfold checkMlineDatabase.
  destruct (has_key (db_data (ml_db s)) (model_id s)) eqn:Hkey; simpl.
  - apply has_key_true in Hkey as [e He].
    destruct (checkMline_loop_frame (molec_list s) [] "" s e He)
      as (molecs' & bools' & new' & s1 & e1 & -> & Hid & Hframe & He1 & Hruns).
    simpl. eexists _, _. split; [reflexivity|]. simpl.
    split; [done|]. split; [done|]. split; [|done].
    rewrite Hid in He1. rewrite Hid. by eexists.
  - eexists _, _. split; [reflexivity|]. simpl.
    split; [done|]. split; [done|]. split; [|done].
    rewrite lookup_insert_eq. by eexists.
Qed.

Section flags.

Variable s0 : Gastronoom.
Variable e0 : ml_entry.

(** The new mline id, if one is made, is new to the cooling entry, and it
    is not the empty string. *)
Hypothesis new_id_fresh : ∀ v, e0 !! makeNewId (outside s0) = Some v → v = ∅.
Hypothesis new_id_not_empty : makeNewId (outside s0) ≠ "".

Definition flags_invariant (new_molec_id : string) (s : Gastronoom) (e : ml_entry) : Prop :=
  (new_molec_id = "" ∧ outside s = outside s0 ∧ e = e0)
  ∨ (new_molec_id ≠ "" ∧ same_models e0 e).

Lemma flags_invariant_same new_molec_id s e :
  flags_invariant new_molec_id s e → same_models e0 e.
Proof. intros [(_ & _ & ->)|[_ Hsame]]; [done|exact Hsame]. Qed.

Lemma checkMline_loop_flags molecs : ∀ model_bools new_molec_id s e,
  db_data (ml_db s) !! model_id s = Some e →
  flags_invariant new_molec_id s e →
  ∃ molecs' model_bools' new_molec_id' s',
    checkMline_loop molecs model_bools new_molec_id s
      = Ok (molecs', model_bools', new_molec_id', s') ∧
    model_bools'
      = model_bools ++ (mline_found e0 <$> filter (λ m, mline_flagged e0 m = true) molecs) ∧
    Forall2 (λ m m', molecule m' = molecule m ∧ molec_dict m' = molec_dict m ∧
                     if mline_flagged e0 m then is_Some (molec_model_id m') else m' = m)
      molecs molecs'.
Proof using new_id_fresh new_id_not_empty.
  induction molecs as [|molec molecs IH]; intros model_bools new_molec_id s e He Hinv; simpl.
  { eexists _, _, _, _. split; [reflexivity|]. by rewrite app_nil_r. }
  pose proof (mline_found_same e0 e molec (flags_invariant_same _ _ _ Hinv)) as Hfound.
  destruct (checkMline_molec_spec molec model_bools new_molec_id s e He)
    as (molec' & bools1 & new1 & s1 & -> & Hid1 & _ & Hspec).
  simpl. rewrite filter_cons. unfold mline_found in Hfound at 1.
  destruct (find (mline_match molec) (mline_candidates e (molecule molec))) as [kd|];
    simpl in Hfound.
  - destruct Hspec as (-> & -> & -> & ->).
    assert (mline_flagged e0 molec = true) as Hflag.
    { unfold mline_flagged. by rewrite <- Hfound. }
    destruct (IH (model_bools ++ [true]) new_molec_id s e He Hinv)
      as (molecs' & bools2 & new2 & s2 & -> & -> & Hall).
    simpl. eexists _, _, _, _. split; [reflexivity|].
    rewrite decide_True by done. rewrite fmap_cons, <- Hfound, <- app_assoc.
    split; [done|]. constructor; [|done]. rewrite Hflag. simpl. by eauto.
  - destruct (molec_model_id molec) as [i|] eqn:Hid.
    + destruct Hspec as (-> & -> & -> & ->).
      assert (mline_flagged e0 molec = false) as Hflag.
      { unfold mline_flagged. by rewrite <- Hfound, Hid. }
      destruct (IH model_bools new_molec_id s e He Hinv)
        as (molecs' & bools2 & new2 & s2 & -> & -> & Hall).
      simpl. eexists _, _, _, _. split; [reflexivity|].
      rewrite decide_False by (by rewrite Hflag). split; [done|].
      constructor; [|done]. by rewrite Hflag.
    + destruct Hspec as [-> Hspec].
      assert (mline_flagged e0 molec = true) as Hflag.
      { unfold mline_flagged. by rewrite <- Hfound, Hid. }
      assert (∃ e1, db_data (ml_db s1) !! model_id s1 = Some e1 ∧
                    flags_invariant new1 s1 e1 ∧
                    molecule molec' = molecule molec ∧ molec_dict molec' = molec_dict molec ∧
                    is_Some (molec_model_id molec')) as (e1 & He1 & Hinv1 & Hm & Hd & Hsome).
      { destruct (free_slot e (molecule molec)) as [k|].
        { destruct Hspec as (-> & -> & ->). exists e. simpl. by eauto 10. }
        case_bool_decide as Hnew.
        - destruct Hspec as (-> & -> & Hout & Hdb).
          destruct Hinv as [(_ & Hout0 & ->)|[Hne _]]; [|done].
          eexists. split; [rewrite Hid1, Hdb; apply lookup_insert_eq|].
          split; [|simpl; by eauto]. right. rewrite Hout0.
          split; [exact new_id_not_empty|].
          apply same_models_new. exact new_id_fresh.
        - destruct Hspec as (-> & -> & ->). exists e. simpl. by eauto 10. }
      destruct (IH (model_bools ++ [false]) new1 s1 e1 He1 Hinv1)
        as (molecs' & bools2 & new2 & s2 & -> & -> & Hall).
      simpl. eexists _, _, _, _. split; [reflexivity|].
      rewrite decide_True by done. rewrite fmap_cons, <- Hfound, <- app_assoc.
      split; [done|]. constructor; [|done]. by rewrite Hflag.
Qed.

End flags.

Lemma filter_all {A} (P : A → Prop) `{∀ x, Decision (P x)} (l : list A) :
  (∀ x, x ∈ l → P x) → filter P l = l.
Proof.
  induction l as [|x l IH]; intros Hall; [done|].
  rewrite filter_cons_True by (apply Hall; by left).
  f_equal. apply IH. intros y Hy. apply Hall. by right.
Qed.

Lemma Forall2_impl_elem {A B} (P Q : A → B → Prop) l k :
  Forall2 P l k → (∀ x y, x ∈ l → P x y → Q x y) → Forall2 Q l k.
Proof.
  induction 1 as [|x y l k Hxy _ IH]; intros HPQ; constructor.
  - apply HPQ; [by left|done].
  - apply IH. intros x' y' Hin. apply HPQ. by right.
Qed.

(** X7: for molecules that come without a model id the mline lookup gives one
    flag for each molecule, in the order of the list: whether a dictionary
    stored under the cooling id is accepted for it.  Every molecule leaves
    with a model id, its name and dictionary as they were. *)
Theorem checkMlineDatabase_flags s e :
  db_data (ml_db s) !! model_id s = Some e →
  (∀ v, e !! makeNewId (outside s) = Some v → v = ∅) →
  makeNewId (outside s) ≠ "" →
  (∀ molec, molec ∈ molec_list s → molec_model_id molec = None) →
  ∃ s',
    checkMlineDatabase s = Ok (mline_found e <$> molec_list s, s') ∧
    Forall2 (λ m m', molecule m' = molecule m ∧ molec_dict m' = molec_dict m ∧
                     is_Some (molec_model_id m'))
      (molec_list s) (molec_list s').
Proof.
  intros He Hfresh Hne Hnone. unfold checkMlineDatabase.
  assert (has_key (db_data (ml_db s)) (model_id s) = true) as ->.
  { apply has_key_true. by eexists. }
  simpl.
  assert (∀ molec, molec ∈ molec_list s → mline_flagged e molec = true) as Hflagged.
  { intros molec Hin. unfold mline_flagged. rewrite (Hnone molec Hin). apply orb_true_r. }
  destruct (checkMline_loop_flags s e Hfresh Hne (molec_list s) [] "" s e He)
    as (molecs' & bools' & new' & s1 & -> & -> & Hall).
  { by left. }
  simpl. rewrite filter_all by exact Hflagged.
  eexists. split; [reflexivity|]. simpl.
  apply (Forall2_impl_elem _ _ _ _ Hall). intros m m' Hin (Hm & Hd & Hid).
  rewrite (Hflagged m Hin) in Hid. done.
Qed.

(** X8: in general the mline lookup gives a flag only for the molecules that
    are found or come without a model id.  A molecule that comes with a
    model id (from an earlier request in the session, say) and is not found
    keeps that id and gets no flag, so that the list of flags is shorter
    than the list of molecules. *)
Theorem checkMlineDatabase_flags_short s e :
  db_data (ml_db s) !! model_id s = Some e →
  (∀ v, e !! makeNewId (outside s) = Some v → v = ∅) →
  makeNewId (outside s) ≠ "" →
  ∃ s',
    checkMlineDatabase s
      = Ok (mline_found e <$> filter (λ m, mline_flagged e m = true) (molec_list s), s') ∧
    Forall2 (λ m m', if mline_flagged e m then is_Some (molec_model_id m') else m' = m)
      (molec_list s) (molec_list s') ∧
    ((∃ molec, molec ∈ molec_list s ∧ is_Some (molec_model_id molec) ∧
               mline_found e molec = false) →
     (length (mline_found e <$> filter (λ m, mline_flagged e m = true) (molec_list s))
      < length (molec_list s'))%nat).
Proof.
  intros He Hfresh Hne. unfold checkMlineDatabase.
  assert (has_key (db_data (ml_db s)) (model_id s) = true) as ->.
  { apply has_key_true. by eexists. }
  simpl.
  destruct (checkMline_loop_flags s e Hfresh Hne (molec_list s) [] "" s e He)
    as (molecs' & bools' & new' & s1 & -> & -> & Hall).
  { by left. }
  simpl. eexists. split; [reflexivity|]. simpl. split.
  { apply (Forall2_impl _ _ _ _ Hall). by intros m m' (_ & _ & Hid). }
  intros (molec & Hin & [i Hid] & Hfound).
  rewrite length_fmap, <- (Forall2_length _ _ _ Hall).
  apply (length_filter_lt _ _ molec Hin).
  unfold mline_flagged. rewrite Hfound, Hid. done.
Qed.

(** ** What [doMline] does to the command list, and what it runs *)

Lemma bind_Ok {A B} (m : result A) (f : A → result B) b :
  m ≫= f = Ok b → ∃ a, m = Ok a ∧ f a = Ok b.
Proof. destruct m; simpl; [by eauto|done]. Qed.

Lemma updateModel_par_other new_id par cl cl' k :
  updateModel_par new_id par cl = Ok cl' → k ≠ par → cl' !! k = cl !! k.
Proof.
  unfold updateModel_par, getitem. destruct (cl !! par) as [[old|l]|]; simpl; [|done..].
  intros [= <-] Hne. by rewrite lookup_insert_ne.
Qed.

(** [updateModel] changes the three entries that name the model, and
    nothing else. *)
Lemma updateModel_other new_model_id s s' :
  updateModel new_model_id s = Ok s' →
  ∃ cl, s' = set_command_list cl s ∧
        ∀ k, k ∉ run_identity_keys → cl !! k = command_list s !! k.
Proof.
  unfold updateModel. intros Hupdate.
  apply bind_Ok in Hupdate as (cl1 & H1 & Hupdate).
  apply bind_Ok in Hupdate as (cl2 & H2 & Hupdate).
  apply bind_Ok in Hupdate as (cl3 & H3 & [= <-]).
  exists cl3. split; [done|]. intros k Hk.
  unfold run_identity_keys in Hk. rewrite !not_elem_of_cons in Hk.
  destruct Hk as (? & ? & ? & _).
  rewrite (updateModel_par_other _ _ _ _ k H3) by done.
  rewrite (updateModel_par_other _ _ _ _ k H2) by done.
  by rewrite (updateModel_par_other _ _ _ _ k H1) by done.
Qed.

(** The run of mline that a molecule flagged as not found gets. *)
Definition mline_runs (bts : list (Molecule * bool)) : list event :=
  omap (λ mb : Molecule * bool,
          if mb.2 then None
          else Some (ExecGastronoom "mline" (inputfile (show_id (molec_model_id mb.1))))) bts.
Local Arguments mline_runs : simpl never.

Lemma doMline_molec_inv molec model_bool s molec' s' :
  doMline_molec molec model_bool s = Ok (molec', s') →
  model_id s' = model_id s ∧
  (∀ k, k ∉ run_identity_keys → command_list s' !! k = command_list s !! k) ∧
  runs (outside s') = runs (outside s) ++ mline_runs [(molec, model_bool)] ∧
  mline_done s' = negb model_bool || mline_done s.
Proof.
  unfold doMline_molec, mline_runs. destruct model_bool; simpl.
  { intros [= <- <-]. by rewrite app_nil_r. }
  intros Hrun. apply bind_Ok in Hrun as (s1 & Hupdate & Hrun).
  apply updateModel_other in Hupdate as (cl & -> & Hcl). simpl in Hrun.
  destruct (path_of (molec_model_id molec)) as [molec_id|]; simpl in Hrun; [|done].
  destruct (bool_decide (length _ = 3)); simpl in Hrun.
  - unfold ml_cooling_entry in Hrun. simpl in Hrun.
    destruct (getitem (db_data (ml_db s)) (model_id s)) as [e|]; simpl in Hrun; [|done].
    destruct (getitem e molec_id) as [slot|]; simpl in Hrun; [|done].
    injection Hrun as <- <-. simpl. rewrite !runs_snoc. simpl.
    by rewrite app_nil_r.
  - injection Hrun as <- <-. simpl. rewrite !runs_snoc. simpl. by rewrite app_nil_r.
Qed.

Lemma mline_runs_cons mb bts : mline_runs (mb :: bts) = mline_runs [mb] ++ mline_runs bts.
Proof. unfold mline_runs. simpl. by destruct mb.2. Qed.

Lemma doMline_loop_inv molecs : ∀ model_bools s molecs' s',
  doMline_loop molecs model_bools s = Ok (molecs', s') →
  model_id s' = model_id s ∧
  (∀ k, k ∉ run_identity_keys → command_list s' !! k = command_list s !! k) ∧
  runs (outside s') = runs (outside s) ++ mline_runs (zip molecs model_bools) ∧
  mline_done s' = existsb negb (zip molecs model_bools).*2 || mline_done s.
Proof.
  induction molecs as [|molec molecs IH]; intros model_bools s molecs' s'; simpl.
  { intros [= <- <-]. unfold mline_runs. simpl. by rewrite app_nil_r. }
  destruct model_bools as [|model_bool model_bools]; simpl.
  { intros [= <- <-]. unfold mline_runs. simpl. by rewrite app_nil_r. }
  intros Hloop. apply bind_Ok in Hloop as ([molec1 s1] & Hmolec & Hloop).
  apply bind_Ok in Hloop as ([rest s2] & Hrest & [= <- <-]).
  apply doMline_molec_inv in Hmolec as (Hid1 & Hcl1 & Hruns1 & Hdone1).
  apply IH in Hrest as (Hid2 & Hcl2 & Hruns2 & Hdone2).
  split; [congruence|]. split.
  { intros k Hk. by rewrite Hcl2, Hcl1. }
  split.
  { rewrite Hruns2, Hruns1, <- app_assoc. f_equal. symmetry. apply mline_runs_cons. }
  rewrite Hdone2, Hdone1. destruct model_bool; simpl; [done|]. apply orb_true_r.
Qed.

(** X9: [doMline] takes R_OUTER and OUTER_R_MODE out of the command list,
    after the lookup and before any run: without one of them it ends with a
    KeyError, and when it returns, the command list it leaves has neither,
    so that [doMline] on the session it returned ends with a KeyError: the
    command list has to be made anew, by [doGastronoom], first. *)
Theorem doMline_consumes_keys s :
  (command_list s !! "R_OUTER" = None ∨ command_list s !! "OUTER_R_MODE" = None →
   doMline s = Raise KeyError) ∧
  (∀ s', doMline s = Ok s' →
     command_list s' !! "R_OUTER" = None ∧
     command_list s' !! "OUTER_R_MODE" = None ∧
     doMline s' = Raise KeyError).
Proof.
  assert (∀ t, command_list t !! "R_OUTER" = None ∨ command_list t !! "OUTER_R_MODE" = None →
               doMline t = Raise KeyError) as Hraise.
  { intros t Hmissing. unfold doMline.
    destruct (checkMlineDatabase_frame (set_mline_done false t))
      as (model_bools & t1 & -> & _ & (Hcl & _) & _).
    simpl in *. rewrite Hcl. unfold delitem.
    destruct (command_list t !! "R_OUTER") eqn:Hr; simpl; [|done].
    destruct Hmissing as [|Hm]; [done|].
    rewrite lookup_delete_ne by done. by rewrite Hm. }
  split; [apply Hraise|].
  intros s' Hrun.
  assert (command_list s' !! "R_OUTER" = None ∧ command_list s' !! "OUTER_R_MODE" = None)
    as [Hr Hm].
  { unfold doMline in Hrun.
    apply bind_Ok in Hrun as ([model_bools s1] & _ & Hrun).
    apply bind_Ok in Hrun as (cl1 & Hcl1 & Hrun).
    apply bind_Ok in Hrun as (cl2 & Hcl2 & Hrun).
    apply bind_Ok in Hrun as ([molecs s2] & Hloop & Hrun).
    apply doMline_loop_inv in Hloop as (_ & Hcl & _). simpl in Hcl.
    assert (cl2 !! "R_OUTER" = None ∧ cl2 !! "OUTER_R_MODE" = None) as [Hr Hm].
    { unfold delitem in Hcl1, Hcl2.
      destruct (command_list s1 !! "R_OUTER"); [|done]. injection Hcl1 as <-.
      destruct (delete "R_OUTER" (command_list s1) !! "OUTER_R_MODE"); [|done].
      injection Hcl2 as <-. split.
      - rewrite lookup_delete_ne by done. apply lookup_delete_eq.
      - apply lookup_delete_eq. }
    assert (command_list s2 !! "R_OUTER" = None ∧ command_list s2 !! "OUTER_R_MODE" = None)
      as [Hr2 Hm2].
    { rewrite !Hcl by (by apply not_elem_of_list). done. }
    destruct (only_empty_ids _); [by injection Hrun as <-|].
    destruct (vic _); [destruct (sphinx _)|]; by injection Hrun as <-. }
  split; [done|]. split; [done|]. apply Hraise. by left.
Qed.

Lemma doMline_molec_returns molec model_bool s e :
  db_data (ml_db s) !! model_id s = Some e →
  has_model_keys (command_list s) = true →
  has_slot e molec →
  ∃ molec' s' e',
    doMline_molec molec model_bool s = Ok (molec', s') ∧
    has_model_keys (command_list s') = true ∧
    db_data (ml_db s') !! model_id s' = Some e' ∧
    (∀ m, has_slot e m → has_slot e' m).
Proof.
  intros He Hkeys (k & Hid & [slot Hslot]). unfold doMline_molec.
  destruct model_bool; simpl.
  { eexists _, _, _. split; [reflexivity|]. done. }
  destruct (updateModel_keys (molec_model_id molec) s Hkeys) as (cl & -> & Hcl).
  simpl. rewrite Hid. simpl.
  destruct (bool_decide (length _ = 3)); simpl.
  - unfold ml_cooling_entry, getitem. simpl. rewrite He. simpl. rewrite Hslot. simpl.
    eexists _, _, _. split; [reflexivity|]. simpl. split; [done|].
    split; [apply lookup_insert_eq|].
    intros m (k' & Hk' & Hsome). exists k'. split; [done|].
    apply lookup_insert_is_Some. destruct (decide (k = k')); [by left|by right].
  - eexists _, _, _. split; [reflexivity|]. done.
Qed.

Lemma doMline_loop_returns molecs : ∀ model_bools s e,
  db_data (ml_db s) !! model_id s = Some e →
  has_model_keys (command_list s) = true →
  Forall (has_slot e) molecs →
  ∃ molecs' s', doMline_loop molecs model_bools s = Ok (molecs', s').
Proof.
  induction molecs as [|molec molecs IH]; intros model_bools s e He Hkeys Hslots; simpl.
  { by eexists _, _. }
  destruct model_bools as [|model_bool model_bools]; [by eexists _, _|].
  apply Forall_cons in Hslots as [Hslot Hslots].
  destruct (doMline_molec_returns molec model_bool s e He Hkeys Hslot)
    as (molec' & s1 & e1 & -> & Hkeys1 & He1 & Hgrow).
  simpl.
  destruct (IH model_bools s1 e1 He1 Hkeys1) as (rest & s2 & ->).
  { eapply Forall_impl; [exact Hslots|exact Hgrow]. }
  simpl. by eexists _, _.
Qed.

Lemma checkMline_molec_fields molec model_bools new_molec_id s molec' model_bools' new' s' :
  checkMline_molec molec model_bools new_molec_id s = Ok (molec', model_bools', new', s') →
  mline_done s' = mline_done s.
Proof.
  unfold checkMline_molec. intros Hmolec.
  apply bind_Ok in Hmolec as (e & _ & Hmolec). revert Hmolec.
  destruct (find _ _); simpl.
  { by intros [= <- <- <- <-]. }
  destruct (molec_model_id molec); simpl; [by intros [= <- <- <- <-]|].
  destruct (free_slot _ _); simpl; [by intros [= <- <- <- <-]|].
  destruct (bool_decide _); simpl; [|by intros [= <- <- <- <-]].
  intros Hmolec. apply bind_Ok in Hmolec as (e' & _ & [= <- <- <- <-]). done.
Qed.

Lemma checkMline_loop_fields molecs : ∀ model_bools new_molec_id s molecs' model_bools' new' s',
  checkMline_loop molecs model_bools new_molec_id s = Ok (molecs', model_bools', new', s') →
  mline_done s' = mline_done s.
Proof.
  induction molecs as [|molec molecs IH];
    intros model_bools new_molec_id s molecs' model_bools' new' s'; simpl.
  { by intros [= <- <- <- <-]. }
  intros Hloop.
  apply bind_Ok in Hloop as ([[[molec1 bools1] new1] s1] & Hmolec & Hloop).
  apply bind_Ok in Hloop as ([[[rest bools2] new2] s2] & Hrest & [= <- <- <- <-]).
  apply checkMline_molec_fields in Hmolec. apply IH in Hrest. congruence.
Qed.

Lemma checkMlineDatabase_fields s model_bools s' :
  checkMlineDatabase s = Ok (model_bools, s') → mline_done s' = mline_done s.
Proof.
  unfold checkMlineDatabase. destruct (has_key _ _); simpl; [|by intros [= <- <-]].
  intros Hloop.
  apply bind_Ok in Hloop as ([[[molecs bools] new] s1] & Hloop & [= <- <-]).
  apply checkMline_loop_fields in Hloop. done.
Qed.

Lemma zip_snd {A B} (l : list A) : ∀ k : list B, length l = length k → (zip l k).*2 = k.
Proof.
  induction l as [|x l IH]; intros [|y k] Hlen; simpl in *; try done.
  f_equal. apply IH. lia.
Qed.

(** X10: for molecules that come without a model id, and a command list with
    the entries that name the model, R_OUTER and OUTER_R_MODE, [doMline]
    returns; it runs mline once for each molecule that the lookup has not
    found, in the order of the list, on the input file named after the id
    of the molecule, and runs nothing else; [mline_done] tells whether
    there was a run. *)
Theorem doMline_runs s :
  (∀ molec, molec ∈ molec_list s → molec_model_id molec = None) →
  has_model_keys (command_list s) = true →
  is_Some (command_list s !! "R_OUTER") →
  is_Some (command_list s !! "OUTER_R_MODE") →
  ∃ model_bools s1 s',
    checkMlineDatabase (set_mline_done false s) = Ok (model_bools, s1) ∧
    doMline s = Ok s' ∧
    runs (outside s')
      = runs (outside s) ++ mline_runs (zip (molec_list s1) model_bools) ∧
    mline_done s' = existsb negb model_bools.
Proof.
  intros Hnone Hkeys [r_outer Hr] [outer_r_mode Hm].
  destruct (checkMlineDatabase_assigns (set_mline_done false s) Hnone)
    as (model_bools & s1 & e1 & Hcheck & Hid1 & (Hcl1 & _) & He1 & Hlen & Hslots).
  destruct (checkMlineDatabase_frame (set_mline_done false s))
    as (model_bools' & s1' & Hcheck' & _ & _ & _ & Hruns1).
  rewrite Hcheck in Hcheck'. injection Hcheck' as <- <-.
  pose proof (checkMlineDatabase_fields _ _ _ Hcheck) as Hdone1. simpl in Hdone1.
  simpl in Hcl1, Hid1, Hruns1.
  exists model_bools, s1. unfold doMline. rewrite Hcheck. simpl.
  rewrite Hcl1. unfold delitem. rewrite Hr. simpl.
  rewrite lookup_delete_ne by done. rewrite Hm. simpl.
  set (s2 := set_command_list _ s1).
  destruct (doMline_loop_returns (molec_list s1) model_bools s2 e1)
    as (molecs' & s3 & Hloop).
  { exact He1. }
  { simpl.
    apply has_model_keys_delete; [by apply not_elem_of_list|].
    apply has_model_keys_delete; [by apply not_elem_of_list|done]. }
  { exact Hslots. }
  change (molec_list s2) with (molec_list s1). rewrite Hloop. simpl.
  apply doMline_loop_inv in Hloop as (_ & _ & Hruns3 & Hdone3).
  rewrite zip_snd in Hdone3 by done.
  change (outside s2) with (outside s1) in Hruns3.
  change (mline_done s2) with (mline_done s1) in Hdone3.
  rewrite Hdone1, orb_false_r in Hdone3. rewrite Hruns1 in Hruns3.
  destruct (only_empty_ids _); [by eexists|].
  destruct (vic s3); [destruct (sphinx s3)|]; by eexists.
Qed.

(** ** The entries that the sphinx lookup leaves in the database *)

(** The dictionary stored for a transition under a molecule id and a
    sphinx id of a cooling entry. *)
Definition leaf (e : sph_entry) (molec_id trans_id sig : string) : option config :=
  me ← e !! molec_id; models ← me !! trans_id; models !! sig.

(** What the lookup leaves for a transition that is not found: its
    dictionary, marked IN_PROGRESS, under the id of its molecule and its own
    id; or the empty id, when its molecule has no mline model. *)
Definition sphinx_reserved (molec : Molecule) (e : sph_entry) (trans : Transition) : Prop :=
  if id_truthy (molec_model_id molec)
  then ∃ trans_id,
         trans_model_id trans = Some trans_id ∧
         leaf e (default "" (molec_model_id molec)) trans_id (trans_str trans)
           = Some (trans_makeDict_in_progress trans)
  else trans_model_id trans = Some "".

Lemma leaf_Some e a k sig d :
  leaf e a k sig = Some d ↔
  ∃ me models, e !! a = Some me ∧ me !! k = Some models ∧ models !! sig = Some d.
Proof.
  unfold leaf. split.
  - destruct (e !! a) as [me|]; simpl; [|done].
    destruct (me !! k) as [models|] eqn:Hk; simpl; [|done]. intros Hd. by eexists _, _.
  - intros (me & models & -> & Hk & Hsig). simpl. rewrite Hk. done.
Qed.

Lemma leaf_store_eq (e : sph_entry) molec_id (me : sph_molec_entry) trans_id
    (models : gmap string config) sig d :
  leaf (<[molec_id := <[trans_id := <[sig := d]> models]> me]> e) molec_id trans_id sig
  = Some d.
Proof.
  apply leaf_Some. eexists _, _. split; [apply lookup_insert_eq|].
  split; apply lookup_insert_eq.
Qed.

Lemma leaf_store (e : sph_entry) molec_id (me me' : sph_molec_entry) trans_id
    (models : gmap string config) sig d :
  e !! molec_id = Some me →
  me' !! trans_id = Some models →
  (∀ k v, me !! k = Some v → me' !! k = Some v) →
  ∀ a k sig' d',
    sig' ≠ sig → leaf e a k sig' = Some d' →
    leaf (<[molec_id := <[trans_id := <[sig := d]> models]> me']> e) a k sig' = Some d'.
Proof.
  intros Hme Hmodels Hgrow a k sig' d' Hsig Hleaf.
  apply leaf_Some in Hleaf as (me0 & models0 & Ha & Hk & Hd').
  apply leaf_Some. destruct (decide (a = molec_id)) as [->|Hne].
  - rewrite Hme in Ha. injection Ha as <-. rewrite lookup_insert_eq.
    destruct (decide (k = trans_id)) as [->|Hnek].
    + eexists _, _. split; [done|].
      rewrite lookup_insert_eq. split; [done|].
      rewrite lookup_insert_ne by done.
      apply Hgrow in Hk. rewrite Hmodels in Hk. by injection Hk as ->.
    + eexists _, _. split; [done|].
      rewrite lookup_insert_ne by done. split; [by apply Hgrow|done].
  - rewrite lookup_insert_ne by done. by eauto.
Qed.

Lemma runs_makeIdLog new_id molec_id s :
  runs (outside (makeIdLog new_id molec_id s)) = runs (outside s).
Proof.
  unfold makeIdLog. destruct molec_id; simpl; rewrite !runs_snoc; simpl;
    by rewrite ?app_nil_r.
Qed.

Lemma sphinx_found_fields i d s :
  model_id (sphinx_found i d s) = model_id s ∧
  molec_list (sphinx_found i d s) = molec_list s ∧
  sph_db (sphinx_found i d s) = sph_db s ∧
  outside (sphinx_found i d s) = outside s ∧
  trans_bools (sphinx_found i d s) = trans_bools s ++ [true] ∧
  sphinx (sphinx_found i d s) = sphinx s ∧
  recover_sphinxfiles (sphinx_found i d s) = recover_sphinxfiles s.
Proof.
  unfold sphinx_found. destruct (has_key d "IN_PROGRESS"); simpl; [|done].
  by destruct (vic s).
Qed.

(** One step of the sphinx lookup, for a transition that comes without a
    model id. *)
Lemma checkSphinx_trans_step i trans new_trans_id copied s e molec :
  db_data (sph_db s) !! model_id s = Some e →
  molec_list s !! trans_molecule trans = Some molec →
  trans_model_id trans = None →
  ∃ trans' new' copied' s' e' b,
    checkSphinx_trans i trans new_trans_id copied s = Ok (trans', new', copied', s') ∧
    (sphinx s' = sphinx s ∧ recover_sphinxfiles s' = recover_sphinxfiles s ∧
     (b = false → trans_in_progress s' = trans_in_progress s ∧ vic s' = vic s)) ∧
    model_id s' = model_id s ∧ molec_list s' = molec_list s ∧
    db_data (sph_db s') !! model_id s' = Some e' ∧
    runs (outside s') = runs (outside s) ∧
    trans_bools s' = trans_bools s ++ [b] ∧
    trans_str trans' = trans_str trans ∧
    trans_molecule trans' = trans_molecule trans ∧
    trans_dict trans' = trans_dict trans ∧
    (∀ a k sig d, sig ≠ trans_str trans → leaf e a k sig = Some d → leaf e' a k sig = Some d) ∧
    if b
    then e' = e ∧
         ∃ trans_id d,
           trans_model_id trans' = Some trans_id ∧
           leaf e (default "" (molec_model_id molec)) trans_id (trans_str trans) = Some d ∧
           sphinx_match trans (trans_id, d) = true
    else sphinx_reserved molec e' trans'.
Proof.
  intros He Hmolec Hid. unfold checkSphinx_trans, molecule_of, sphinx_reserved.
  rewrite Hmolec. simpl.
  destruct (id_truthy (molec_model_id molec)); simpl.
  2:{ eexists _, _, _, _, e, false. split; [reflexivity|]. simpl. done. }
  unfold sph_cooling_entry, getitem. rewrite He. simpl.
  set (molec_id := default "" (molec_model_id molec)).
  destruct (e !! molec_id) as [me|] eqn:Hme.
  2:{ eexists _, _, _, _, _, false. split; [reflexivity|]. simpl.
      split; [done|]. repeat (split; [done|]). split; [apply lookup_insert_eq|].
      repeat (split; [done|]). split.
      - intros a k sig d _ Hleaf. apply leaf_Some in Hleaf as (me0 & models0 & Ha & Hk & Hd).
        apply leaf_Some. destruct (decide (a = molec_id)) as [->|Hne]; [congruence|].
        rewrite lookup_insert_ne by done. by eauto.
      - exists molec_id. split; [done|]. apply leaf_Some. eexists _, _.
        split; [apply lookup_insert_eq|]. split; apply lookup_singleton_eq. }
  fold (sphinx_match trans).
  destruct (find (sphinx_match trans) (sphinx_candidates me (trans_str trans)))
    as [[trans_id d]|] eqn:Hfind.
  { simpl.
    apply find_some in Hfind as [Hin Hmatch]. apply list_elem_of_In in Hin.
    apply sphinx_candidates_elem in Hin as (models & Hk & Hd).
    eexists _, _, _, _, e, true. split; [reflexivity|].
    destruct (sphinx_found_fields i d s) as (-> & -> & -> & -> & -> & -> & ->).
    split; [done|]. repeat (split; [done|]). exists trans_id, d. split; [done|]. split; [|done].
    apply leaf_Some. by eauto. }
  cbn [find]. rewrite Hid.
  destruct (free_slot me (trans_str trans)) as [k|] eqn:Hslot.
  { apply free_slot_lookup in Hslot as (v & Hv & _).
    simpl. rewrite Hv. simpl.
    eexists _, _, _, _, _, false. split; [reflexivity|].
    split; [by destruct (bool_decide _)|].
    split; [by destruct (bool_decide _)|]. split; [by destruct (bool_decide _)|].
    split; [destruct (bool_decide _); apply lookup_insert_eq|].
    split; [destruct (bool_decide _); simpl; by rewrite ?runs_snoc, ?app_nil_r|].
    split; [by destruct (bool_decide _)|].
    repeat (split; [done|]). split.
    - by apply (leaf_store e molec_id me).
    - exists k. split; [done|]. apply leaf_store_eq. }
  simpl.
  destruct (bool_decide (new_trans_id = "")); simpl;
    (destruct (has_key me _) eqn:Hhas;
     [apply has_key_true in Hhas as [v Hv]; rewrite Hv
     |apply has_key_false in Hhas; rewrite lookup_insert_eq]);
    simpl; (eexists _, _, _, _, _, false; split; [reflexivity|]);
    (split; [by destruct (bool_decide _)|]);
    (split; [by destruct (bool_decide _)|]);
    (split; [by destruct (bool_decide _)|]);
    (split; [destruct (bool_decide _); apply lookup_insert_eq|]);
    (split; [destruct (bool_decide _); simpl;
             by rewrite ?runs_snoc, ?runs_makeIdLog, ?runs_snoc, ?app_nil_r|]);
    (split; [by destruct (bool_decide _)|]);
    repeat (split; [done|]);
    (split; [|eexists; split; [done|]; apply leaf_store_eq]);
    first [ by apply (leaf_store e molec_id me)
          | apply (leaf_store e molec_id me); [done|apply lookup_insert_eq|];
            intros k0 v0 Hk0; rewrite lookup_insert_ne; [done|congruence] ].
Qed.

(** How a transition leaves the sphinx lookup, with its flag: found, it has
    the id of a stored dictionary that is accepted for it; not found, its
    place in the database is taken, see [sphinx_reserved]. *)
Definition sphinx_outcome (molecs : list Molecule) (e : sph_entry)
    (trans trans' : Transition) (b : bool) : Prop :=
  trans_str trans' = trans_str trans ∧
  trans_molecule trans' = trans_molecule trans ∧
  trans_dict trans' = trans_dict trans ∧
  ∃ molec,
    molecs !! trans_molecule trans = Some molec ∧
    if b
    then ∃ trans_id d,
           trans_model_id trans' = Some trans_id ∧
           leaf e (default "" (molec_model_id molec)) trans_id (trans_str trans) = Some d ∧
           sphinx_match trans (trans_id, d) = true
    else sphinx_reserved molec e trans'.

Lemma sphinx_outcome_mono molecs e e' trans trans' b :
  (∀ a k d, leaf e a k (trans_str trans) = Some d → leaf e' a k (trans_str trans) = Some d) →
  sphinx_outcome molecs e trans trans' b → sphinx_outcome molecs e' trans trans' b.
Proof.
  intros Hkeep (Hsig & Hm & Hd & molec & Hmolec & Hb).
  split; [done|]. split; [done|]. split; [done|]. exists molec. split; [done|].
  destruct b.
  - destruct Hb as (trans_id & d & Hid & Hleaf & Hmatch).
    exists trans_id, d. split; [done|]. split; [by apply Hkeep|done].
  - unfold sphinx_reserved in *. destruct (id_truthy _); [|done].
    destruct Hb as (trans_id & Hid & Hleaf). exists trans_id. split; [done|].
    rewrite Hsig in *. by apply Hkeep.
Qed.

Lemma checkSphinx_loop_reserves transs : ∀ i new_trans_id copied s e,
  db_data (sph_db s) !! model_id s = Some e →
  NoDup (trans_str <$> transs) →
  (∀ trans, trans ∈ transs →
     trans_model_id trans = None ∧ is_Some (molec_list s !! trans_molecule trans)) →
  ∃ transs' new' copied' s' e' flags,
    checkSphinx_loop i transs new_trans_id copied s = Ok (transs', new', copied', s') ∧
    (sphinx s' = sphinx s ∧ recover_sphinxfiles s' = recover_sphinxfiles s ∧
     (Forall (λ b, b = false) flags →
      trans_in_progress s' = trans_in_progress s ∧ vic s' = vic s)) ∧
    model_id s' = model_id s ∧ molec_list s' = molec_list s ∧
    db_data (sph_db s') !! model_id s' = Some e' ∧
    runs (outside s') = runs (outside s) ∧
    trans_bools s' = trans_bools s ++ flags ∧
    (∀ a k sig d, sig ∉ trans_str <$> transs →
       leaf e a k sig = Some d → leaf e' a k sig = Some d) ∧
    Forall3 (sphinx_outcome (molec_list s) e') transs transs' flags.
Proof.
  induction transs as [|trans rest IH]; intros i new_trans_id copied s e He Hnodup Hall; simpl.
  { eexists _, _, _, _, e, []. split; [reflexivity|]. rewrite app_nil_r.
    split; [done|]. repeat (split; [done|]). constructor. }
  rewrite fmap_cons in Hnodup. apply NoDup_cons in Hnodup as [Hfresh Hnodup].
  destruct (Hall trans) as (Hid & [molec Hmolec]); [by left|].
  destruct (checkSphinx_trans_step i trans new_trans_id copied s e molec He Hmolec Hid)
    as (trans' & new1 & copied1 & s1 & e1 & b & -> & (Hsph1 & Hrec1 & Hprog1)
        & Hid1 & Hmols1 & He1 & Hruns1 & Hbools1 & Hsig & Hm & Hd & Hkeep1 & Hb).
  simpl.
  destruct (IH (S i) new1 copied1 s1 e1 He1 Hnodup)
    as (rest' & new2 & copied2 & s2 & e2 & flags & -> & (Hsph2 & Hrec2 & Hprog2)
        & Hid2 & Hmols2 & He2 & Hruns2 & Hbools2 & Hkeep2 & Hrest).
  { intros t Ht. rewrite Hmols1. apply Hall. by right. }
  simpl. eexists _, _, _, _, e2, (b :: flags). split; [reflexivity|].
  split.
  { split; [congruence|]. split; [congruence|].
    intros [-> Hfalse]%Forall_cons.
    destruct (Hprog1 eq_refl) as [? ?], (Hprog2 Hfalse) as [? ?]. split; congruence. }
  split; [congruence|]. split; [congruence|]. split; [done|]. split; [congruence|].
  split; [rewrite Hbools2, Hbools1, <- app_assoc; done|]. split.
  { intros a k sig d Hnot Hleaf. rewrite not_elem_of_cons in Hnot.
    destruct Hnot as [Hne Hnot]. apply Hkeep2; [done|]. by apply Hkeep1. }
  constructor; [|by rewrite <- Hmols1].
  apply (sphinx_outcome_mono _ e1).
  { intros a k d. by apply Hkeep2. }
  split; [done|]. split; [done|]. split; [done|]. exists molec. split; [done|].
  destruct b; [|done]. destruct Hb as (-> & Hb). done.
Qed.

Lemma checkSphinxDatabase_outcomes s :
  NoDup (trans_str <$> trans_list s) →
  (∀ trans, trans ∈ trans_list s →
     trans_model_id trans = None ∧ is_Some (molec_list s !! trans_molecule trans)) →
  ∃ s' e' flags,
    checkSphinxDatabase s = Ok s' ∧
    (sphinx s' = sphinx s ∧ recover_sphinxfiles s' = recover_sphinxfiles s ∧
     (Forall (λ b, b = false) flags →
      trans_in_progress s' = trans_in_progress s ∧ vic s' = vic s)) ∧
    model_id s' = model_id s ∧ molec_list s' = molec_list s ∧
    runs (outside s') = runs (outside s) ∧
    trans_bools s' = trans_bools s ++ flags ∧
    db_data (sph_db s') !! model_id s = Some e' ∧
    db_disk (sph_db s') = db_data (sph_db s') ∧
    Forall3 (sphinx_outcome (molec_list s) e') (trans_list s) (trans_list s') flags.
Proof.
  intros Hnodup Hall. unfold checkSphinxDatabase.
  set (s0 := if has_key (db_data (sph_db s)) (model_id s) then s
             else set_sph_db (db_setitem (model_id s) ∅ (sph_db s)) s).
  assert (model_id s0 = model_id s ∧ molec_list s0 = molec_list s ∧
          trans_list s0 = trans_list s ∧ outside s0 = outside s ∧
          trans_bools s0 = trans_bools s ∧
          (sphinx s0 = sphinx s ∧ recover_sphinxfiles s0 = recover_sphinxfiles s ∧
           trans_in_progress s0 = trans_in_progress s ∧ vic s0 = vic s) ∧
          ∃ e, db_data (sph_db s0) !! model_id s0 = Some e)
    as (Hid0 & Hmols0 & Htrans0 & Hout0 & Hbools0 & (Hsph0 & Hrec0 & Hprog0 & Hvic0) & e & He).
  { unfold s0. destruct (has_key _ _) eqn:Hkey.
    - apply has_key_true in Hkey as [e He]. repeat (split; [done|]). by eexists.
    - simpl. repeat (split; [done|]). eexists. apply lookup_insert_eq. }
  destruct (checkSphinx_loop_reserves (trans_list s0) 0 "" [] s0 e He)
    as (transs' & new' & copied' & s1 & e1 & flags & -> & (Hsph1 & Hrec1 & Hprog1)
        & Hid1 & Hmols1 & He1 & Hruns1 & Hbools1 & _ & Houtcome).
  { by rewrite Htrans0. }
  { intros t Ht. rewrite Hmols0. apply Hall. by rewrite <- Htrans0. }
  simpl. exists (set_sph_db (sync (sph_db (set_trans_list transs' s1)))
                   (set_trans_list transs' s1)), e1, flags.
  split; [done|]. simpl.
  split.
  { split; [congruence|]. split; [congruence|]. intros Hfalse.
    destruct (Hprog1 Hfalse) as [? ?]. split; congruence. }
  split; [congruence|]. split; [congruence|]. split; [congruence|].
  split; [congruence|]. split; [by rewrite <- Hid0, <- Hid1|]. split; [done|].
  by rewrite <- Hmols0, <- Htrans0.
Qed.

(** X11: the sphinx lookup on transitions that come without a model id, each
    under a name of its own: it returns, with one flag more for each
    transition, and runs nothing.  A transition flagged as found has the id
    of a stored dictionary that is accepted for it.  For a transition
    flagged as not found whose molecule has an mline id, the database holds,
    under the id of the molecule and the id given to the transition, its
    dictionary marked IN_PROGRESS; a transition of a molecule without mline
    id gets the empty id.  What the lookup has written is on the disk when
    it returns. *)
Theorem checkSphinxDatabase_reserves s :
  NoDup (trans_str <$> trans_list s) →
  (∀ trans, trans ∈ trans_list s →
     trans_model_id trans = None ∧ is_Some (molec_list s !! trans_molecule trans)) →
  ∃ s' e' flags,
    checkSphinxDatabase s = Ok s' ∧
    (sphinx s' = sphinx s ∧ recover_sphinxfiles s' = recover_sphinxfiles s ∧
     (Forall (λ b, b = false) flags →
      trans_in_progress s' = trans_in_progress s ∧ vic s' = vic s)) ∧
    model_id s' = model_id s ∧ molec_list s' = molec_list s ∧
    runs (outside s') = runs (outside s) ∧
    trans_bools s' = trans_bools s ++ flags ∧
    db_data (sph_db s') !! model_id s = Some e' ∧
    db_disk (sph_db s') = db_data (sph_db s') ∧
    Forall3 (sphinx_outcome (molec_list s) e') (trans_list s) (trans_list s') flags.
Proof. apply checkSphinxDatabase_outcomes. Qed.

(** ** [doSphinx] when sphinx is not to be run *)

Lemma leaf_delete (e : sph_entry) molec_id (me : sph_molec_entry) trans_id
    (models : gmap string config) sig :
  e !! molec_id = Some me →
  me !! trans_id = Some models →
  leaf (<[molec_id := <[trans_id := delete sig models]> me]> e) molec_id trans_id sig = None ∧
  (∀ a k sig', sig' ≠ sig →
     leaf (<[molec_id := <[trans_id := delete sig models]> me]> e) a k sig' = leaf e a k sig') ∧
  (∀ a k sig', leaf e a k sig' = None →
     leaf (<[molec_id := <[trans_id := delete sig models]> me]> e) a k sig' = None).
Proof.
  intros Hme Hmodels.
  assert (∀ a k sig', (a, k, sig') ≠ (molec_id, trans_id, sig) →
            leaf (<[molec_id := <[trans_id := delete sig models]> me]> e) a k sig'
            = leaf e a k sig') as Hother.
  { intros a k sig' Hne. unfold leaf.
    destruct (decide (a = molec_id)) as [->|Ha]; [|by rewrite lookup_insert_ne].
    rewrite lookup_insert_eq, Hme. simpl.
    destruct (decide (k = trans_id)) as [->|Hk]; [|by rewrite lookup_insert_ne].
    rewrite lookup_insert_eq, Hmodels. simpl.
    apply lookup_delete_ne. congruence. }
  assert (leaf (<[molec_id := <[trans_id := delete sig models]> me]> e) molec_id trans_id sig
          = None) as Hgone.
  { unfold leaf. rewrite lookup_insert_eq. simpl. rewrite lookup_insert_eq. simpl.
    apply lookup_delete_eq. }
  split; [done|]. split.
  - intros a k sig' Hne. apply Hother. congruence.
  - intros a k sig' Hnone.
    destruct (decide ((a, k, sig') = (molec_id, trans_id, sig))) as [[= -> -> ->]|Hne];
      [done|].
    by rewrite Hother.
Qed.

Lemma delete_sph_model_ok trans s molec molec_id trans_id e me models d :
  molec_list s !! trans_molecule trans = Some molec →
  molec_model_id molec = Some molec_id →
  trans_model_id trans = Some trans_id →
  db_data (sph_db s) !! model_id s = Some e →
  e !! molec_id = Some me →
  me !! trans_id = Some models →
  models !! trans_str trans = Some d →
  ∃ db',
    delete_sph_model trans s = Ok (set_sph_db db' s) ∧
    db_disk db' = db_disk (sph_db s) ∧
    db_data db' !! model_id s
      = Some (<[molec_id := <[trans_id := delete (trans_str trans) models]> me]> e).
Proof.
  intros Hmolec Hmid Htid He Hme Hmodels Hd. unfold delete_sph_model.
  rewrite (sph_models_of_ok trans s molec molec_id trans_id e me models) by done.
  simpl. unfold delitem. rewrite Hd. simpl.
  eexists. split; [reflexivity|]. simpl. split; [done|].
  rewrite (alter3_lookup_insert _ _ _ _ _ e me models) by done.
  apply lookup_insert_eq.
Qed.

(** The transition has no reservation in the entry any more. *)
Definition sphinx_released (molecs : list Molecule) (e : sph_entry) (trans : Transition)
    : Prop :=
  ∀ molec trans_id,
    molecs !! trans_molecule trans = Some molec →
    id_truthy (molec_model_id molec) = true →
    trans_model_id trans = Some trans_id → trans_id ≠ "" →
    leaf e (default "" (molec_model_id molec)) trans_id (trans_str trans) = None.

Lemma id_truthy_Some i : id_truthy i = true → ∃ k, i = Some k ∧ k ≠ "".
Proof.
  destruct i as [k|]; simpl; [|done]. intros Hk. exists k. split; [done|].
  apply negb_true_iff, bool_decide_eq_false in Hk. done.
Qed.

Lemma doSphinx_trans_off i trans s molec e :
  sphinx s = false →
  molec_list s !! trans_molecule trans = Some molec →
  db_data (sph_db s) !! model_id s = Some e →
  sphinx_reserved molec e trans →
  ∃ trans' db' e',
    doSphinx_trans i false trans s = Ok (trans', set_sph_db db' s) ∧
    trans_model_id trans' = Some "" ∧
    trans_molecule trans' = trans_molecule trans ∧
    db_disk db' = db_disk (sph_db s) ∧
    db_data db' !! model_id s = Some e' ∧
    (∀ a k sig, sig ≠ trans_str trans → leaf e' a k sig = leaf e a k sig) ∧
    (∀ a k sig, leaf e a k sig = None → leaf e' a k sig = None) ∧
    sphinx_released (molec_list s) e' trans.
Proof.
  intros Hsphinx Hmolec He Hreserved. unfold doSphinx_trans, sphinx_reserved in *.
  simpl. rewrite Hsphinx. simpl.
  destruct (id_truthy (molec_model_id molec)) eqn:Htruthy.
  2:{ rewrite Hreserved. simpl. exists trans, (sph_db s), e.
      split; [by destruct s|]. repeat (split; [done|]).
      intros molec' trans_id Hmolec' Htruthy'. congruence. }
  destruct Hreserved as (trans_id & Htid & Hleaf). rewrite Htid. simpl.
  case_bool_decide as Hempty; simpl.
  { exists trans, (sph_db s), e.
    split; [by destruct s|]. subst trans_id. repeat (split; [done|]).
    intros molec' trans_id Hmolec' _ Htid' Hne. congruence. }
  apply id_truthy_Some in Htruthy as (molec_id & Hmid & _).
  rewrite Hmid in Hleaf. simpl in Hleaf.
  apply leaf_Some in Hleaf as (me & models & Hme & Hmodels & Hd).
  destruct (delete_sph_model_ok trans s molec molec_id trans_id e me models _
              Hmolec Hmid Htid He Hme Hmodels Hd) as (db' & -> & Hdisk & Hdb').
  simpl. destruct (leaf_delete e molec_id me trans_id models (trans_str trans) Hme Hmodels)
    as (Hgone & Hother & Hnone).
  eexists _, db', _. split; [reflexivity|]. simpl.
  repeat (split; [done|]).
  intros molec' trans_id' Hmolec' _ Htid' _.
  rewrite Hmolec in Hmolec'. injection Hmolec' as <-. rewrite Hmid. simpl.
  rewrite Htid in Htid'. by injection Htid' as <-.
Qed.

Lemma sphinx_reserved_keep molec e e' trans :
  (∀ a k, leaf e' a k (trans_str trans) = leaf e a k (trans_str trans)) →
  sphinx_reserved molec e trans → sphinx_reserved molec e' trans.
Proof.
  intros Hkeep. unfold sphinx_reserved. destruct (id_truthy _); [|done].
  intros (trans_id & Hid & Hleaf). exists trans_id. by rewrite Hkeep.
Qed.

Lemma doSphinx_loop_off transs : ∀ i flags s e,
  sphinx s = false →
  db_data (sph_db s) !! model_id s = Some e →
  Forall (λ b, b = false) flags →
  length flags = length transs →
  NoDup (trans_str <$> transs) →
  Forall (λ trans, ∃ molec, molec_list s !! trans_molecule trans = Some molec ∧
                            sphinx_reserved molec e trans) transs →
  ∃ transs' db' e',
    doSphinx_loop i flags transs s = Ok (transs', set_sph_db db' s) ∧
    Forall (λ trans', trans_model_id trans' = Some "") transs' ∧
    trans_molecule <$> transs' = trans_molecule <$> transs ∧
    db_disk db' = db_disk (sph_db s) ∧
    db_data db' !! model_id s = Some e' ∧
    (∀ a k sig, sig ∉ trans_str <$> transs → leaf e' a k sig = leaf e a k sig) ∧
    (∀ a k sig, leaf e a k sig = None → leaf e' a k sig = None) ∧
    Forall (sphinx_released (molec_list s) e') transs.
Proof.
  induction transs as [|trans rest IH];
    intros i flags s e Hsphinx He Hfalse Hlen Hnodup Hall.
  { destruct flags; [|done]. simpl. exists [], (sph_db s), e.
    split; [by destruct s|]. done. }
  destruct flags as [|b flags]; [done|].
  apply Forall_cons in Hfalse as [-> Hfalse].
  rewrite fmap_cons in Hnodup. apply NoDup_cons in Hnodup as [Hfresh Hnodup].
  apply Forall_cons in Hall as [(molec & Hmolec & Hreserved) Hall].
  cbn [doSphinx_loop].
  destruct (doSphinx_trans_off i trans s molec e Hsphinx Hmolec He Hreserved)
    as (trans' & db1 & e1 & -> & Hid1 & Hm1 & Hdisk1 & He1 & Hother1 & Hnone1 & Hrel1).
  cbn [mbind result_bind].
  destruct (IH (S i) flags (set_sph_db db1 s) e1) as
    (rest' & db2 & e2 & Hloop & Hids2 & Hm2 & Hdisk2 & He2 & Hother2 & Hnone2 & Hrel2);
    [done|done|done|by injection Hlen|done| |].
  { apply Forall_forall. intros t Ht. rewrite Forall_forall in Hall.
    destruct (Hall t Ht) as (molec' & Hmolec' & Hres'). exists molec'. split; [done|].
    apply (sphinx_reserved_keep _ e); [|done].
    intros a k. apply Hother1. intros Heq. apply Hfresh. rewrite <- Heq.
    by apply list_elem_of_fmap_2. }
  rewrite Hloop. cbn [mbind result_bind mret result_ret].
  exists (trans' :: rest'), db2, e2. split; [done|].
  split; [by constructor|]. split; [by rewrite !fmap_cons, Hm1, Hm2|].
  split; [by rewrite Hdisk2|]. split; [done|]. split.
  { intros a k sig Hnot. rewrite fmap_cons, not_elem_of_cons in Hnot.
    destruct Hnot as [Hne Hnot]. rewrite Hother2 by done. by apply Hother1. }
  split; [intros a k sig Hnone; by apply Hnone2, Hnone1|].
  constructor; [|done].
  intros molec' trans_id Hmolec' Htruthy Htid Hne. apply Hnone2.
  by apply Hrel1.
Qed.

Lemma missing_molec_ids_ok bts s :
  Forall (λ bt : bool * Transition, is_Some (molec_list s !! trans_molecule bt.2)) bts →
  ∃ ids, missing_molec_ids bts s = Ok ids.
Proof.
  induction bts as [|[b trans] bts IH]; intros Hall; simpl; [by eexists|].
  apply Forall_cons in Hall as [[molec Hmolec] Hall].
  destruct (IH Hall) as [ids Hids].
  destruct b; [by eexists|].
  unfold molecule_of. simpl in Hmolec. rewrite Hmolec. simpl. rewrite Hids. by eexists.
Qed.

Lemma sphinx_outcome_lists molecs e transs transs' flags :
  Forall3 (sphinx_outcome molecs e) transs transs' flags →
  Forall (λ b, b = false) flags →
  trans_str <$> transs' = trans_str <$> transs ∧
  trans_molecule <$> transs' = trans_molecule <$> transs ∧
  Forall (λ trans', ∃ molec, molecs !! trans_molecule trans' = Some molec ∧
                             sphinx_reserved molec e trans') transs'.
Proof.
  induction 1 as [|trans trans' b transs transs' flags Hhead _ IH]; intros Hfalse; [done|].
  apply Forall_cons in Hfalse as [-> Hfalse].
  destruct (IH Hfalse) as (Hsigs & Hmolecs & Hall).
  destruct Hhead as (Hsig & Hm & _ & molec & Hmolec & Hreserved).
  rewrite !fmap_cons, Hsigs, Hmolecs, Hsig, Hm. split; [done|]. split; [done|].
  constructor; [|done]. exists molec. by rewrite Hm.
Qed.

Lemma zip_Forall_snd {A B} (P : B → Prop) (l : list A) : ∀ k : list B,
  Forall P k → Forall (λ ab : A * B, P ab.2) (zip l k).
Proof.
  induction l as [|x l IH]; intros [|y k] Hall; simpl; try done.
  apply Forall_cons in Hall as [Hy Hall]. constructor; [done|]. by apply IH.
Qed.

Lemma only_empty_ids_cons i ids :
  Forall (λ i, i = Some "") (i :: ids) → only_empty_ids (i :: ids) = true.
Proof.
  intros Hall. unfold only_empty_ids. apply forallb_forall. intros j Hj.
  apply bool_decide_eq_true. rewrite Forall_forall in Hall. apply Hall.
  by apply list_elem_of_In.
Qed.

(** X12: when sphinx is not to be run ([sphinx] off), [doSphinx] in a
    session without flags or transitions in progress left from an earlier
    lookup, over transitions that come without a model id, each under a
    name of its own, on a cooling model that the sphinx database has
    nothing for, returns and runs nothing; every transition ends with the
    empty model id, and the entry that the lookup had made for it, under
    the id it had got, is taken out of the database again; the database
    goes to the disk; and the model id of the session becomes the empty
    string, unless there is no transition at all. *)
Theorem doSphinx_without_sphinx s :
  sphinx s = false →
  trans_bools s = [] →
  trans_in_progress s = [] →
  db_data (sph_db s) !! model_id s = None →
  NoDup (trans_str <$> trans_list s) →
  (∀ trans, trans ∈ trans_list s →
     trans_model_id trans = None ∧ is_Some (molec_list s !! trans_molecule trans)) →
  ∃ s1 s' e',
    checkSphinxDatabase s = Ok s1 ∧
    doSphinx s = Ok s' ∧
    runs (outside s') = runs (outside s) ∧
    Forall (λ trans', trans_model_id trans' = Some "") (trans_list s') ∧
    length (trans_list s') = length (trans_list s) ∧
    model_id s' = (if bool_decide (trans_list s = []) then model_id s else "") ∧
    db_data (sph_db s') !! model_id s = Some e' ∧
    db_disk (sph_db s') = db_data (sph_db s') ∧
    Forall (sphinx_released (molec_list s) e') (trans_list s1).
Proof.
  intros Hsphinx Hbools Hprog Hnone Hnodup Hall.
  destruct (checkSphinxDatabase_outcomes s Hnodup Hall)
    as (s1 & e1 & flags & Hcheck & (Hsph1 & Hrec1 & Hprog1) & Hid1 & Hmols1 & Hruns1
        & Hbools1 & He1 & Hdisk1 & Houtcome).
  destruct (checkSphinxDatabase_no_entry s Hnone Hnodup Hall) as (s1' & Hcheck' & Hbools').
  rewrite Hcheck in Hcheck'. injection Hcheck' as <-.
  rewrite Hbools in Hbools1, Hbools'. simpl in Hbools1, Hbools'.
  assert (Forall (λ b, b = false) flags) as Hfalse.
  { rewrite <- Hbools1, Hbools'. by apply Forall_replicate. }
  assert (length flags = length (trans_list s1)) as Hlen.
  { rewrite <- Hbools1, Hbools', length_replicate.
    apply (Forall3_length_lm _ _ _ _ Houtcome). }
  destruct (sphinx_outcome_lists _ _ _ _ _ Houtcome Hfalse) as (Hsigs & Hmolecs & Hreserved).
  destruct (Hprog1 Hfalse) as [Hprog1' Hvic1].
  destruct (doSphinx_loop_off (trans_list s1) 0 flags s1 e1)
    as (transs' & db' & e' & Hloop & Hids & Hm & Hdisk' & He' & _ & _ & Hreleased).
  { congruence. }
  { by rewrite Hid1. }
  { done. }
  { done. }
  { by rewrite Hsigs. }
  { by rewrite Hmols1. }
  assert (length transs' = length (trans_list s)) as Hlen'.
  { rewrite <- (length_fmap trans_molecule transs'), Hm, length_fmap.
    symmetry. apply (Forall3_length_lm _ _ _ _ Houtcome). }
  assert (Forall (λ bt : bool * Transition, is_Some (molec_list s1 !! trans_molecule bt.2))
            (zip flags transs')) as Hvalid.
  { apply (zip_Forall_snd (λ t, is_Some (molec_list s1 !! trans_molecule t))).
    apply (Forall_fmap trans_molecule (λ m, is_Some (molec_list s1 !! m))).
    rewrite Hm, Hmolecs, Hmols1.
    apply Forall_fmap, Forall_forall. intros t Ht. by apply Hall. }
  assert (only_empty_ids (trans_model_id <$> transs')
          = negb (bool_decide (trans_list s = []))) as Hempty.
  { destruct transs' as [|trans' transs'].
    - destruct (trans_list s); done.
    - destruct (trans_list s); [done|].
      rewrite fmap_cons, only_empty_ids_cons; [done|].
      rewrite <- fmap_cons. by apply Forall_fmap. }
  rewrite Hid1 in He'. rewrite Hmols1 in Hreleased.
  exists s1. unfold doSphinx. rewrite Hcheck. cbn [mbind result_bind].
  rewrite Hbools1, Hloop. cbn [mbind result_bind].
  unfold finalizeSphinx. cbn [trans_list set_trans_list set_sph_db]. rewrite Hempty.
  destruct (bool_decide (trans_list s = [])); simpl;
    rewrite Hprog1', Hprog; simpl; rewrite Hsph1, Hsphinx; simpl; rewrite Hbools1;
    (match goal with
     | |- context [missing_molec_ids ?bts ?t] =>
         destruct (missing_molec_ids_ok bts t) as [ids ->]; [exact Hvalid|]
     end);
    simpl; rewrite Hvic1, Hsph1, Hsphinx;
    (destruct (vic s); eexists _, e';
     (split; [done|]); (split; [reflexivity|]); simpl;
     rewrite ?Hid1; repeat (split; [done|]); exact Hreleased).
Qed.

(** ** When [doSphinx] runs sphinx *)

(** Nothing is run between two states, and the switches that decide about
    a run are the same in both. *)
Definition quiet (s s' : Gastronoom) : Prop :=
  runs (outside s') = runs (outside s) ∧
  sphinx s' = sphinx s ∧
  recover_sphinxfiles s' = recover_sphinxfiles s ∧
  (is_Some (vic s') ↔ is_Some (vic s)).

Lemma quiet_refl s : quiet s s.
Proof. done. Qed.

Lemma quiet_trans s1 s2 s3 : quiet s1 s2 → quiet s2 s3 → quiet s1 s3.
Proof.
  intros (? & ? & ? & Hv1) (? & ? & ? & Hv2).
  split; [congruence|]. split; [congruence|]. split; [congruence|].
  by rewrite Hv2.
Qed.

Lemma sphinx_found_quiet i d s : quiet s (sphinx_found i d s).
Proof.
  unfold sphinx_found, quiet.
  destruct (has_key d "IN_PROGRESS"); simpl; [|done].
  destruct (vic s) eqn:Hvic; simpl; rewrite ?Hvic; split_and!; try done;
    split; by eauto.
Qed.

Lemma checkSphinx_trans_quiet i trans new_trans_id copied s trans' new' copied' s' :
  checkSphinx_trans i trans new_trans_id copied s = Ok (trans', new', copied', s') →
  quiet s s'.
Proof.
  unfold checkSphinx_trans. intros Hstep.
  apply bind_Ok in Hstep as (molec & _ & Hstep). revert Hstep.
  destruct (negb (id_truthy _)); simpl.
  { by intros [= <- <- <- <-]. }
  intros Hstep. apply bind_Ok in Hstep as (e & _ & Hstep). revert Hstep.
  destruct (e !! _) as [me|]; [|by intros [= <- <- <- <-]].
  destruct (find _ _) as [kd|]; simpl.
  { intros [= <- <- <- <-]. apply sphinx_found_quiet. }
  destruct (trans_model_id trans); simpl; [by intros [= <- <- <- <-]|].
  intros Hstep. apply bind_Ok in Hstep as (models & _ & [= <- <- <- <-]).
  unfold quiet.
  destruct (free_slot _ _), (bool_decide (new_trans_id = "")),
    (bool_decide (trans_molecule trans ∈ copied)); simpl;
    rewrite ?runs_snoc; simpl; rewrite ?app_nil_r; done.
Qed.

Lemma checkSphinx_loop_quiet transs : ∀ i new_trans_id copied s transs' new' copied' s',
  checkSphinx_loop i transs new_trans_id copied s = Ok (transs', new', copied', s') →
  quiet s s'.
Proof.
  induction transs as [|trans rest IH];
    intros i new_trans_id copied s transs' new' copied' s'; simpl.
  { by intros [= <- <- <- <-]. }
  intros Hloop.
  apply bind_Ok in Hloop as ([[[trans1 new1] copied1] s1] & Hstep & Hloop).
  apply bind_Ok in Hloop as ([[[rest1 new2] copied2] s2] & Hrest & [= <- <- <- <-]).
  eapply quiet_trans; [by eapply checkSphinx_trans_quiet|by eapply IH].
Qed.

Lemma checkSphinxDatabase_quiet s s' : checkSphinxDatabase s = Ok s' → quiet s s'.
Proof.
  unfold checkSphinxDatabase. intros Hcheck.
  apply bind_Ok in Hcheck as ([[[transs new] copied] s1] & Hloop & [= <-]).
  apply checkSphinx_loop_quiet in Hloop. unfold quiet in *. simpl.
  by destruct (has_key _ _).
Qed.

Lemma delete_sph_model_quiet trans s s' : delete_sph_model trans s = Ok s' → quiet s s'.
Proof.
  unfold delete_sph_model. intros Hdelete.
  apply bind_Ok in Hdelete as ([[molec_id trans_id] models] & _ & Hdelete).
  apply bind_Ok in Hdelete as (models' & _ & [= <-]). done.
Qed.

Lemma checkSphinxOutput_quiet trans s trans' s' :
  checkSphinxOutput trans s = Ok (trans', s') → quiet s s'.
Proof.
  unfold checkSphinxOutput. intros Hcheck.
  apply bind_Ok in Hcheck as (folder & _ & Hcheck). revert Hcheck.
  destruct (bool_decide _).
  - intros Hcheck. apply bind_Ok in Hcheck as ([[molec_id trans_id] models] & _ & Hcheck).
    apply bind_Ok in Hcheck as (d & _ & [= <- <-]). done.
  - intros Hcheck. apply bind_Ok in Hcheck as (s1 & Hdelete & [= <- <-]).
    by apply delete_sph_model_quiet in Hdelete.
Qed.

(** The transitions that [doSphinx] runs sphinx for: those flagged as not
    found that have a model id. *)
Definition sphinx_runs (bts : list (bool * Transition)) : list event :=
  omap (λ bt : bool * Transition,
          if negb bt.1 && id_truthy (trans_model_id bt.2)
          then Some (ExecGastronoom "sphinx" (inputfile (show_id (trans_model_id bt.2))))
          else None) bts.
Local Arguments sphinx_runs : simpl never.

(** Sphinx is run in the session itself: sphinx is on, there is no vic
    manager, and the output is not to be recovered from the disk. *)
Definition runs_sphinx_here (s : Gastronoom) : bool :=
  sphinx s && negb (is_some (vic s)) && negb (recover_sphinxfiles s).

Lemma doSphinx_trans_runs i trans_bool trans s trans' s' :
  doSphinx_trans i trans_bool trans s = Ok (trans', s') →
  sphinx s' = sphinx s ∧
  recover_sphinxfiles s' = recover_sphinxfiles s ∧
  (is_Some (vic s') ↔ is_Some (vic s)) ∧
  runs (outside s')
    = runs (outside s)
      ++ (if runs_sphinx_here s then sphinx_runs [(trans_bool, trans)] else []).
Proof.
  unfold doSphinx_trans, runs_sphinx_here, sphinx_runs.
  destruct (negb trans_bool && id_truthy (trans_model_id trans)) eqn:Hrun; simpl.
  2:{ intros [= <- <-]. rewrite Hrun.
      destruct (sphinx s && _ && _); simpl; rewrite ?app_nil_r; done. }
  rewrite Hrun.
  destruct (sphinx s) eqn:Hsphinx; simpl.
  2:{ intros Hdelete. apply bind_Ok in Hdelete as (s1 & Hdelete & [= <- <-]).
      apply delete_sph_model_quiet in Hdelete as (-> & -> & -> & Hv).
      by rewrite ?app_nil_r. }
  destruct (vic s) as [calls|] eqn:Hvic; simpl.
  { intros [= <- <-]. simpl. rewrite ?app_nil_r. split_and!; try done;
      split; by eauto. }
  destruct (recover_sphinxfiles s) eqn:Hrecover; simpl.
  { intros Hcheck. apply checkSphinxOutput_quiet in Hcheck as (-> & -> & -> & Hv).
    rewrite Hvic in Hv. by rewrite ?app_nil_r. }
  intros Hstep. apply bind_Ok in Hstep as (s1 & Hupdate & Hstep).
  apply updateModel_other in Hupdate as (cl & -> & _).
  apply bind_Ok in Hstep as (molec & _ & Hstep). simpl in Hstep.
  apply bind_Ok in Hstep as ([trans1 s2] & Hcheck & [= <- <-]).
  apply checkSphinxOutput_quiet in Hcheck as (Hruns & Hsph & Hrec & Hv).
  simpl in *. rewrite Hruns, !runs_snoc. simpl. rewrite app_nil_r.
  rewrite Hvic in Hv. by rewrite Hsph, Hrec.
Qed.

Lemma sphinx_runs_cons bt bts : sphinx_runs (bt :: bts) = sphinx_runs [bt] ++ sphinx_runs bts.
Proof. unfold sphinx_runs. simpl. by destruct (_ && _). Qed.

Lemma doSphinx_loop_runs transs : ∀ i bools s transs' s',
  doSphinx_loop i bools transs s = Ok (transs', s') →
  sphinx s' = sphinx s ∧
  recover_sphinxfiles s' = recover_sphinxfiles s ∧
  (is_Some (vic s') ↔ is_Some (vic s)) ∧
  runs (outside s')
    = runs (outside s)
      ++ (if runs_sphinx_here s then sphinx_runs (zip bools transs) else []).
Proof.
  induction transs as [|trans rest IH]; intros i bools s transs' s'.
  { destruct bools; simpl; intros [= <- <-]; unfold sphinx_runs; simpl;
      destruct (runs_sphinx_here s); by rewrite app_nil_r. }
  destruct bools as [|b bools]; cbn [doSphinx_loop zip].
  { intros [= <- <-]. unfold sphinx_runs. simpl.
    destruct (runs_sphinx_here s); by rewrite app_nil_r. }
  intros Hloop. apply bind_Ok in Hloop as ([trans1 s1] & Hstep & Hloop).
  apply bind_Ok in Hloop as ([rest1 s2] & Hrest & [= <- <-]).
  apply doSphinx_trans_runs in Hstep as (Hsph1 & Hrec1 & Hvic1 & Hruns1).
  apply IH in Hrest as (Hsph2 & Hrec2 & Hvic2 & Hruns2).
  assert (runs_sphinx_here s1 = runs_sphinx_here s) as Hhere.
  { unfold runs_sphinx_here. rewrite Hsph1, Hrec1. f_equal. f_equal. f_equal.
    destruct (vic s1), (vic s); simpl; try done.
    - destruct Hvic1 as [Hv _]. by destruct Hv.
    - destruct Hvic1 as [_ Hv]. by destruct Hv. }
  split; [congruence|]. split; [congruence|]. split; [by rewrite Hvic2|].
  rewrite Hruns2, Hruns1, Hhere.
  destruct (runs_sphinx_here s); [|by rewrite !app_nil_r].
  rewrite <- app_assoc. f_equal. symmetry. apply sphinx_runs_cons.
Qed.

Lemma finalize_loop_outside in_progress : ∀ s s',
  finalize_loop in_progress s = Ok s' → outside s' = outside s.
Proof.
  induction in_progress as [|i rest IH]; intros s s'; simpl.
  { by intros [= <-]. }
  intros Hloop. apply bind_Ok in Hloop as (trans & _ & Hloop).
  apply bind_Ok in Hloop as ([[molec_id trans_id] models] & _ & Hloop).
  apply IH in Hloop. rewrite Hloop.
  destruct (models !! trans_str trans) as [d|]; [destruct (has_key d "IN_PROGRESS")|]; done.
Qed.

Lemma doSphinx_runs_of_pairs s s' :
  doSphinx s = Ok s' →
  ∃ s1,
    checkSphinxDatabase s = Ok s1 ∧
    runs (outside s')
      = runs (outside s)
        ++ (if runs_sphinx_here s
            then sphinx_runs (zip (trans_bools s1) (trans_list s1)) else []).
Proof.
  unfold doSphinx. intros Hrun.
  apply bind_Ok in Hrun as (s1 & Hcheck & Hrun). exists s1. split; [done|].
  apply checkSphinxDatabase_quiet in Hcheck as (Hruns1 & Hsph1 & Hrec1 & Hvic1).
  apply bind_Ok in Hrun as ([transs s2] & Hloop & Hrun).
  apply doSphinx_loop_runs in Hloop as (Hsph2 & Hrec2 & Hvic2 & Hruns2).
  assert (runs_sphinx_here s1 = runs_sphinx_here s) as Hhere.
  { unfold runs_sphinx_here. rewrite Hsph1, Hrec1. f_equal. f_equal. f_equal.
    destruct (vic s1), (vic s); simpl; try done.
    - destruct Hvic1 as [Hv _]. by destruct Hv.
    - destruct Hvic1 as [_ Hv]. by destruct Hv. }
  rewrite Hhere, Hruns1 in Hruns2. rewrite <- Hruns2.
  apply bind_Ok in Hrun as (s3 & Hfinal & Hrun).
  unfold finalizeSphinx in Hfinal. apply finalize_loop_outside in Hfinal.
  assert (outside s3 = outside s2) as Hout3.
  { rewrite Hfinal. by destruct (only_empty_ids _). }
  apply bind_Ok in Hrun as (ids & _ & Hrun). revert Hrun.
  set (s4 := if negb (sphinx s3) || recover_sphinxfiles s3
             then set_sph_db (sync (sph_db s3)) s3 else s3).
  assert (outside s4 = outside s3) as Hout4 by (unfold s4; by destruct (_ || _)).
  destruct (vic s4); [destruct (sphinx s4); [destruct (_ && _)|]|];
    intros [= <-]; simpl; congruence.
Qed.

(** X13: [doSphinx] runs sphinx in the session itself only when sphinx is on,
    there is no vic manager and the output is not to be recovered from the
    disk; then it runs it once for each transition that the lookup has
    flagged as not found and given a model id, in the order of the list, on
    the input file named after that id.  In every other case nothing is
    run. *)
Theorem doSphinx_runs s s' :
  doSphinx s = Ok s' →
  ∃ s1,
    checkSphinxDatabase s = Ok s1 ∧
    runs (outside s')
      = runs (outside s)
        ++ (if runs_sphinx_here s
            then sphinx_runs (zip (trans_bools s1) (trans_list s1)) else []).
Proof. apply doSphinx_runs_of_pairs. Qed.

(** ** What is saved is found *)

(** X14: a molecule whose run has left its three output files is saved under
    its mline id, on the disk too, and the next lookup for a molecule of
    that name with the same dictionary finds it, provided the comparison
    accepts a dictionary for itself: the flag is True and the id is the id
    it was saved under, or one before it that is accepted as well. *)
Theorem mline_saved_is_found molec molec0 model_bools new_molec_id s e k slot :
  db_data (ml_db s) !! model_id s = Some e →
  has_model_keys (command_list s) = true →
  molec_model_id molec = Some k →
  e !! k = Some slot →
  (∀ history, length (glob history (mline_files k (molecule molec))) = 3) →
  molecule molec0 = molecule molec →
  molec_dict molec0 = molec_dict molec →
  mline_match molec (k, molec_dict molec) = true →
  ∃ s' k',
    doMline_molec molec false s = Ok (molec, s') ∧
    db_data (ml_db s') !! model_id s'
      = Some (<[k := <[molecule molec := molec_dict molec]> slot]> e) ∧
    db_disk (ml_db s') = db_data (ml_db s') ∧
    checkMline_molec molec0 model_bools new_molec_id s'
      = Ok (molec_setModelId k' molec0, model_bools ++ [true], new_molec_id, s') ∧
    String.le k' k.
Proof.
  intros He Hkeys Hid Hslot Hglob Hname Hdict Hmatch.
  unfold doMline_molec. simpl.
  destruct (updateModel_keys (molec_model_id molec) s Hkeys) as (cl & -> & _).
  simpl. rewrite Hid. simpl. rewrite bool_decide_eq_true_2 by apply Hglob.
  unfold ml_cooling_entry, getitem. simpl. rewrite He. simpl. rewrite Hslot. simpl.
  set (s' := set_ml_db _ _).
  destruct (checkMline_molec_found molec0 model_bools new_molec_id s'
              (<[k := <[molecule molec := molec_dict molec]> slot]> e) k
              (<[molecule molec := molec_dict molec]> slot) (molec_dict molec))
    as (k' & Hcheck & Hle & _).
  { simpl. apply lookup_insert_eq. }
  { apply lookup_insert_eq. }
  { rewrite Hname. apply lookup_insert_eq. }
  { unfold mline_match in *. simpl in *. by rewrite Hname, Hdict. }
  exists s', k'. split; [done|]. split; [simpl; apply lookup_insert_eq|]. done.
Qed.

(** X15: a transition whose run has left its two output files keeps its entry,
    without the IN_PROGRESS mark; the next lookup for a transition of that
    name with the same dictionary finds it, provided the comparison accepts
    the stored dictionary: the flag is True, and when no other sphinx id of
    the molecule holds an accepted dictionary, the transition gets the id
    it was calculated under and is not taken to be in progress. *)
Theorem sphinx_kept_is_found i trans trans0 new_trans_id copied s molec molec_id trans_id
    e me models d :
  molec_list s !! trans_molecule trans = Some molec →
  molec_model_id molec = Some molec_id → molec_id ≠ "" →
  trans_model_id trans = Some trans_id →
  db_data (sph_db s) !! model_id s = Some e →
  e !! molec_id = Some me →
  me !! trans_id = Some models →
  models !! trans_str trans = Some d →
  length (glob (outside s)
            (path_join [gout; "models"; trans_id; makeSphinxFilename trans])) = 2 →
  trans_str trans0 = trans_str trans →
  trans_dict trans0 = trans_dict trans →
  trans_molecule trans0 = trans_molecule trans →
  sphinx_match trans (trans_id, delete "IN_PROGRESS" d) = true →
  ∃ s' s'' k',
    checkSphinxOutput trans s = Ok (trans, s') ∧
    checkSphinx_trans i trans0 new_trans_id copied s'
      = Ok (trans_setModelId k' trans0, new_trans_id, copied, s'') ∧
    trans_bools s'' = trans_bools s' ++ [true] ∧
    String.le k' trans_id ∧
    ((∀ k models' d', k ≠ trans_id → me !! k = Some models' →
        models' !! trans_str trans = Some d' → sphinx_match trans (k, d') = false) →
     k' = trans_id ∧ trans_in_progress s'' = trans_in_progress s' ∧ vic s'' = vic s').
Proof.
  intros Hmolec Hmid Hne Htid He Hme Hmodels Hd Hglob Hsig Hdict Hm Hmatch.
  unfold checkSphinxOutput. rewrite Htid. simpl.
  rewrite (bool_decide_eq_true_2 _ Hglob).
  rewrite (sph_models_of_ok _ _ _ _ _ _ _ _ Hmolec Hmid Htid He Hme Hmodels).
  simpl. unfold getitem. rewrite Hd. simpl.
  set (d1 := if has_key d "IN_PROGRESS" then delete "IN_PROGRESS" d else d).
  assert (d1 = delete "IN_PROGRESS" d) as Hd1.
  { unfold d1. destruct (has_key d "IN_PROGRESS") eqn:Hflag; [done|].
    apply has_key_false in Hflag. by rewrite (delete_id _ _ Hflag). }
  set (me1 := <[trans_id := <[trans_str trans := d1]> models]> me).
  set (s' := set_sph_db _ _).
  assert (db_data (sph_db s') !! model_id s' = Some (<[molec_id := me1]> e)) as He'.
  { simpl. rewrite (alter3_lookup_insert _ _ _ _ _ _ _ _ He Hme Hmodels).
    apply lookup_insert_eq. }
  exists s'. unfold checkSphinx_trans, molecule_of.
  change (molec_list s') with (molec_list s). rewrite Hm, Hmolec. simpl.
  rewrite Hmid. simpl. rewrite (bool_decide_eq_false_2 _ Hne). simpl.
  unfold sph_cooling_entry, getitem. rewrite He'. simpl. rewrite lookup_insert_eq.
  fold (sphinx_match trans0).
  assert (∀ kd, sphinx_match trans0 kd = sphinx_match trans kd) as Hsame.
  { intros kd. unfold sphinx_match. by rewrite Hdict. }
  rewrite (find_pointwise _ (sphinx_match trans)) by (intros; apply Hsame).
  rewrite Hsig.
  destruct (find_is_some (sphinx_match trans) (sphinx_candidates me1 (trans_str trans))
              (trans_id, d1)) as [[k' d'] Hfind].
  { apply sphinx_candidates_elem. eexists. split; [apply lookup_insert_eq|].
    apply lookup_insert_eq. }
  { by rewrite Hd1. }
  rewrite Hfind. simpl.
  destruct (find_first_sorted _ _ _ (candidates_sorted _ _) Hfind) as (Hin & Hf & Hfirst).
  destruct (sphinx_found_fields i d' s') as (_ & _ & _ & _ & Hbools & _ & _).
  eexists _, k'. split; [done|]. split; [reflexivity|]. split; [done|]. split.
  { apply (Hfirst (trans_id, d1)); [|by rewrite Hd1].
    apply sphinx_candidates_elem. eexists. split; [apply lookup_insert_eq|].
    apply lookup_insert_eq. }
  intros Hothers.
  apply sphinx_candidates_elem in Hin as (models' & Hk' & Hd').
  destruct (decide (k' = trans_id)) as [->|Hother].
  - unfold me1 in Hk'. rewrite lookup_insert_eq in Hk'. injection Hk' as <-.
    rewrite lookup_insert_eq in Hd'. injection Hd' as <-.
    split; [done|]. unfold sphinx_found. rewrite Hd1.
    assert (has_key (delete "IN_PROGRESS" d) "IN_PROGRESS" = false) as ->.
    { apply has_key_false, lookup_delete_eq. }
    done.
  - unfold me1 in Hk'. rewrite lookup_insert_ne in Hk' by done.
    rewrite (Hothers k' models' d' Hother Hk' Hd') in Hf. done.
Qed.

(** ** The entries that name the model *)

(** X16: [updateModel] rewrites the three entries of the command list that name
    the model (output directory, parameter file, output suffix) and leaves
    every other entry, and everything else in the session, as it is.  It
    needs the three entries to be there, as strings: without one of them it
    ends with a KeyError, and with one that is not a string with an
    AttributeError. *)
Theorem updateModel_names_only new_model_id s :
  (has_model_keys (command_list s) = true →
   ∃ cl, updateModel new_model_id s = Ok (set_command_list cl s) ∧
         has_model_keys cl = true ∧
         ∀ k, k ∉ run_identity_keys → cl !! k = command_list s !! k) ∧
  (has_model_keys (command_list s) = false →
   updateModel new_model_id s = Raise KeyError
   ∨ updateModel new_model_id s = Raise AttributeError).
Proof.
  split.
  - intros Hkeys.
    destruct (updateModel_keys new_model_id s Hkeys) as (cl & Hupdate & Hcl).
    exists cl. split; [done|]. split; [done|].
    destruct (updateModel_other _ _ _ Hupdate) as (cl' & Heq & Hother).
    assert (cl' = cl) as -> by (by injection Heq).
    done.
  - unfold has_model_keys, updateModel, updateModel_par, getitem. simpl.
    destruct (command_list s !! "OUTPUT_DIRECTORY") as [[o|l]|]; simpl; [|by auto..].
    rewrite lookup_insert_ne by done.
    destruct (command_list s !! "PARAMETER_FILE") as [[p|l]|]; simpl; [|by auto..].
    rewrite !lookup_insert_ne by done.
    destruct (command_list s !! "OUTPUT_SUFFIX") as [[x|l]|]; simpl; [done|by auto..].
Qed.

(** ** A request made twice *)

(** The mline lookup over molecules that all are found: every molecule
    gets the first id with an accepted dictionary, every flag is True, and
    the session is left as it is. *)
Definition mline_taken (e : ml_entry) (molec molec' : Molecule) : Prop :=
  ∃ k',
    molec' = molec_setModelId k' molec ∧
    (∃ v' d', e !! k' = Some v' ∧ v' !! molecule molec = Some d' ∧
              mline_match molec (k', d') = true) ∧
    (∀ k v d, e !! k = Some v → v !! molecule molec = Some d →
       mline_match molec (k, d) = true → String.le k' k).

Lemma checkMline_molec_taken molec model_bools new_molec_id s e :
  db_data (ml_db s) !! model_id s = Some e →
  (∃ k v d, e !! k = Some v ∧ v !! molecule molec = Some d ∧
            mline_match molec (k, d) = true) →
  ∃ molec',
    checkMline_molec molec model_bools new_molec_id s
      = Ok (molec', model_bools ++ [true], new_molec_id, s) ∧
    mline_taken e molec molec'.
Proof.
  intros He (k & v & d & Hk & Hv & Hmatch).
  destruct (find_is_some (mline_match molec) (mline_candidates e (molecule molec)) (k, d))
    as [[k' d'] Hfind]; [|done|].
  { apply mline_candidates_elem. by exists v. }
  destruct (find_first_sorted _ _ _ (candidates_sorted e (molecule molec)) Hfind)
    as (Hin & Hm & Hfirst).
  apply mline_candidates_elem in Hin as (v' & Hk' & Hv').
  exists (molec_setModelId k' molec). split.
  - unfold checkMline_molec, ml_cooling_entry, getitem. rewrite He. simpl.
    fold (mline_match molec). rewrite Hfind. done.
  - exists k'. split; [done|]. split; [by exists v', d'|].
    intros k0 v0 d0 Hk0 Hv0 Hm0.
    apply (Hfirst (k0, d0)); [|done].
    apply mline_candidates_elem. by exists v0.
Qed.

Lemma checkMline_loop_taken molecs : ∀ model_bools new_molec_id s e,
  db_data (ml_db s) !! model_id s = Some e →
  Forall (λ molec, ∃ k v d, e !! k = Some v ∧ v !! molecule molec = Some d ∧
                            mline_match molec (k, d) = true) molecs →
  ∃ molecs',
    checkMline_loop molecs model_bools new_molec_id s
      = Ok (molecs', model_bools ++ replicate (length molecs) true, new_molec_id, s) ∧
    Forall2 (mline_taken e) molecs molecs'.
Proof.
  induction molecs as [|molec molecs IH]; intros model_bools new_molec_id s e He Hall.
  - exists []. simpl. by rewrite app_nil_r.
  - apply Forall_cons in Hall as [Hmolec Hall].
    destruct (checkMline_molec_taken molec model_bools new_molec_id s e He Hmolec)
      as (molec' & Hstep & Htaken).
    destruct (IH (model_bools ++ [true]) new_molec_id s e He Hall) as (molecs' & Hloop & Hrest).
    exists (molec' :: molecs'). simpl. rewrite Hstep. simpl. rewrite Hloop. simpl.
    rewrite <- app_assoc. split; [done|]. by constructor.
Qed.

(** The loop of [doMline] over molecules that all are flagged as found. *)
Lemma doMline_loop_found molecs : ∀ s,
  doMline_loop molecs (replicate (length molecs) true) s = Ok (molecs, s).
Proof.
  induction molecs as [|molec molecs IH]; intros s; [done|].
  simpl. unfold doMline_molec. simpl. by rewrite IH.
Qed.

(** C1, as the code has it: when a request has ended with a model id
    (found in the database, or calculated with its output file in place),
    the same request made again with [replace_db_entry] off ends with the
    same model id, found in the database, and nothing is run: all that
    happens outside the session is the making of the id that the request
    starts with.  That the comparison does not look at the entries that
    name the run, and accepts what was saved for the same request, is what
    is asked of [compareCommandLists].  In the mline stage likewise: when
    every molecule of the request has a dictionary saved under the cooling
    id that the comparison accepts, [doMline] gives every molecule the
    first mline id with such a dictionary, leaves the dictionary of the
    database as it is, and does nothing outside the session: no run. *)
Theorem request_twice_same_id :
  (∀ star s0 s1,
     replace_db_entry s0 = false →
     (∀ id1 id2 c,
        compareCommandLists (cooling_request star id1) c Cooling false
          (Some (cooling_molec_dict star))
        = compareCommandLists (cooling_request star id2) c Cooling false
            (Some (cooling_molec_dict star))) →
     (∀ id1 id2,
        compareCommandLists (cooling_request star id2)
          (cooling_request star id1 ∪ cooling_molec_dict star) Cooling false
          (Some (cooling_molec_dict star)) = true) →
     doGastronoom star s0 = Ok s1 →
     model_id s1 ≠ "" →
     ∃ s2,
       doGastronoom star s1 = Ok s2 ∧
       model_id s2 = model_id s1 ∧
       cool_db s2 = cool_db s1 ∧
       outside s2 = outside s1 ++ [MakeNewId (makeNewId (outside s1))] ∧
       filter (λ ev, is_exec ev = true) (outside s2)
         = filter (λ ev, is_exec ev = true) (outside s1)) ∧
  (∀ s e,
     db_data (ml_db s) !! model_id s = Some e →
     is_Some (command_list s !! "R_OUTER") →
     is_Some (command_list s !! "OUTER_R_MODE") →
     (∀ molec, molec ∈ molec_list s →
        ∃ k v d, e !! k = Some v ∧ v !! molecule molec = Some d ∧
                 mline_match molec (k, d) = true) →
     ∃ s',
       doMline s = Ok s' ∧
       outside s' = outside s ∧
       db_data (ml_db s') = db_data (ml_db s) ∧
       Forall2 (mline_taken e) (molec_list s) (molec_list s')).
Proof.
  split.
  - intros star s0 s1. apply request_twice_cooling.
  - intros s e He [r_outer Hr] [outer_r_mode Ho] Hall.
    apply Forall_forall in Hall.
    destruct (checkMline_loop_taken (molec_list s) [] "" (set_mline_done false s) e He Hall)
      as (molecs' & Hloop & Htaken).
    pose proof (Forall2_length _ _ _ Htaken) as Hlen.
    unfold doMline, checkMlineDatabase.
    assert (has_key (db_data (ml_db (set_mline_done false s)))
              (model_id (set_mline_done false s)) = true) as ->.
    { apply has_key_true. by eexists. }
    simpl. simpl in Hloop. rewrite Hloop. simpl.
    unfold delitem. rewrite Hr. simpl.
    rewrite lookup_delete_ne by done. rewrite Ho. simpl.
    rewrite Hlen, doMline_loop_found. simpl.
    destruct (only_empty_ids (molec_model_id <$> molecs')); simpl.
    + eexists. split; [reflexivity|]. done.
    + destruct (vic s) as [calls|]; [destruct (sphinx s)|]; simpl;
        (eexists; split; [reflexivity|]; done).
Qed.

(** ** A transition in progress, through the whole lookup *)














End Gastronoom.

(** ** A session to run *)

(** Closed decidable statements are settled by running their decision
    procedure. *)
Ltac by_computation :=
  match goal with
  | |- ?P => apply (bool_decide_unpack P); vm_compute; exact I
  end.

Lemma forallb_map_to_list {V} (f : string * V → bool) (m : gmap string V) :
  forallb f (map_to_list m) = true → ∀ k v, m !! k = Some v → f (k, v) = true.
Proof.
  intros Hall k v Hk. rewrite forallb_forall in Hall. apply Hall.
  by apply list_elem_of_In, elem_of_map_to_list.
Qed.

(** The string methods of [updateModel], for the paths that
    [doGastronoom] writes. *)
Definition py_find (s sub : string) : Z :=
  match String.index 0 sub s with
  | Some n => Z.of_nat n
  | None => (-1)%Z
  end.

Definition py_slice (s : string) (i j : Z) : string :=
  let n := Z.of_nat (String.length s) in
  let clip k := Z.max 0 (Z.min n (if (k <? 0)%Z then (n + k)%Z else k)) in
  String.substring (Z.to_nat (clip i)) (Z.to_nat (clip j - clip i)) s.

Fixpoint py_replace_go (fuel : nat) (s old new : string) (count : nat) : string :=
  match fuel, count with
  | S fuel', S count' =>
      match String.index 0 old s with
      | Some n =>
          String.substring 0 n s +:+ new +:+
          py_replace_go fuel'
            (String.substring (n + String.length old)
               (String.length s - n - String.length old) s)
            old new count'
      | None => s
      end
  | _, _ => s
  end.

Fixpoint py_insert_between (new s : string) (count : nat) : string :=
  match count with
  | 0 => s
  | S count' =>
      new +:+ match s with
              | EmptyString => EmptyString
              | String a s' => String a (py_insert_between new s' count')
              end
  end.

Definition py_replace (s old new : string) (count : nat) : string :=
  if bool_decide (old = "") then py_insert_between new s count
  else py_replace_go (String.length s) s old new count.

Definition ex_h2o_dict : config :=
  {[ "MOLECULE" := VStr "1H1H16O 45 45 648 50 0" ]}.

Definition ex_co_dict : config :=
  {[ "MOLECULE" := VStr "12C16O 61 61 240 50 0" ]}.

Definition ex_molecule (name abun : string) : Molecule :=
  mkMolecule name {[ "MOLECULE" := VStr name; "ABUN_MOLEC" := VStr abun ]} None.

Definition ex_transition (sig : string) (molec : nat) : Transition :=
  mkTransition sig {[ "TRANSITION" := VStr sig ]} molec None.

Definition ex_star : Star :=
  mkStar [ex_molecule "12C16O" "2e-4"; ex_molecule "28Si16O" "1e-5"]
         [ex_transition "12C16O 0 2 0 1" 0; ex_transition "28Si16O 0 3 0 2" 1]
         {[ "T_STAR" := VStr "1000"; "R_STAR" := VStr "50";
            "R_OUTER" := VStr "100"; "OUTER_R_MODE" := VStr "MAMON" ]}.

(** A session right after [__init__], with empty databases. *)
Definition ex_session : Gastronoom :=
  mkGastronoom "" ∅ false [] None true false false false false [] [] [] []
    (mkDatabase ∅ ∅ []) (mkDatabase ∅ ∅ []) (mkDatabase ∅ ∅ []) [].

(** An outside world in which nothing is ever on the disk. *)
Definition ex_no_file (history : list event) (path : string) : bool := false.

Definition ex_no_glob (history : list event) (pattern : string) : list string := [].

Definition ex_sphinx_filename (trans : Transition) : string :=
  "sph*" +:+ show_id (trans_model_id trans) +:+ ".dat".

(** The session at the end of a request, or as it was if the request
    raised. *)
Definition after (r : result Gastronoom) (s : Gastronoom) : Gastronoom :=
  match r with
  | Ok s' => s'
  | Raise _ => s
  end.

(** What a call returned, if it did. *)
Definition returned {A} (r : result A) : option A :=
  match r with
  | Ok a => Some a
  | Raise _ => None
  end.

Example py_replace_model :
  py_replace "/gout/models/model_aaaaaaaaaaaaaaaaaaa/" 
    (py_slice "/gout/models/model_aaaaaaaaaaaaaaaaaaa/"
       (py_find "/gout/models/model_aaaaaaaaaaaaaaaaaaa/" "model_")
       (py_find "/gout/models/model_aaaaaaaaaaaaaaaaaaa/" "model_" + 25))
    "model_b" 2
  = "/gout/models/model_b/".
Proof. vm_compute. reflexivity. Qed.


(** ** The comparison of the contract on the requests of [doGastronoom] *)

Lemma keep_agree (ignore : list string) (a b : config) :
  (∀ k, k ∉ ignore → a !! k = b !! k) →
  filter (λ kv : string * value, kv.1 ∉ ignore) a
  = filter (λ kv : string * value, kv.1 ∉ ignore) b.
Proof.
  intros Hagree. apply map_filter_strong_ext_1. intros k x. simpl.
  split; intros [Hk Hx]; (split; [done|]).
  - by rewrite <- Hagree.
  - by rewrite Hagree.
Qed.

Lemma cooling_request_lookup gout h2o gdata star id1 id2 k :
  k ∉ run_identity_keys →
  cooling_request gout h2o gdata star id1 !! k = cooling_request gout h2o gdata star id2 !! k.
Proof.
  intros Hk. unfold cooling_request, cooling_command_list.
  assert (request_command_list gout gdata star id1 !! k
          = request_command_list gout gdata star id2 !! k) as Hreq.
  { unfold request_command_list.
    rewrite !(lookup_insert_ne _ "OUTPUT_SUFFIX"),
            !(lookup_insert_ne _ "PARAMETER_FILE"),
            !(lookup_insert_ne _ "OUTPUT_DIRECTORY"); [done|..];
      intros <-; apply Hk; unfold run_identity_keys; rewrite !elem_of_cons; tauto. }
  destruct (has_key _ _); [|done].
  destruct (decide (k = "F_H2O")) as [->|Hne].
  - by rewrite !lookup_delete_eq.
  - by rewrite !lookup_delete_ne.
Qed.

Lemma ConfigMatcher_request gout h2o gdata star id1 id2 c molec_dict :
  ConfigMatcher (cooling_request gout h2o gdata star id1) c Cooling false (Some molec_dict)
  = ConfigMatcher (cooling_request gout h2o gdata star id2) c Cooling false (Some molec_dict).
Proof.
  unfold ConfigMatcher. simpl.
  rewrite (keep_agree _
             (cooling_request gout h2o gdata star id1 ∪ molec_dict)
             (cooling_request gout h2o gdata star id2 ∪ molec_dict)); [done|].
  intros k Hk. rewrite !lookup_union.
  rewrite (cooling_request_lookup gout h2o gdata star id1 id2 k); [done|].
  intros Hin. apply Hk. rewrite !elem_of_cons. unfold run_identity_keys in Hin.
  rewrite !elem_of_cons in Hin. tauto.
Qed.

Lemma ConfigMatcher_saved gout h2o gdata star id1 id2 molec_dict :
  ConfigMatcher (cooling_request gout h2o gdata star id2)
    (cooling_request gout h2o gdata star id1 ∪ molec_dict) Cooling false (Some molec_dict)
  = true.
Proof.
  unfold ConfigMatcher. simpl. apply bool_decide_eq_true.
  apply keep_agree. intros k Hk. rewrite !lookup_union.
  rewrite (cooling_request_lookup gout h2o gdata star id1 id2 k); [done|].
  intros Hin. apply Hk. rewrite !elem_of_cons. unfold run_identity_keys in Hin.
  rewrite !elem_of_cons in Hin. tauto.
Qed.

(** ** The same request twice, run *)

(** The first request on the empty session, in a world where every run
    leaves its files, and in a world where none does. *)
Definition ex_first_request : result Gastronoom :=
  doGastronoom ConfigMatcher counter_id every_run_succeeds_isfile "/gout"
    py_find py_slice py_replace ex_h2o_dict ex_co_dict "/gdata" ex_star ex_session.

Definition ex_first_failed : result Gastronoom :=
  doGastronoom ConfigMatcher counter_id ex_no_file "/gout"
    py_find py_slice py_replace ex_h2o_dict ex_co_dict "/gdata" ex_star ex_session.

Example ex_first_request_id :
  model_id (after ex_first_request ex_session) = "model_"
  ∧ filter (λ ev, is_exec ev = true) (outside (after ex_first_request ex_session))
    = [ExecGastronoom "cooling" "/gout/models/gastronoom_model_.inp"].
Proof. by_computation. Qed.

(** C1 fails as stated: a request whose cooling run leaves no output file
    ends with the empty model id and nothing in the database, and the same
    request made again runs cooling again. *)
Lemma request_twice_after_failure :
  let s1 := after ex_first_failed ex_session in
  let second := doGastronoom ConfigMatcher counter_id ex_no_file "/gout"
                  py_find py_slice py_replace ex_h2o_dict ex_co_dict "/gdata" ex_star s1 in
  replace_db_entry ex_session = false ∧
  ex_first_failed = Ok s1 ∧
  second = Ok (after second s1) ∧
  model_id s1 = "" ∧
  db_data (cool_db s1) = ∅ ∧
  filter (λ ev, is_exec ev = true) (outside s1)
    = [ExecGastronoom "cooling" "/gout/models/gastronoom_model_.inp"] ∧
  filter (λ ev, is_exec ev = true) (outside (after second s1))
    = [ExecGastronoom "cooling" "/gout/models/gastronoom_model_.inp";
       ExecGastronoom "cooling" "/gout/models/gastronoom_model_i.inp"].
Proof. cbv zeta. by_computation. Qed.


(** ** The cooling lookup, run *)

Definition ex_request (new_id : string) : config :=
  request_command_list "/gout" "/gdata" ex_star new_id.

(** Two entries that match the request and one that does not. *)
Definition ex_cool_store : gmap string config :=
  {[ "model_b" := ex_request "model_b";
     "model_a" := ex_request "model_a";
     "model_0" := <["T_STAR" := VStr "1001"]> (ex_request "model_0") ]}.

Definition ex_cooling_session : Gastronoom :=
  set_cool_db (mkDatabase ex_cool_store ex_cool_store [])
    (set_command_list (ex_request "model_c") (set_model_id "model_c" ex_session)).

Example ex_cool_store_sorted :
  fst <$> sorted_items ex_cool_store = ["model_0"; "model_a"; "model_b"].
Proof. by_computation. Qed.

Example ex_cooling_first_match :
  (λ r, (r.1, model_id r.2)) <$>
    returned (checkCoolingDatabase ConfigMatcher py_find py_slice py_replace ∅
                ex_cooling_session)
  = Some (true, "model_a").
Proof. by_computation. Qed.

Lemma checkCoolingDatabase_first_match_witness :
  ∃ s' c',
    checkCoolingDatabase ConfigMatcher py_find py_slice py_replace ∅ ex_cooling_session
      = Ok (true, s') ∧
    db_data (cool_db ex_cooling_session) !! model_id s' = Some c' ∧
    ConfigMatcher (command_list ex_cooling_session) c' Cooling false (Some ∅) = true ∧
    ∀ k' c'', db_data (cool_db ex_cooling_session) !! k' = Some c'' →
      ConfigMatcher (command_list ex_cooling_session) c'' Cooling false (Some ∅) = true →
      String.le (model_id s') k'.
Proof.
  apply (checkCoolingDatabase_first_match ConfigMatcher py_find py_slice py_replace
           ∅ ex_cooling_session "model_b" (ex_request "model_b")); by_computation.
Defined.

(** The same databases in replace mode, with models under the ids of the
    cooling database in the other two databases, and [model_b] among the
    new entries. *)
Definition ex_ml_store : gmap string ml_entry :=
  {[ "model_a" := {[ "model_a" := {[ "12C16O" := molec_dict (ex_molecule "12C16O" "2e-4") ]} ]};
     "model_b" := {[ "model_b" := ∅ ]} ]}.

Definition ex_sph_store : gmap string sph_entry :=
  {[ "model_a" := {[ "model_a" := {[ "model_a" :=
       {[ "12C16O 0 2 0 1" := trans_dict (ex_transition "12C16O 0 2 0 1" 0) ]} ]} ]} ]}.

Definition ex_replace_session : Gastronoom :=
  mkGastronoom "model_c" (ex_request "model_c") true ["model_b"] None true false false
    false false [] [] (GAS_LIST ex_star) (GAS_LINES ex_star)
    (mkDatabase ex_cool_store ex_cool_store [])
    (mkDatabase ex_ml_store ex_ml_store [])
    (mkDatabase ex_sph_store ex_sph_store []) [].

Lemma checkCoolingDatabase_replace_witness :
  ∃ s',
    checkCoolingDatabase ConfigMatcher py_find py_slice py_replace ∅ ex_replace_session
      = Ok (false, s') ∧
    model_id s' = model_id ex_replace_session ∧
    db_data (cool_db s') = delete "model_a" (db_data (cool_db ex_replace_session)) ∧
    db_data (ml_db s') = delete "model_a" (db_data (ml_db ex_replace_session)) ∧
    db_data (sph_db s') = delete "model_a" (db_data (sph_db ex_replace_session)) ∧
    (∀ t, ml_db t = ml_db s' → model_id t = "model_a" →
       ∃ t', checkMlineDatabase ConfigMatcher counter_id "/gout" t
             = Ok (replicate (length (molec_list t)) false, t')) ∧
    (∀ t, sph_db t = sph_db s' → model_id t = "model_a" →
       NoDup (trans_str <$> trans_list t) →
       (∀ trans, trans ∈ trans_list t →
          trans_model_id trans = None ∧ is_Some (molec_list t !! trans_molecule trans)) →
       ∃ t', checkSphinxDatabase ConfigMatcher counter_id "/gout" t = Ok t' ∧
             trans_bools t' = trans_bools t ++ replicate (length (trans_list t)) false).
Proof.
  apply (checkCoolingDatabase_replace ConfigMatcher counter_id "/gout"
           py_find py_slice py_replace ∅ ex_replace_session
           "model_a" (ex_request "model_a")); [by_computation..|].
  intros k' c' Hk' Hc'.
  apply (forallb_map_to_list
           (λ kv, implb (cooling_match ConfigMatcher ∅ ex_replace_session kv)
                        (bool_decide (String.le "model_a" kv.1)))) in Hk';
    [|by_computation].
  simpl in Hk'. rewrite Hc' in Hk'. by apply bool_decide_eq_true in Hk'.
Defined.

Example ex_replace_cascade :
  (λ r, (r.1, dom (db_data (cool_db r.2)), dom (db_data (ml_db r.2)),
         db_data (sph_db r.2))) <$>
    returned (checkCoolingDatabase ConfigMatcher py_find py_slice py_replace ∅
                ex_replace_session)
  = Some (false, {[ "model_0"; "model_b" ]}, {[ "model_b" ]}, ∅).
Proof. by_computation. Qed.

(** ** The mline lookup, run *)

(** The session of the example star after a successful cooling stage, the
    mline database empty. *)
Definition ex_mline_session : Gastronoom :=
  mkGastronoom "model_c" (ex_request "model_c") false [] None true false false
    true false [] [] (GAS_LIST ex_star) (GAS_LINES ex_star)
    (mkDatabase ∅ ∅ []) (mkDatabase ∅ ∅ []) (mkDatabase ∅ ∅ []) [].

Lemma checkMlineDatabase_no_entry_witness :
  ∃ s',
    checkMlineDatabase ConfigMatcher counter_id "/gout" ex_mline_session
      = Ok (replicate (length (molec_list ex_mline_session)) false, s') ∧
    molec_list s'
      = molec_setModelId (model_id ex_mline_session) <$> molec_list ex_mline_session ∧
    (∀ molec, molec ∈ molec_list s' →
       molec_model_id molec = Some (model_id ex_mline_session)) ∧
    db_data (ml_db s')
      = <[model_id ex_mline_session := {[ model_id ex_mline_session := ∅ ]}]>
          (db_data (ml_db ex_mline_session)) ∧
    outside s' = outside ex_mline_session ∧
    model_id s' = model_id ex_mline_session.
Proof.
  apply (checkMlineDatabase_no_entry ConfigMatcher counter_id "/gout" ex_mline_session).
  by_computation.
Defined.

(** The session after the mline stage: both molecules have the mline id
    "model_c". *)
Definition ex_sphinx_session : Gastronoom :=
  set_molec_list (molec_setModelId "model_c" <$> GAS_LIST ex_star) ex_mline_session.

(** C3 fails as stated: the mline check of a cooling id that the database
    does not hold adds the cooling id to the database, and the sphinx check
    of transitions that are not found writes their entries, marked
    IN_PROGRESS, and syncs them to the disk. *)
Lemma lookup_changes_store :
  db_data (ml_db ex_mline_session) !! "model_c" = None ∧
  (λ r, db_data (ml_db r.2) !! "model_c") <$>
    returned (checkMlineDatabase ConfigMatcher counter_id "/gout" ex_mline_session)
  = Some (Some {[ "model_c" := ∅ ]}) ∧
  db_disk (sph_db ex_sphinx_session) = ∅ ∧
  (λ s', db_disk (sph_db s') !! "model_c") <$>
    returned (checkSphinxDatabase ConfigMatcher counter_id "/gout" ex_sphinx_session)
  = Some (Some {[ "model_c" := {[ "model_c" :=
      {[ "12C16O 0 2 0 1" :=
           <["IN_PROGRESS" := VStr "1"]> (trans_dict (ex_transition "12C16O 0 2 0 1" 0));
         "28Si16O 0 3 0 2" :=
           <["IN_PROGRESS" := VStr "1"]> (trans_dict (ex_transition "28Si16O 0 3 0 2" 1))
      ]} ]} ]}).
Proof. by_computation. Qed.

(** A mline database in which CO is saved under the cooling id, so that
    the mline check finds CO and has a place for SiO; and a sphinx database
    that holds both transitions. *)
Definition ex_settled_mline : Gastronoom :=
  set_ml_db (mkDatabase
    {[ "model_c" := {[ "model_c" :=
         {[ "12C16O" := molec_dict (ex_molecule "12C16O" "2e-4") ]} ]} ]} ∅ [])
    ex_mline_session.

Definition ex_settled_sphinx : Gastronoom :=
  set_sph_db (mkDatabase
    {[ "model_c" := {[ "model_c" := {[ "model_c" :=
         {[ "12C16O 0 2 0 1" := trans_dict (ex_transition "12C16O 0 2 0 1" 0);
            "28Si16O 0 3 0 2" := trans_dict (ex_transition "28Si16O 0 3 0 2" 1) ]} ]} ]} ]}
    ∅ [])
    ex_sphinx_session.

Lemma lookup_leaves_store_when_settled_witness :
  (∃ model_bools s',
     checkMlineDatabase ConfigMatcher counter_id "/gout" ex_settled_mline
       = Ok (model_bools, s') ∧
     db_data (ml_db s') = db_data (ml_db ex_settled_mline) ∧
     db_disk (ml_db s') = db_data (ml_db ex_settled_mline) ∧
     outside s' = outside ex_settled_mline) ∧
  (∃ s',
     checkSphinxDatabase ConfigMatcher counter_id "/gout" ex_settled_sphinx = Ok s' ∧
     db_data (sph_db s') = db_data (sph_db ex_settled_sphinx) ∧
     db_disk (sph_db s') = db_data (sph_db ex_settled_sphinx) ∧
     outside s' = outside ex_settled_sphinx).
Proof.
  split.
  - apply (proj1 (lookup_leaves_store_when_settled ConfigMatcher counter_id "/gout"
                    ex_settled_mline)
             {[ "model_c" := {[ "12C16O" := molec_dict (ex_molecule "12C16O" "2e-4") ]} ]});
      by_computation.
  - apply (proj2 (lookup_leaves_store_when_settled ConfigMatcher counter_id "/gout"
                    ex_settled_sphinx)
             {[ "model_c" := {[ "model_c" :=
                  {[ "12C16O 0 2 0 1" := trans_dict (ex_transition "12C16O 0 2 0 1" 0);
                     "28Si16O 0 3 0 2" := trans_dict (ex_transition "28Si16O 0 3 0 2" 1) ]}
               ]} ]});
      by_computation.
Defined.

Example ex_settled_mline_ids :
  (λ r, (r.1, molec_model_id <$> molec_list r.2)) <$>
    returned (checkMlineDatabase ConfigMatcher counter_id "/gout" ex_settled_mline)
  = Some ([true; false], [Some "model_c"; Some "model_c"]).
Proof. by_computation. Qed.

(** ** New mline ids, run *)

(** Under the cooling id the database has one mline id, which holds
    nothing yet (as the check of an earlier session left it), or holds CO
    with another abundance. *)
Definition ex_empty_slot : Gastronoom :=
  set_ml_db (mkDatabase {[ "model_c" := {[ "model_c" := ∅ ]} ]} ∅ []) ex_mline_session.

Definition ex_other_co : Gastronoom :=
  set_ml_db (mkDatabase
    {[ "a_cool" := {[ "a_cool" :=
         {[ "12C16O" := <["ITERA" := VStr "7"]> (molec_dict (ex_molecule "12C16O" "2e-4")) ]}
       ]} ]} ∅ [])
    (set_model_id "a_cool" ex_mline_session).

(** C8 fails as stated: two molecules that both are not found are given
    the mline id that is there and holds neither, and no new id is made; or
    the first gets a new id and the second the mline id that is there, and
    the two do not share. *)
Lemma two_misses_without_shared_new_id :
  (λ r, (r.1, molec_model_id <$> molec_list r.2, new_ids (outside r.2))) <$>
    returned (checkMlineDatabase ConfigMatcher counter_id "/gout" ex_empty_slot)
  = Some ([false; false], [Some "model_c"; Some "model_c"], 0) ∧
  (λ r, (r.1, molec_model_id <$> molec_list r.2, new_ids (outside r.2))) <$>
    returned (checkMlineDatabase ConfigMatcher counter_id "/gout" ex_other_co)
  = Some ([false; false], [Some "model_"; Some "a_cool"], 1).
Proof. by_computation. Qed.

(** Both molecules saved with other parameters under the only mline id:
    both are not found and the mline id is taken for both. *)
Definition ex_both_taken : Gastronoom :=
  set_ml_db (mkDatabase
    {[ "model_c" := {[ "model_c" :=
         {[ "12C16O" := <["ITERA" := VStr "7"]> (molec_dict (ex_molecule "12C16O" "2e-4"));
            "28Si16O" := <["ITERA" := VStr "7"]> (molec_dict (ex_molecule "28Si16O" "1e-5")) ]}
       ]} ]} ∅ [])
    ex_mline_session.

Lemma checkMlineDatabase_new_id_witness :
  ∃ s',
    checkMlineDatabase ConfigMatcher counter_id "/gout" ex_both_taken
      = Ok ([false; false], s') ∧
    molec_model_id <$> molec_list s'
      = [Some (counter_id (outside ex_both_taken));
         Some (counter_id (outside ex_both_taken))] ∧
    new_ids (outside s') = S (new_ids (outside ex_both_taken)).
Proof.
  apply (proj2 (proj2 (checkMlineDatabase_new_id ConfigMatcher counter_id "/gout"))
           ex_both_taken
           {[ "model_c" :=
                {[ "12C16O" := <["ITERA" := VStr "7"]>
                                 (molec_dict (ex_molecule "12C16O" "2e-4"));
                   "28Si16O" := <["ITERA" := VStr "7"]>
                                  (molec_dict (ex_molecule "28Si16O" "1e-5")) ]} ]}
           (ex_molecule "12C16O" "2e-4") (ex_molecule "28Si16O" "1e-5"));
    by_computation.
Defined.

(** ** The cooling stage, run *)

(** A request that the database does not hold, in a world where no run
    leaves a file. *)
Definition ex_failing_session : Gastronoom :=
  set_cool_db (mkDatabase
    {[ "model_0" := <["T_STAR" := VStr "1001"]> (ex_request "model_0") ]}
    {[ "model_0" := <["T_STAR" := VStr "1001"]> (ex_request "model_0") ]} [])
    (set_command_list (ex_request "model_c") (set_model_id "model_c" ex_session)).

Lemma doCooling_failed_witness :
  ∃ s',
    doCooling ConfigMatcher ex_no_file "/gout" py_find py_slice py_replace
      ex_h2o_dict ex_co_dict ex_star ex_failing_session = Ok s' ∧
    (skip_cooling ex_failing_session = false →
     last (outside s')
     = Some (ExecGastronoom "cooling" (inputfile "/gout" (model_id ex_failing_session)))) ∧
    (ex_no_file (outside s') (coolfgr_file "/gout" (model_id ex_failing_session)) = false →
     model_id s' = "" ∧
     db_data (cool_db s') ⊆ db_data (cool_db ex_failing_session) ∧
     db_disk (cool_db s') = db_disk (cool_db ex_failing_session)).
Proof.
  apply (doCooling_failed ConfigMatcher ex_no_file "/gout" py_find py_slice py_replace
           ex_h2o_dict ex_co_dict ex_star ex_failing_session); [by_computation..|].
  intros k c Hk Hc.
  apply (forallb_map_to_list
           (λ kv, negb (cooling_match ConfigMatcher (cooling_molec_dict ex_h2o_dict ex_star)
                          (set_command_list
                             (cooling_command_list ex_h2o_dict ex_star
                                (command_list ex_failing_session))
                             ex_failing_session) kv))) in Hk; [|by_computation].
  rewrite Hc in Hk. destruct (Bool.diff_false_true Hk).
Defined.

Example ex_failed_cooling :
  (λ s', (model_id s', dom (db_data (cool_db s')), dom (db_disk (cool_db s')))) <$>
    returned (doCooling ConfigMatcher ex_no_file "/gout" py_find py_slice py_replace
                ex_h2o_dict ex_co_dict ex_star ex_failing_session)
  = Some ("", {[ "model_0" ]}, {[ "model_0" ]}).
Proof. by_computation. Qed.

(** ** The sphinx output, run *)

(** The first transition under the sphinx id [model_t], its entry marked
    IN_PROGRESS. *)
Definition ex_trans : Transition :=
  trans_setModelId "model_t" (ex_transition "12C16O 0 2 0 1" 0).

Definition ex_sph_models : gmap string config :=
  {[ "12C16O 0 2 0 1" := <["IN_PROGRESS" := VStr "1"]> (trans_dict ex_trans) ]}.

Definition ex_output_session : Gastronoom :=
  set_trans_list [ex_trans; ex_transition "28Si16O 0 3 0 2" 1]
    (set_sph_db (mkDatabase
       {[ "model_c" := {[ "model_c" := {[ "model_t" := ex_sph_models ]} ]} ]} ∅ [])
       ex_sphinx_session).

Definition ex_two_files (history : list event) (pattern : string) : list string :=
  [pattern +:+ "1"; pattern +:+ "2"].

Lemma checkSphinxOutput_by_files_witness :
  ∃ trans' s',
    checkSphinxOutput ex_two_files "/gout" ex_sphinx_filename ex_trans ex_output_session
      = Ok (trans', s') ∧
    outside s' = outside ex_output_session ∧
    if bool_decide (length (ex_two_files (outside ex_output_session)
                      (path_join ["/gout"; "models"; "model_t";
                                  ex_sphinx_filename ex_trans])) = 2)
    then
      trans' = ex_trans ∧
      db_data (sph_db s') =
        <[model_id ex_output_session := <["model_c" := <["model_t" :=
            <[trans_str ex_trans :=
                delete "IN_PROGRESS"
                  (<["IN_PROGRESS" := VStr "1"]> (trans_dict ex_trans))]> ex_sph_models]>
            {[ "model_t" := ex_sph_models ]}]>
            {[ "model_c" := {[ "model_t" := ex_sph_models ]} ]}]>
          (db_data (sph_db ex_output_session))
    else
      trans_model_id trans' = Some "" ∧
      db_data (sph_db s') =
        <[model_id ex_output_session := <["model_c" := <["model_t" :=
            delete (trans_str ex_trans) ex_sph_models]>
            {[ "model_t" := ex_sph_models ]}]>
            {[ "model_c" := {[ "model_t" := ex_sph_models ]} ]}]>
          (db_data (sph_db ex_output_session)).
Proof.
  apply (checkSphinxOutput_by_files ex_two_files "/gout" ex_sphinx_filename
           ex_trans ex_output_session
           (molec_setModelId "model_c" (ex_molecule "12C16O" "2e-4"))
           "model_c" "model_t"
           {[ "model_c" := {[ "model_t" := ex_sph_models ]} ]}
           {[ "model_t" := ex_sph_models ]}
           ex_sph_models
           (<["IN_PROGRESS" := VStr "1"]> (trans_dict ex_trans))); by_computation.
Defined.

Example ex_sphinx_output_kept_or_deleted :
  (λ r, (trans_model_id r.1,
         getitem3 (db_data (sph_db r.2)) "model_c" "model_c" "model_t")) <$>
    returned (checkSphinxOutput ex_two_files "/gout" ex_sphinx_filename
                ex_trans ex_output_session)
  = Some (Some "model_t", Ok {[ "12C16O 0 2 0 1" := trans_dict ex_trans ]}) ∧
  (λ r, (trans_model_id r.1,
         getitem3 (db_data (sph_db r.2)) "model_c" "model_c" "model_t")) <$>
    returned (checkSphinxOutput ex_no_glob "/gout" ex_sphinx_filename
                ex_trans ex_output_session)
  = Some (Some "", Ok ∅).
Proof. by_computation. Qed.

(** ** A transition in progress, run *)

Definition ex_finalize_session : Gastronoom :=
  set_trans_in_progress [0] ex_output_session.



Example ex_finalized_in_progress :
  (λ s', trans_model_id <$> trans_list s') <$> returned (finalizeSphinx ex_finalize_session)
  = Some [Some ""; None].
Proof. by_computation. Qed.




(** ** A mline batch, run *)

(** Three molecules after a cooling model, the mline database empty; the
    run of the second leaves no output. *)
Definition ex_batch : Gastronoom :=
  set_molec_list [ex_molecule "12C16O" "2e-4"; ex_molecule "13C16O" "1e-5";
                  ex_molecule "28Si16O" "1e-5"] ex_mline_session.

Definition ex_batch_glob (history : list event) (pattern : string) : list string :=
  if bool_decide (pattern = mline_files "/gout" "model_c" "13C16O") then []
  else [pattern +:+ "1"; pattern +:+ "2"; pattern +:+ "3"].

Definition ex_batch_ok (molec : Molecule) : bool :=
  negb (bool_decide (molecule molec = "13C16O")).

Definition ex_batch_checked : list bool * Gastronoom :=
  default ([], ex_batch)
    (returned (checkMlineDatabase ConfigMatcher counter_id "/gout"
                 (set_mline_done false ex_batch))).

Example ex_batch_ids :
  (λ s', (model_id s', molec_model_id <$> molec_list s',
          dom <$> (db_data (ml_db s') !! "model_c" ≫= (.!! "model_c")))) <$>
    returned (doMline ConfigMatcher counter_id ex_batch_glob "/gout"
                py_find py_slice py_replace ex_batch)
  = Some ("model_c", [Some "model_c"; Some ""; Some "model_c"],
          Some {[ "12C16O"; "28Si16O" ]}).
Proof. by_computation. Qed.

Lemma doMline_partial_failure_witness :
  ∃ s' e1,
    doMline ConfigMatcher counter_id ex_batch_glob "/gout" py_find py_slice py_replace
      ex_batch = Ok s' ∧
    db_data (ml_db ex_batch_checked.2) !! model_id ex_batch = Some e1 ∧
    length ex_batch_checked.1 = length (molec_list ex_batch_checked.2) ∧
    molec_list s' = zip_with (mline_outcome ex_batch_ok)
                      (molec_list ex_batch_checked.2) ex_batch_checked.1 ∧
    db_data (ml_db s') !! model_id ex_batch
      = Some (foldl (mline_saved ex_batch_ok) e1
                (zip (molec_list ex_batch_checked.2) ex_batch_checked.1)) ∧
    model_id s' = (if only_empty_ids (molec_model_id <$> molec_list s')
                   then "" else model_id ex_batch) ∧
    (Forall (λ molec, molec_model_id molec ≠ Some "") (molec_list ex_batch_checked.2) →
     only_empty_ids (molec_model_id <$> molec_list s') = true →
     Forall2 (λ molec model_bool, model_bool = false ∧ ex_batch_ok molec = false)
       (molec_list ex_batch_checked.2) ex_batch_checked.1) ∧
    (∀ i trans new_trans_id copied t molec,
       molec_list t = molec_list s' →
       molec_list s' !! trans_molecule trans = Some molec →
       molec_model_id molec = Some "" →
       checkSphinx_trans ConfigMatcher counter_id "/gout" i trans new_trans_id copied t
         = Ok (trans_setModelId "" trans, new_trans_id, copied, append_trans_bool false t) ∧
       doSphinx_trans ex_batch_glob "/gout" ex_sphinx_filename py_find py_slice py_replace
         i false (trans_setModelId "" trans) (append_trans_bool false t)
         = Ok (trans_setModelId "" trans, append_trans_bool false t)).
Proof.
  apply (doMline_partial_failure ConfigMatcher counter_id ex_batch_glob "/gout"
           ex_sphinx_filename py_find py_slice py_replace
           ex_batch ex_batch_checked.1 ex_batch_checked.2 ex_batch_ok);
    [by_computation..| |by_computation|].
  - apply Forall_forall. by_computation.
  - assert (molec_list ex_batch_checked.2
            = molec_setModelId "model_c" <$> molec_list ex_batch) as -> by by_computation.
    simpl. repeat (apply Forall_cons_2 || apply Forall_nil_2);
      intros history k [= <-]; vm_compute; done.
Defined.





(** ** The same request, twice *)

(** The session after the cooling stage of a request for CO alone, with CO
    saved in the mline database. *)
Definition ex_settled_co : Gastronoom :=
  set_molec_list [ex_molecule "12C16O" "2e-4"] ex_settled_mline.

Lemma request_twice_same_id_witness :
  (∃ s2,
     doGastronoom ConfigMatcher counter_id every_run_succeeds_isfile "/gout"
       py_find py_slice py_replace ex_h2o_dict ex_co_dict "/gdata" ex_star
       (after ex_first_request ex_session) = Ok s2 ∧
     model_id s2 = model_id (after ex_first_request ex_session) ∧
     cool_db s2 = cool_db (after ex_first_request ex_session) ∧
     outside s2 = outside (after ex_first_request ex_session)
                  ++ [MakeNewId (counter_id (outside (after ex_first_request ex_session)))] ∧
     filter (λ ev, is_exec ev = true) (outside s2)
       = filter (λ ev, is_exec ev = true) (outside (after ex_first_request ex_session))) ∧
  (∃ s',
     doMline ConfigMatcher counter_id ex_no_glob "/gout" py_find py_slice py_replace
       ex_settled_co = Ok s' ∧
     outside s' = outside ex_settled_co ∧
     db_data (ml_db s') = db_data (ml_db ex_settled_co) ∧
     Forall2 (mline_taken ConfigMatcher
                {[ "model_c" := {[ "12C16O" := molec_dict (ex_molecule "12C16O" "2e-4") ]} ]})
       (molec_list ex_settled_co) (molec_list s')).
Proof.
  split.
  - apply (proj1 (request_twice_same_id ConfigMatcher counter_id every_run_succeeds_isfile
                    ex_no_glob "/gout" py_find py_slice py_replace ex_h2o_dict ex_co_dict
                    "/gdata") ex_star ex_session).
    + reflexivity.
    + intros id1 id2 c. apply ConfigMatcher_request.
    + intros id1 id2. apply ConfigMatcher_saved.
    + by_computation.
    + by_computation.
  - apply (proj2 (request_twice_same_id ConfigMatcher counter_id every_run_succeeds_isfile
                    ex_no_glob "/gout" py_find py_slice py_replace ex_h2o_dict ex_co_dict
                    "/gdata") ex_settled_co); [by_computation..|].
    intros molec Hmolec. apply list_elem_of_singleton in Hmolec as ->.
    exists "model_c", {[ "12C16O" := molec_dict (ex_molecule "12C16O" "2e-4") ]},
      (molec_dict (ex_molecule "12C16O" "2e-4")).
    split; [|split]; by_computation.
Defined.

Example ex_settled_co_again :
  (λ s', (molec_model_id <$> molec_list s', runs (outside s'))) <$>
    returned (doMline ConfigMatcher counter_id ex_no_glob "/gout" py_find py_slice py_replace
                ex_settled_co)
  = Some ([Some "model_c"], []).
Proof. by_computation. Qed.

(** * Further runs *)

(** ** The cooling lookup and the cooling stage *)

(** A session in replace mode in which both matching models are listed as
    new entries. *)
Definition ex_protected_session : Gastronoom :=
  set_new_entries ["model_a"; "model_b"] ex_replace_session.

Lemma checkCoolingDatabase_protected_witness :
  ∃ s',
    checkCoolingDatabase ConfigMatcher py_find py_slice py_replace ∅ ex_protected_session
      = Ok (true, s') ∧
    model_id s' = "model_a" ∧
    cool_db s' = cool_db ex_protected_session ∧
    ml_db s' = ml_db ex_protected_session ∧
    sph_db s' = sph_db ex_protected_session ∧
    outside s' = outside ex_protected_session.
Proof.
  apply (checkCoolingDatabase_protected ConfigMatcher py_find py_slice py_replace ∅
           ex_protected_session "model_a" (ex_request "model_a"));
    [by_computation..| |by_computation].
  intros k' c' Hk' Hc'.
  apply (forallb_map_to_list
           (λ kv, implb (cooling_match ConfigMatcher ∅ ex_protected_session kv)
                        (bool_decide (String.le "model_a" kv.1)))) in Hk';
    [|by_computation].
  simpl in Hk'. rewrite Hc' in Hk'. by apply bool_decide_eq_true in Hk'.
Defined.

Lemma checkCoolingDatabase_no_match_witness :
  checkCoolingDatabase ConfigMatcher py_find py_slice py_replace ∅ ex_failing_session
  = Ok (false, ex_failing_session).
Proof.
  apply (checkCoolingDatabase_no_match ConfigMatcher py_find py_slice py_replace ∅
           ex_failing_session).
  intros k c Hk.
  apply (forallb_map_to_list
           (λ kv, negb (cooling_match ConfigMatcher ∅ ex_failing_session kv))) in Hk;
    [|by_computation].
  by apply negb_true_iff in Hk.
Defined.

Lemma doCooling_runs_witness :
  ∃ model_bool s1 s',
    checkCoolingDatabase ConfigMatcher py_find py_slice py_replace
      (cooling_molec_dict ex_h2o_dict ex_star)
      (set_command_list
         (cooling_command_list ex_h2o_dict ex_star (command_list ex_failing_session))
         ex_failing_session)
      = Ok (model_bool, s1) ∧
    doCooling ConfigMatcher every_run_succeeds_isfile "/gout" py_find py_slice py_replace
      ex_h2o_dict ex_co_dict ex_star ex_failing_session = Ok s' ∧
    (model_bool = true → s' = s1) ∧
    runs (outside s')
      = runs (outside ex_failing_session)
        ++ (if model_bool || skip_cooling ex_failing_session then []
            else [ExecGastronoom "cooling" (inputfile "/gout" (model_id ex_failing_session))]) ∧
    cool_done s' = (if model_bool || skip_cooling ex_failing_session
                    then cool_done ex_failing_session else true) ∧
    (model_bool = false →
     ∃ commandfile,
       WriteFile (inputfile "/gout" (model_id ex_failing_session)) commandfile ∈ outside s').
Proof.
  apply (doCooling_runs ConfigMatcher every_run_succeeds_isfile "/gout"
           py_find py_slice py_replace ex_h2o_dict ex_co_dict ex_star ex_failing_session);
    by_computation.
Defined.

Lemma doCooling_saves_witness :
  ∃ s',
    doCooling ConfigMatcher every_run_succeeds_isfile "/gout" py_find py_slice py_replace
      ex_h2o_dict ex_co_dict ex_star ex_failing_session = Ok s' ∧
    (every_run_succeeds_isfile (outside s')
       (coolfgr_file "/gout" (model_id ex_failing_session)) = true →
     model_id s' = model_id ex_failing_session ∧
     db_data (cool_db s')
       = <[model_id ex_failing_session :=
             cooling_command_list ex_h2o_dict ex_star (command_list ex_failing_session)
             ∪ cooling_molec_dict ex_h2o_dict ex_star]>
           (db_data (cool_db ex_failing_session)) ∧
     db_disk (cool_db s') = db_data (cool_db s') ∧
     db_changed (cool_db s') = []).
Proof.
  apply (doCooling_saves ConfigMatcher every_run_succeeds_isfile "/gout"
           py_find py_slice py_replace ex_h2o_dict ex_co_dict ex_star ex_failing_session);
    [by_computation..|].
  intros k c Hk.
  apply (forallb_map_to_list
           (λ kv, negb (ConfigMatcher
                          (cooling_command_list ex_h2o_dict ex_star
                             (command_list ex_failing_session))
                          kv.2 Cooling false
                          (Some (cooling_molec_dict ex_h2o_dict ex_star))))) in Hk;
    [|by_computation].
  by apply negb_true_iff in Hk.
Defined.

Example ex_saved_cooling :
  (λ s', (model_id s', dom (db_data (cool_db s')), dom (db_disk (cool_db s')))) <$>
    returned (doCooling ConfigMatcher every_run_succeeds_isfile "/gout"
                py_find py_slice py_replace ex_h2o_dict ex_co_dict ex_star
                ex_failing_session)
  = Some ("model_c", {[ "model_0"; "model_c" ]}, {[ "model_0"; "model_c" ]}).
Proof. by_computation. Qed.

(** A star whose CO molecule comes with an abundance table. *)
Definition ex_co_table_star : Star :=
  mkStar [mkMolecule "12C16O"
            {[ "MOLECULE" := VStr "12C16O"; "MOLECULE_TABLE" := VStr "12C16O" ]} None]
         [] (star_command_list ex_star).

Lemma doCooling_raises_witness :
  (has_key (co_dict_of ex_co_dict ex_co_table_star) "MOLECULE_TABLE" = true →
   doCooling ConfigMatcher ex_no_file "/gout" py_find py_slice py_replace
     ex_h2o_dict ex_co_dict ex_co_table_star ex_failing_session = Raise IOError) ∧
  (has_key (co_dict_of ex_co_dict ex_co_table_star) "MOLECULE_TABLE" = false →
   has_key (h2o_dict_of ex_h2o_dict ex_co_table_star) "MOLECULE_TABLE" = true →
   command_list ex_failing_session !! "F_H2O" = None →
   doCooling ConfigMatcher ex_no_file "/gout" py_find py_slice py_replace
     ex_h2o_dict ex_co_dict ex_co_table_star ex_failing_session = Raise KeyError) ∧
  (has_key (co_dict_of ex_co_dict ex_co_table_star) "MOLECULE_TABLE" = false →
   (has_key (h2o_dict_of ex_h2o_dict ex_co_table_star) "MOLECULE_TABLE" = true →
    is_Some (command_list ex_failing_session !! "F_H2O")) →
   ∃ model_bool s1,
     checkCoolingDatabase ConfigMatcher py_find py_slice py_replace
       (cooling_molec_dict ex_h2o_dict ex_co_table_star)
       (set_command_list
          (cooling_command_list ex_h2o_dict ex_co_table_star
             (command_list ex_failing_session))
          ex_failing_session)
       = Ok (model_bool, s1) ∧
     if model_bool
        || bool_decide (is_Some (co_dict_of ex_co_dict ex_co_table_star !! "MOLECULE"))
     then ∃ s', doCooling ConfigMatcher ex_no_file "/gout" py_find py_slice py_replace
                  ex_h2o_dict ex_co_dict ex_co_table_star ex_failing_session = Ok s'
     else doCooling ConfigMatcher ex_no_file "/gout" py_find py_slice py_replace
            ex_h2o_dict ex_co_dict ex_co_table_star ex_failing_session = Raise KeyError).
Proof.
  apply (doCooling_raises ConfigMatcher ex_no_file "/gout" py_find py_slice py_replace
           ex_h2o_dict ex_co_dict ex_co_table_star ex_failing_session).
  by_computation.
Defined.

Example ex_co_table_raises :
  doCooling ConfigMatcher ex_no_file "/gout" py_find py_slice py_replace
    ex_h2o_dict ex_co_dict ex_co_table_star ex_failing_session = Raise IOError.
Proof. by_computation. Qed.

(** ** A request made again in replace mode *)

(** A session right after [__init__] in replace mode, with empty
    databases. *)
Definition ex_replacing_session : Gastronoom :=
  mkGastronoom "" ∅ true [] None true false false false false [] [] [] []
    (mkDatabase ∅ ∅ []) (mkDatabase ∅ ∅ []) (mkDatabase ∅ ∅ []) [].

Definition ex_replacing_request : result Gastronoom :=
  doGastronoom ConfigMatcher counter_id every_run_succeeds_isfile "/gout"
    py_find py_slice py_replace ex_h2o_dict ex_co_dict "/gdata" ex_star ex_replacing_session.


Example ex_replacing_twice :
  (λ s', (model_id s', new_entries s', dom (db_data (cool_db s')), length (runs (outside s'))))
    <$> returned (doGastronoom ConfigMatcher counter_id every_run_succeeds_isfile "/gout"
                    py_find py_slice py_replace ex_h2o_dict ex_co_dict "/gdata" ex_star
                    (after ex_replacing_request ex_replacing_session))
  = Some ("model_", ["model_"], {[ "model_" ]}, 1).
Proof. by_computation. Qed.

(** ** The flags of the mline lookup, run *)

Lemma checkMlineDatabase_flags_witness :
  ∃ s',
    checkMlineDatabase ConfigMatcher counter_id "/gout" ex_settled_mline
      = Ok (mline_found ConfigMatcher
              {[ "model_c" := {[ "12C16O" := molec_dict (ex_molecule "12C16O" "2e-4") ]} ]}
              <$> molec_list ex_settled_mline, s') ∧
    Forall2 (λ m m', molecule m' = molecule m ∧ molec_dict m' = molec_dict m ∧
                     is_Some (molec_model_id m'))
      (molec_list ex_settled_mline) (molec_list s').
Proof.
  apply (checkMlineDatabase_flags ConfigMatcher counter_id "/gout" ex_settled_mline
           {[ "model_c" := {[ "12C16O" := molec_dict (ex_molecule "12C16O" "2e-4") ]} ]}).
  - by_computation.
  - intros v Hv. exfalso. revert Hv. apply eq_None_ne_Some. by_computation.
  - by_computation.
  - apply Forall_forall. by_computation.
Defined.

(** The molecules of a second request in the session: SiO comes with the
    model id of the first request, and the database has nothing for it. *)
Definition ex_second_request : Gastronoom :=
  set_molec_list [molec_setModelId "model_b" (ex_molecule "28Si16O" "1e-5");
                  ex_molecule "12C16O" "2e-4"] ex_settled_mline.

Lemma checkMlineDatabase_flags_short_witness :
  ∃ s',
    checkMlineDatabase ConfigMatcher counter_id "/gout" ex_second_request
      = Ok (mline_found ConfigMatcher
              {[ "model_c" := {[ "12C16O" := molec_dict (ex_molecule "12C16O" "2e-4") ]} ]}
              <$> filter
                    (λ m, mline_flagged ConfigMatcher
                            {[ "model_c" :=
                                 {[ "12C16O" := molec_dict (ex_molecule "12C16O" "2e-4") ]} ]}
                            m = true)
                    (molec_list ex_second_request), s') ∧
    Forall2 (λ m m',
               if mline_flagged ConfigMatcher
                    {[ "model_c" :=
                         {[ "12C16O" := molec_dict (ex_molecule "12C16O" "2e-4") ]} ]} m
               then is_Some (molec_model_id m') else m' = m)
      (molec_list ex_second_request) (molec_list s') ∧
    ((∃ molec, molec ∈ molec_list ex_second_request ∧ is_Some (molec_model_id molec) ∧
               mline_found ConfigMatcher
                 {[ "model_c" := {[ "12C16O" := molec_dict (ex_molecule "12C16O" "2e-4") ]} ]}
                 molec = false) →
     (length (mline_found ConfigMatcher
                {[ "model_c" := {[ "12C16O" := molec_dict (ex_molecule "12C16O" "2e-4") ]} ]}
                <$> filter
                      (λ m, mline_flagged ConfigMatcher
                              {[ "model_c" :=
                                   {[ "12C16O" := molec_dict (ex_molecule "12C16O" "2e-4") ]} ]}
                              m = true)
                      (molec_list ex_second_request))
      < length (molec_list s'))%nat).
Proof.
  apply (checkMlineDatabase_flags_short ConfigMatcher counter_id "/gout" ex_second_request
           {[ "model_c" := {[ "12C16O" := molec_dict (ex_molecule "12C16O" "2e-4") ]} ]}).
  - by_computation.
  - intros v Hv. exfalso. revert Hv. apply eq_None_ne_Some. by_computation.
  - by_computation.
Defined.

Example ex_second_request_flags :
  (λ r, (r.1, molec_model_id <$> molec_list r.2)) <$>
    returned (checkMlineDatabase ConfigMatcher counter_id "/gout" ex_second_request)
  = Some ([true], [Some "model_b"; Some "model_c"]).
Proof. by_computation. Qed.

(** ** [doMline], run *)

Definition ex_batch_done : Gastronoom :=
  after (doMline ConfigMatcher counter_id ex_batch_glob "/gout" py_find py_slice py_replace
           ex_batch) ex_batch.

Lemma doMline_consumes_keys_witness :
  command_list ex_batch_done !! "R_OUTER" = None ∧
  command_list ex_batch_done !! "OUTER_R_MODE" = None ∧
  doMline ConfigMatcher counter_id ex_batch_glob "/gout" py_find py_slice py_replace
    ex_batch_done = Raise KeyError.
Proof.
  apply (proj2 (doMline_consumes_keys ConfigMatcher counter_id ex_batch_glob "/gout"
                  py_find py_slice py_replace ex_batch)).
  by_computation.
Defined.

Lemma doMline_runs_witness :
  ∃ model_bools s1 s',
    checkMlineDatabase ConfigMatcher counter_id "/gout" (set_mline_done false ex_batch)
      = Ok (model_bools, s1) ∧
    doMline ConfigMatcher counter_id ex_batch_glob "/gout" py_find py_slice py_replace
      ex_batch = Ok s' ∧
    runs (outside s')
      = runs (outside ex_batch) ++ mline_runs "/gout" (zip (molec_list s1) model_bools) ∧
    mline_done s' = existsb negb model_bools.
Proof.
  apply (doMline_runs ConfigMatcher counter_id ex_batch_glob "/gout"
           py_find py_slice py_replace ex_batch).
  - apply Forall_forall. by_computation.
  - by_computation.
  - by_computation.
  - by_computation.
Defined.

Example ex_batch_runs :
  runs (outside ex_batch_done)
  = [ExecGastronoom "mline" "/gout/models/gastronoom_model_c.inp";
     ExecGastronoom "mline" "/gout/models/gastronoom_model_c.inp";
     ExecGastronoom "mline" "/gout/models/gastronoom_model_c.inp"].
Proof. by_computation. Qed.

(** ** The sphinx stage, run *)

Lemma checkSphinxDatabase_reserves_witness :
  ∃ s' e' flags,
    checkSphinxDatabase ConfigMatcher counter_id "/gout" ex_sphinx_session = Ok s' ∧
    (sphinx s' = sphinx ex_sphinx_session ∧
     recover_sphinxfiles s' = recover_sphinxfiles ex_sphinx_session ∧
     (Forall (λ b, b = false) flags →
      trans_in_progress s' = trans_in_progress ex_sphinx_session ∧
      vic s' = vic ex_sphinx_session)) ∧
    model_id s' = model_id ex_sphinx_session ∧
    molec_list s' = molec_list ex_sphinx_session ∧
    runs (outside s') = runs (outside ex_sphinx_session) ∧
    trans_bools s' = trans_bools ex_sphinx_session ++ flags ∧
    db_data (sph_db s') !! model_id ex_sphinx_session = Some e' ∧
    db_disk (sph_db s') = db_data (sph_db s') ∧
    Forall3 (sphinx_outcome ConfigMatcher (molec_list ex_sphinx_session) e')
      (trans_list ex_sphinx_session) (trans_list s') flags.
Proof.
  apply (checkSphinxDatabase_reserves ConfigMatcher counter_id "/gout" ex_sphinx_session).
  - by_computation.
  - apply Forall_forall. by_computation.
Defined.

(** The session after the mline stage when sphinx is not to be run. *)
Definition ex_sphinx_off : Gastronoom :=
  mkGastronoom "model_c" (ex_request "model_c") false [] None false false false
    true false [] [] (molec_setModelId "model_c" <$> GAS_LIST ex_star) (GAS_LINES ex_star)
    (mkDatabase ∅ ∅ []) (mkDatabase ∅ ∅ []) (mkDatabase ∅ ∅ []) [].

Lemma doSphinx_without_sphinx_witness :
  ∃ s1 s' e',
    checkSphinxDatabase ConfigMatcher counter_id "/gout" ex_sphinx_off = Ok s1 ∧
    doSphinx ConfigMatcher counter_id ex_no_glob "/gout" ex_sphinx_filename
      py_find py_slice py_replace ex_sphinx_off = Ok s' ∧
    runs (outside s') = runs (outside ex_sphinx_off) ∧
    Forall (λ trans', trans_model_id trans' = Some "") (trans_list s') ∧
    length (trans_list s') = length (trans_list ex_sphinx_off) ∧
    model_id s' = (if bool_decide (trans_list ex_sphinx_off = [])
                   then model_id ex_sphinx_off else "") ∧
    db_data (sph_db s') !! model_id ex_sphinx_off = Some e' ∧
    db_disk (sph_db s') = db_data (sph_db s') ∧
    Forall (sphinx_released (molec_list ex_sphinx_off) e') (trans_list s1).
Proof.
  apply (doSphinx_without_sphinx ConfigMatcher counter_id ex_no_glob "/gout"
           ex_sphinx_filename py_find py_slice py_replace ex_sphinx_off).
  - by_computation.
  - by_computation.
  - by_computation.
  - by_computation.
  - by_computation.
  - apply Forall_forall. by_computation.
Defined.

Example ex_sphinx_off_done :
  (λ s', (model_id s', trans_model_id <$> trans_list s', db_data (sph_db s'),
          db_disk (sph_db s'))) <$>
    returned (doSphinx ConfigMatcher counter_id ex_no_glob "/gout" ex_sphinx_filename
                py_find py_slice py_replace ex_sphinx_off)
  = Some ("", [Some ""; Some ""],
          {[ "model_c" := {[ "model_c" := {[ "model_c" := ∅ ]} ]} ]},
          {[ "model_c" := {[ "model_c" := {[ "model_c" := ∅ ]} ]} ]}).
Proof. by_computation. Qed.

Definition ex_sphinx_done : Gastronoom :=
  after (doSphinx ConfigMatcher counter_id ex_two_files "/gout" ex_sphinx_filename
           py_find py_slice py_replace ex_sphinx_session) ex_sphinx_session.

Lemma doSphinx_runs_witness :
  ∃ s1,
    checkSphinxDatabase ConfigMatcher counter_id "/gout" ex_sphinx_session = Ok s1 ∧
    runs (outside ex_sphinx_done)
      = runs (outside ex_sphinx_session)
        ++ (if runs_sphinx_here ex_sphinx_session
            then sphinx_runs "/gout" (zip (trans_bools s1) (trans_list s1)) else []).
Proof.
  apply (doSphinx_runs ConfigMatcher counter_id ex_two_files "/gout" ex_sphinx_filename
           py_find py_slice py_replace ex_sphinx_session ex_sphinx_done).
  by_computation.
Defined.

Example ex_sphinx_runs :
  runs (outside ex_sphinx_done)
  = [ExecGastronoom "sphinx" "/gout/models/gastronoom_model_c.inp";
     ExecGastronoom "sphinx" "/gout/models/gastronoom_model_c.inp"]
  ∧ runs (outside (after (doSphinx ConfigMatcher counter_id ex_two_files "/gout"
                            ex_sphinx_filename py_find py_slice py_replace
                            (set_vic (Some []) ex_sphinx_session)) ex_sphinx_session))
    = [].
Proof. by_computation. Qed.

(** ** What is saved is found, run *)

(** SiO, run under the cooling id of the session with CO already saved, is
    saved beside CO and found by the next lookup. *)
Lemma mline_saved_is_found_witness :
  ∃ s' k',
    doMline_molec ex_batch_glob "/gout" py_find py_slice py_replace
      (molec_setModelId "model_c" (ex_molecule "28Si16O" "1e-5")) false ex_settled_mline
      = Ok (molec_setModelId "model_c" (ex_molecule "28Si16O" "1e-5"), s') ∧
    db_data (ml_db s') !! model_id s'
      = Some (<["model_c" :=
                 <[molecule (molec_setModelId "model_c" (ex_molecule "28Si16O" "1e-5")) :=
                     molec_dict (molec_setModelId "model_c" (ex_molecule "28Si16O" "1e-5"))]>
                   {[ "12C16O" := molec_dict (ex_molecule "12C16O" "2e-4") ]}]>
                {[ "model_c" := {[ "12C16O" := molec_dict (ex_molecule "12C16O" "2e-4") ]} ]}) ∧
    db_disk (ml_db s') = db_data (ml_db s') ∧
    checkMline_molec ConfigMatcher counter_id "/gout" (ex_molecule "28Si16O" "1e-5")
      [] "" s'
      = Ok (molec_setModelId k' (ex_molecule "28Si16O" "1e-5"), [] ++ [true], "", s') ∧
    String.le k' "model_c".
Proof.
  apply (mline_saved_is_found ConfigMatcher counter_id ex_batch_glob "/gout"
           py_find py_slice py_replace
           (molec_setModelId "model_c" (ex_molecule "28Si16O" "1e-5"))
           (ex_molecule "28Si16O" "1e-5") [] "" ex_settled_mline
           {[ "model_c" := {[ "12C16O" := molec_dict (ex_molecule "12C16O" "2e-4") ]} ]}
           "model_c" {[ "12C16O" := molec_dict (ex_molecule "12C16O" "2e-4") ]});
    [by_computation..| |by_computation|by_computation|by_computation].
  intros history. by_computation.
Defined.

Example ex_saved_then_found :
  (λ r, (molec_model_id r.1.1.1, r.1.1.2)) <$>
    returned (checkMline_molec ConfigMatcher counter_id "/gout"
                (ex_molecule "28Si16O" "1e-5") [] ""
                (default ex_settled_mline
                   (snd <$> returned
                      (doMline_molec ex_batch_glob "/gout" py_find py_slice py_replace
                         (molec_setModelId "model_c" (ex_molecule "28Si16O" "1e-5")) false
                         ex_settled_mline))))
  = Some (Some "model_c", [true]).
Proof. by_computation. Qed.

(** The first transition, its two output files on the disk, is kept by the
    output check and found by the next lookup under its own id. *)
Lemma sphinx_kept_is_found_witness :
  ∃ s' s'' k',
    checkSphinxOutput ex_two_files "/gout" ex_sphinx_filename ex_trans ex_output_session
      = Ok (ex_trans, s') ∧
    checkSphinx_trans ConfigMatcher counter_id "/gout" 0
      (ex_transition "12C16O 0 2 0 1" 0) "" [] s'
      = Ok (trans_setModelId k' (ex_transition "12C16O 0 2 0 1" 0), "", [], s'') ∧
    trans_bools s'' = trans_bools s' ++ [true] ∧
    String.le k' "model_t" ∧
    ((∀ k models' d',
        k ≠ "model_t" →
        ({[ "model_t" := ex_sph_models ]} : sph_molec_entry) !! k = Some models' →
        models' !! trans_str ex_trans = Some d' →
        sphinx_match ConfigMatcher ex_trans (k, d') = false) →
     k' = "model_t" ∧ trans_in_progress s'' = trans_in_progress s' ∧ vic s'' = vic s').
Proof.
  apply (sphinx_kept_is_found ConfigMatcher counter_id ex_two_files "/gout"
           ex_sphinx_filename 0 ex_trans (ex_transition "12C16O 0 2 0 1" 0) "" []
           ex_output_session
           (molec_setModelId "model_c" (ex_molecule "12C16O" "2e-4"))
           "model_c" "model_t"
           {[ "model_c" := {[ "model_t" := ex_sph_models ]} ]}
           {[ "model_t" := ex_sph_models ]}
           ex_sph_models
           (<["IN_PROGRESS" := VStr "1"]> (trans_dict ex_trans))); by_computation.
Defined.

(** ** The entries that name the model, run *)

Lemma updateModel_names_only_witness :
  ∃ cl,
    updateModel py_find py_slice py_replace (Some "model_n") ex_mline_session
      = Ok (set_command_list cl ex_mline_session) ∧
    has_model_keys cl = true ∧
    ∀ k, k ∉ run_identity_keys → cl !! k = command_list ex_mline_session !! k.
Proof.
  apply (proj1 (updateModel_names_only py_find py_slice py_replace (Some "model_n")
                  ex_mline_session)).
  by_computation.
Defined.

(** * Linking the output of an earlier model *)

(** ** The file names that [copyOutput] links *)

Import Stdlib.Strings.Ascii.

(** What follows the last [c] in [s], if [c] occurs: the second half of
    [os.path.split] for [c = "/"], and [s.split(c)[-1]]. *)
Fixpoint after_last (c : Ascii.ascii) (s : string) : option string :=
  match s with
  | EmptyString => None
  | String a s' =>
      match after_last c s' with
      | Some t => Some t
      | None => if Ascii.eqb a c then Some s' else None
      end
  end.

(** [os.path.split(p)[1]] *)
Definition py_basename (p : string) : string := default p (after_last "/"%char p).

(** [s.split('_')[-1]] *)
Definition py_last_field (s : string) : string := default s (after_last "_"%char s).

(** [s.replace(old,new)], every occurrence. *)
Definition py_replace_all (s old new : string) : string :=
  py_replace s old new (S (String.length s)).

(** [line[0:n] == p] *)
Definition starts (n : Z) (p line : string) : bool := bool_decide (py_slice line 0 n = p).

(** [line.split('_')[-1].replace('.dat','')]: the molecule that a file of
    mline or of the cooling of one molecule is named after. *)
Definition file_molecule (line : string) : string :=
  py_replace_all (py_last_field line) ".dat" "".

(** The names [lsfile] that [copyOutput] selects from the listing of the
    old folder, for a molecule, or for a transition of the molecule
    [entry_molecule]. *)
Definition copyOutput_lsfile (entry_is_molecule : bool) (entry_molecule : string)
    (ls_old : list string) : list string :=
  let lsfile :=
    py_basename <$>
      filter (λ line, ((starts 2 "ml" line || starts 4 "cool" line) && negb entry_is_molecule)
                      || starts 7 "coolfgr" line
                      || starts 4 "para" line
                      || starts 5 "input" line = true) ls_old in
  if entry_is_molecule then lsfile
  else
    let lsfile :=
      filter (λ line, negb (starts 2 "ml" line
                            && negb (bool_decide (file_molecule line = entry_molecule)))
                      = true) lsfile in
    filter (λ line, negb (starts 4 "cool" line
                          && (negb (bool_decide (file_molecule line = entry_molecule))
                              || bool_decide (file_molecule line = "sampling")
                              || starts 7 "coolfgr" line))
                    = true) lsfile.

(** The pairs of names, in the old folder and in the new one, for which
    [copyOutput] calls [ln -s]; [ls_old] and [ls_new] are the listings of
    the two folders.  Whether the shell then makes the link is not part of
    the session: the names are pasted into the command as they are. *)
Definition copyOutput_links (entry_is_molecule : bool) (entry_molecule old_id new_id : string)
    (ls_old ls_new : list string) : list (string * string) :=
  let lsfile := copyOutput_lsfile entry_is_molecule entry_molecule ls_old in
  let new_lsfile := (λ line, py_replace_all line old_id new_id) <$> lsfile in
  filter (λ p, p.2 ∉ ls_new) (zip lsfile new_lsfile).

(** [os.path.join(a, b)] *)
Definition os_path_join (a b : string) : string :=
  if starts 1 "/" b then b
  else if bool_decide (a = "")
          || bool_decide (py_slice a (-1) (Z.of_nat (String.length a)) = "/")
       then a +:+ b
       else a +:+ "/" +:+ b.

(** The commands that [copyOutput] hands to the shell, in the order of the
    calls. *)
Definition copyOutput_calls (gout : string) (entry_is_molecule : bool)
    (entry_molecule old_id new_id : string) (ls_old ls_new : list string) : list string :=
  let folder_old := os_path_join (os_path_join gout "models") old_id in
  let folder_new := os_path_join (os_path_join gout "models") new_id in
  (λ p, "ln -s " +:+ os_path_join folder_old p.1 +:+ " " +:+ os_path_join folder_new p.2) <$>
    copyOutput_links entry_is_molecule entry_molecule old_id new_id ls_old ls_new.

Lemma zip_fmap_same {A B} (f : A → B) (l : list A) :
  zip l (f <$> l) = (λ x, (x, f x)) <$> l.
Proof. induction l as [|x l IH]; csimpl; [done|by f_equal]. Qed.

Lemma copyOutput_links_elem b m old_id new_id ls_old ls_new ls nls :
  (ls, nls) ∈ copyOutput_links b m old_id new_id ls_old ls_new ↔
  ls ∈ copyOutput_lsfile b m ls_old ∧ nls = py_replace_all ls old_id new_id ∧ nls ∉ ls_new.
Proof.
  unfold copyOutput_links. rewrite zip_fmap_same, list_elem_of_filter, list_elem_of_fmap.
  simpl. split.
  - intros (Hnew & x & [= -> ->] & Hx). done.
  - intros (Hls & -> & Hnew). split; [done|]. by exists ls.
Qed.

Lemma substring_0_min (s : string) (n : nat) :
  String.substring 0 (Nat.min (String.length s) n) s = String.substring 0 n s.
Proof.
  revert n. induction s as [|a s IH]; intros [|n]; simpl; try done.
  by rewrite IH.
Qed.

Lemma py_slice_prefix (s : string) (n : nat) :
  py_slice s 0 (Z.of_nat n) = String.substring 0 n s.
Proof.
  unfold py_slice.
  assert ((0 <? 0)%Z = false) as -> by done.
  assert ((Z.of_nat n <? 0)%Z = false) as -> by (apply Z.ltb_ge; lia).
  replace (Z.to_nat (Z.max 0 (Z.min (Z.of_nat (String.length s)) 0))) with 0 by lia.
  replace (Z.to_nat (Z.max 0 (Z.min (Z.of_nat (String.length s)) (Z.of_nat n))
                     - Z.max 0 (Z.min (Z.of_nat (String.length s)) 0)))
    with (Nat.min (String.length s) n) by lia.
  apply substring_0_min.
Qed.

Lemma starts_para_not_ml_cool line :
  starts 4 "para" line = true → starts 2 "ml" line = false ∧ starts 4 "cool" line = false.
Proof.
  unfold starts. intros H%bool_decide_eq_true.
  split; apply bool_decide_eq_false; intros H'; [|congruence].
  change 4%Z with (Z.of_nat 4) in H. change 2%Z with (Z.of_nat 2) in H'.
  rewrite py_slice_prefix in H, H'.
  destruct line as [|a [|b [|c [|d line]]]]; simpl in *; congruence.
Qed.

Lemma starts_input_not_ml_cool line :
  starts 5 "input" line = true → starts 2 "ml" line = false ∧ starts 4 "cool" line = false.
Proof.
  unfold starts. intros H%bool_decide_eq_true.
  split; apply bool_decide_eq_false; intros H'.
  - change 5%Z with (Z.of_nat 5) in H. change 2%Z with (Z.of_nat 2) in H'.
    rewrite py_slice_prefix in H, H'.
    destruct line as [|a [|b [|c [|d [|e line]]]]]; simpl in *; congruence.
  - change 5%Z with (Z.of_nat 5) in H. change 4%Z with (Z.of_nat 4) in H'.
    rewrite py_slice_prefix in H, H'.
    destruct line as [|a [|b [|c [|d [|e line]]]]]; simpl in *; congruence.
Qed.

(** X17: every link that [copyOutput] makes is of a file listed in the old
    folder, under the name with the old id replaced by the new one, and
    never onto a name that the new folder already lists.  For a molecule,
    only files that start with coolfgr, para or input are linked.  For a
    transition, no file that starts with coolfgr is linked, and a file that
    starts with ml or cool only if it is named after the molecule of the
    transition. *)
Theorem copyOutput_links_selected entry_is_molecule entry_molecule old_id new_id
    ls_old ls_new ls nls :
  (ls, nls) ∈ copyOutput_links entry_is_molecule entry_molecule old_id new_id ls_old ls_new →
  nls = py_replace_all ls old_id new_id ∧ (nls ∉ ls_new) ∧
  ∃ line, line ∈ ls_old ∧ ls = py_basename line ∧
    if entry_is_molecule
    then starts 7 "coolfgr" line = true ∨ starts 4 "para" line = true
         ∨ starts 5 "input" line = true
    else starts 7 "coolfgr" ls = false ∧
         (starts 2 "ml" ls = true ∨ starts 4 "cool" ls = true →
          file_molecule ls = entry_molecule).
Proof.
  rewrite copyOutput_links_elem. intros (Hls & -> & Hnew).
  split; [done|]. split; [done|].
  unfold copyOutput_lsfile in Hls. destruct entry_is_molecule.
  - apply list_elem_of_fmap in Hls as (line & -> & Hline).
    apply list_elem_of_filter in Hline as [Hkeep Hline].
    exists line. split; [done|]. split; [done|].
    rewrite andb_false_r in Hkeep. simpl in Hkeep.
    apply orb_true_iff in Hkeep as [Hkeep|Hkeep]; [|by auto].
    apply orb_true_iff in Hkeep as [Hkeep|Hkeep]; by auto.
  - apply list_elem_of_filter in Hls as [Hcool Hls].
    apply list_elem_of_filter in Hls as [Hml Hls].
    apply list_elem_of_fmap in Hls as (line & -> & Hline).
    apply list_elem_of_filter in Hline as [_ Hline].
    exists line. split; [done|]. split; [done|].
    apply negb_true_iff in Hcool, Hml.
    split.
    + destruct (starts 7 "coolfgr" (py_basename line)) eqn:Hfgr; [|done].
      assert (starts 4 "cool" (py_basename line) = true) as Hc.
      { unfold starts in *. apply bool_decide_eq_true in Hfgr.
        apply bool_decide_eq_true.
        change 7%Z with (Z.of_nat 7) in Hfgr. change 4%Z with (Z.of_nat 4).
        rewrite py_slice_prefix in Hfgr. rewrite py_slice_prefix.
        destruct (py_basename line) as [|a [|b [|c [|d [|e [|f [|g l]]]]]]];
          simpl in *; congruence. }
      rewrite Hc, orb_true_r in Hcool. done.
    + intros [Hm|Hc].
      * rewrite Hm in Hml. simpl in Hml. apply negb_false_iff in Hml.
        by apply bool_decide_eq_true in Hml.
      * rewrite Hc in Hcool. simpl in Hcool.
        apply orb_false_iff in Hcool as [Hcool _].
        apply orb_false_iff in Hcool as [Hcool _].
        apply negb_false_iff in Hcool. by apply bool_decide_eq_true in Hcool.
Qed.

(** X18: [copyOutput] always calls [ln -s] for the parameter and input files
    of the old folder, for a molecule and for a transition alike: for a
    listed file without a folder part that starts with para or input, the
    shell is handed the command that links the file in the old folder to
    its new name in the new folder, unless the new folder already lists
    that name. *)
Theorem copyOutput_calls_input gout entry_is_molecule entry_molecule old_id new_id
    ls_old ls_new line :
  line ∈ ls_old →
  after_last "/"%char line = None →
  starts 4 "para" line = true ∨ starts 5 "input" line = true →
  py_replace_all line old_id new_id ∉ ls_new →
  "ln -s " +:+ os_path_join (os_path_join (os_path_join gout "models") old_id) line
    +:+ " " +:+ os_path_join (os_path_join (os_path_join gout "models") new_id)
                  (py_replace_all line old_id new_id)
    ∈ copyOutput_calls gout entry_is_molecule entry_molecule old_id new_id ls_old ls_new.
Proof.
  intros Hline Hbare Hstart Hnew. unfold copyOutput_calls.
  apply list_elem_of_fmap. exists (line, py_replace_all line old_id new_id).
  split; [done|]. apply copyOutput_links_elem.
  split; [|done].
  assert (py_basename line = line) as Hbase by (unfold py_basename; by rewrite Hbare).
  assert (starts 2 "ml" line = false ∧ starts 4 "cool" line = false) as [Hml Hcool].
  { destruct Hstart; [by apply starts_para_not_ml_cool|by apply starts_input_not_ml_cool]. }
  assert (line ∈ py_basename <$>
            filter (λ line, ((starts 2 "ml" line || starts 4 "cool" line)
                             && negb entry_is_molecule)
                            || starts 7 "coolfgr" line
                            || starts 4 "para" line
                            || starts 5 "input" line = true) ls_old) as Hfirst.
  { apply list_elem_of_fmap. exists line. split; [done|].
    apply list_elem_of_filter. split; [|done].
    destruct Hstart as [-> | ->]; by rewrite ?orb_true_r. }
  unfold copyOutput_lsfile. destruct entry_is_molecule; [done|].
  apply list_elem_of_filter. split; [by rewrite Hcool|].
  apply list_elem_of_filter. split; [by rewrite Hml|]. done.
Qed.

(** X19: once the links are there, copying again makes none: with every name
    that was linked in the listing of the new folder, beside what it listed
    before, [copyOutput] finds all its names already done. *)
Theorem copyOutput_links_again entry_is_molecule entry_molecule old_id new_id
    ls_old ls_new ls_new' :
  (∀ nls, nls ∈ ls_new → nls ∈ ls_new') →
  (∀ p, p ∈ copyOutput_links entry_is_molecule entry_molecule old_id new_id ls_old ls_new →
        p.2 ∈ ls_new') →
  copyOutput_links entry_is_molecule entry_molecule old_id new_id ls_old ls_new' = [].
Proof.
  intros Hold Hlinked.
  destruct (copyOutput_links entry_is_molecule entry_molecule old_id new_id ls_old ls_new')
    as [|[ls nls] rest] eqn:Hagain; [done|].
  assert ((ls, nls) ∈ copyOutput_links entry_is_molecule entry_molecule old_id new_id
                        ls_old ls_new') as Hin by (rewrite Hagain; left).
  apply copyOutput_links_elem in Hin as (Hls & Hnls & Hnew).
  destruct (decide (nls ∈ ls_new)) as [Hdone|Hfresh].
  - destruct Hnew. by apply Hold.
  - destruct Hnew. apply (Hlinked (ls, nls)). by apply copyOutput_links_elem.
Qed.

(** ** Linking the output, run *)

(** The listing of the folder of the model [model_a], as [ls] prints it
    and [split] cuts it: the last line is empty. *)
Definition ex_ls_old : list string :=
  ["cool1model_a_12C16O.dat"; "cool1model_a_28Si16O.dat"; "coolfgr_allmodel_a.dat";
   "coolmodel_a_sampling.dat"; "input_model_a.dat"; "ml1model_a_12C16O.dat";
   "ml1model_a_28Si16O.dat"; "parameters_model_a.dat"; "sph1model_a.dat"; ""].

Example ex_links :
  copyOutput_links true "12C16O" "model_a" "model_m" ex_ls_old []
  = [("coolfgr_allmodel_a.dat", "coolfgr_allmodel_m.dat");
     ("input_model_a.dat", "input_model_m.dat");
     ("parameters_model_a.dat", "parameters_model_m.dat")]
  ∧ copyOutput_links false "12C16O" "model_a" "model_t" ex_ls_old ["input_model_t.dat"]
  = [("cool1model_a_12C16O.dat", "cool1model_t_12C16O.dat");
     ("ml1model_a_12C16O.dat", "ml1model_t_12C16O.dat");
     ("parameters_model_a.dat", "parameters_model_t.dat")].
Proof. by_computation. Qed.

Lemma copyOutput_links_selected_witness :
  "ml1model_t_12C16O.dat" = py_replace_all "ml1model_a_12C16O.dat" "model_a" "model_t" ∧
  ("ml1model_t_12C16O.dat" ∉ ["input_model_t.dat"]) ∧
  ∃ line, line ∈ ex_ls_old ∧ "ml1model_a_12C16O.dat" = py_basename line ∧
    starts 7 "coolfgr" "ml1model_a_12C16O.dat" = false ∧
    (starts 2 "ml" "ml1model_a_12C16O.dat" = true
     ∨ starts 4 "cool" "ml1model_a_12C16O.dat" = true →
     file_molecule "ml1model_a_12C16O.dat" = "12C16O").
Proof.
  apply (copyOutput_links_selected false "12C16O" "model_a" "model_t" ex_ls_old
           ["input_model_t.dat"] "ml1model_a_12C16O.dat" "ml1model_t_12C16O.dat").
  by_computation.
Defined.

Lemma copyOutput_calls_input_witness :
  "ln -s " +:+ os_path_join (os_path_join (os_path_join "/gout" "models") "model_a")
                 "input_model_a.dat"
    +:+ " " +:+ os_path_join (os_path_join (os_path_join "/gout" "models") "model_t")
                  (py_replace_all "input_model_a.dat" "model_a" "model_t")
    ∈ copyOutput_calls "/gout" false "12C16O" "model_a" "model_t" ex_ls_old [].
Proof.
  apply (copyOutput_calls_input "/gout" false "12C16O" "model_a" "model_t" ex_ls_old []
           "input_model_a.dat"); [by_computation|by_computation|right|]; by_computation.
Defined.

Example ex_calls :
  copyOutput_calls "/gout" true "12C16O" "model_a" "model_m" ex_ls_old
    ["coolfgr_allmodel_m.dat"; "parameters_model_m.dat"]
  = ["ln -s /gout/models/model_a/input_model_a.dat /gout/models/model_m/input_model_m.dat"].
Proof. by_computation. Qed.

Lemma copyOutput_links_again_witness :
  copyOutput_links false "12C16O" "model_a" "model_t" ex_ls_old
    (["input_model_t.dat"]
     ++ (copyOutput_links false "12C16O" "model_a" "model_t" ex_ls_old
           ["input_model_t.dat"]).*2)
  = [].
Proof.
  apply (copyOutput_links_again false "12C16O" "model_a" "model_t" ex_ls_old
           ["input_model_t.dat"]).
  - intros nls Hnls. apply elem_of_app. by left.
  - intros p Hp. apply elem_of_app. right. apply list_elem_of_fmap. by exists p.
Defined.
